(** * sistema-inventario: login and admin "create user" pages

    A shallow embedding of the three browser scripts of the repository

      - [src/unnamed/part_000]          login page, simulated sign-in
      - [src/unnamed/part_001]          login page, sign-in through the API
      - [src/FrontEnd/js/admin_users.js] admin page, session guard and
                                         "create user" form

    and the properties their specification states about them.

    JavaScript strings are sequences of UTF-16 code units, so a string is
    a [list N] here; [utf16] turns a literal of this file into its code
    units.  Each script runs against a record holding the part of the
    browser it touches (elements of the page, local storage, the location,
    pending timers), threaded through a state-and-exception monad. *)

From Stdlib Require Import NArith Ascii String Bool Lia.
From stdpp Require Import gmap list.

Set Default Proof Using "Type".
Local Open Scope N_scope.

(** ** Strings *)

Abbreviation jsstring := (list N).

(** UTF-8 decoding of the bytes of a literal into code points. *)
Fixpoint utf8_points (bs : list N) : list N :=
  match bs with
  | [] => []
  | b0 :: t0 =>
      if b0 <? 128 then b0 :: utf8_points t0
      else if b0 <? 224 then
        match t0 with
        | b1 :: t1 => ((b0 mod 32) * 64 + b1 mod 64) :: utf8_points t1
        | _ => []
        end
      else if b0 <? 240 then
        match t0 with
        | b1 :: b2 :: t2 =>
            ((b0 mod 16) * 4096 + (b1 mod 64) * 64 + b2 mod 64) :: utf8_points t2
        | _ => []
        end
      else
        match t0 with
        | b1 :: b2 :: b3 :: t3 =>
            ((b0 mod 8) * 262144 + (b1 mod 64) * 4096 + (b2 mod 64) * 64 + b3 mod 64)
              :: utf8_points t3
        | _ => []
        end
  end.

(** A code point as one code unit, or as a surrogate pair. *)
Definition utf16_units (cp : N) : list N :=
  if cp <? 65536 then [cp]
  else [55296 + (cp - 65536) / 1024; 56320 + (cp - 65536) mod 1024].

Definition utf16 (s : string) : jsstring :=
  flat_map utf16_units (utf8_points (map N_of_ascii (list_ascii_of_string s))).

(** [\s] of ECMAScript regular expressions, which is also what
    [String.prototype.trim] strips: WhiteSpace and LineTerminator. *)
Definition is_space (c : N) : bool :=
  (c =? 9) || (c =? 10) || (c =? 11) || (c =? 12) || (c =? 13) || (c =? 32)
  || (c =? 160) || (c =? 5760) || ((8192 <=? c) && (c <=? 8202))
  || (c =? 8232) || (c =? 8233) || (c =? 8239) || (c =? 8287)
  || (c =? 12288) || (c =? 65279).

Fixpoint trim_start (s : jsstring) : jsstring :=
  match s with
  | c :: t => if is_space c then trim_start t else s
  | [] => []
  end.

Definition trim_end (s : jsstring) : jsstring := rev (trim_start (rev s)).

(** [value.trim()] *)
Definition trim (s : jsstring) : jsstring := trim_end (trim_start s).

(** ** Regular expressions

    The fragment of ECMAScript patterns the scripts use, and the
    backtracking matcher of the language definition: a pattern is run
    from an index of the input with a continuation that is given the
    index reached. *)

Inductive class_item :=
| CChar (c : N)     (* a literal character *)
| CSpace.           (* the escape \s *)

Inductive regex :=
| Bol                                            (* ^ *)
| Eol                                            (* $ *)
| Chr (c : N)                                    (* a literal, \. included *)
| Class (negated : bool) (items : list class_item)  (* [...] and [^...] *)
| Seq (r1 r2 : regex)
| Plus (r : regex).                              (* r+ , greedy *)

Definition item_mem (d : N) (it : class_item) : bool :=
  match it with
  | CChar c => c =? d
  | CSpace => is_space d
  end.

Definition class_mem (negated : bool) (items : list class_item) (d : N) : bool :=
  xorb negated (existsb (item_mem d) items).

(** The iterations of [r+] after the first: each must consume input
    (an iteration that ends where it began fails), so [length input]
    of them are enough. *)
Fixpoint more (m : nat -> (nat -> bool) -> bool) (k : nat -> bool)
  (n : nat) (y : nat) : bool :=
  match n with
  | O => k y
  | S n' => m y (fun z => if (z =? y)%nat then false else more m k n' z) || k y
  end.

Fixpoint rmatch (input : jsstring) (r : regex) (x : nat) (k : nat -> bool)
  {struct r} : bool :=
  match r with
  | Bol => if (x =? 0)%nat then k x else false
  | Eol => if (x =? length input)%nat then k x else false
  | Chr c =>
      match input !! x with
      | Some d => if c =? d then k (S x) else false
      | None => false
      end
  | Class negated items =>
      match input !! x with
      | Some d => if class_mem negated items d then k (S x) else false
      | None => false
      end
  | Seq r1 r2 => rmatch input r1 x (fun y => rmatch input r2 y k)
  | Plus r1 => rmatch input r1 x (more (rmatch input r1) k (length input))
  end.

(** [re.test(input)] for a pattern without flags: the match is tried
    from every index, left to right. *)
Definition regex_test (r : regex) (input : jsstring) : bool :=
  existsb (fun i => rmatch input r i (fun _ => true)) (seq 0 (S (length input))).

(** [/^[^\s@]+@[^\s@]+\.[^\s@]+$/] *)
Definition at_sign : N := 64.
Definition full_stop : N := 46.

Definition not_space_at : regex := Class true [CSpace; CChar at_sign].

Definition email_re : regex :=
  Seq Bol
 (Seq (Plus not_space_at)
 (Seq (Chr at_sign)
 (Seq (Plus not_space_at)
 (Seq (Chr full_stop)
 (Seq (Plus not_space_at)
      Eol))))).

Definition isValidEmail (value : jsstring) : bool := regex_test email_re value.

(** What it means for a pattern to match, as a relation: [matches input
    r x y] when [r] matches the code units of [input] from index [x] up
    to index [y]. *)
Inductive matches (input : jsstring) : regex -> nat -> nat -> Prop :=
| M_Bol : matches input Bol 0 0
| M_Eol : matches input Eol (length input) (length input)
| M_Chr c x :
    input !! x = Some c -> matches input (Chr c) x (S x)
| M_Class negated items d x :
    input !! x = Some d -> class_mem negated items d = true ->
    matches input (Class negated items) x (S x)
| M_Seq r1 r2 x y z :
    matches input r1 x y -> matches input r2 y z ->
    matches input (Seq r1 r2) x z
| M_Plus_one r x y :
    matches input r x y -> matches input (Plus r) x y
| M_Plus_more r x y z :
    matches input r x y -> matches input (Plus r) y z ->
    matches input (Plus r) x z.

(** A string matches a pattern when some part of it does. *)
Definition regex_accepts (r : regex) (input : jsstring) : Prop :=
  exists x y, matches input r x y.

(** The shape of the strings of [email_re], spelled out. *)
Definition email_char (c : N) : bool := negb (is_space c) && negb (c =? at_sign).

Definition email_shape (s : jsstring) : Prop :=
  exists l d t,
    s = l ++ at_sign :: d ++ full_stop :: t /\
    l <> [] /\ d <> [] /\ t <> [] /\
    Forall (fun c => email_char c = true) (l ++ d ++ t).

(** Zero or more further iterations of [r], from index to index. *)
Inductive iterate (input : jsstring) (r : regex) : nat -> nat -> Prop :=
| It_stop y : (y <= length input)%nat -> iterate input r y y
| It_step x y z :
    matches input r x y -> iterate input r y z -> iterate input r x z.

(** ** Values

    The values the scripts handle: what [JSON.parse] and [res.json()]
    produce, the object literals the scripts build, and [undefined] for an
    absent property.  A number is observed by the scripts only through
    its truth value and its text, so it is carried as these two. *)

Fixpoint str_eqb (a b : jsstring) : bool :=
  match a, b with
  | [], [] => true
  | x :: a', y :: b' => (x =? y) && str_eqb a' b'
  | _, _ => false
  end.

Record number := { num_text : jsstring; num_truthy : bool }.

#[warnings="-register-all"]
Inductive jsval :=
| VUndef
| VNull
| VBool (b : bool)
| VNum (n : number)
| VStr (s : jsstring)
| VArr (items : list jsval)
| VObj (fields : list (jsstring * jsval)).

(** ToBoolean *)
Definition truthy (v : jsval) : bool :=
  match v with
  | VUndef | VNull => false
  | VBool b => b
  | VNum n => num_truthy n
  | VStr s => negb (str_eqb s [])
  | VArr _ | VObj _ => true
  end.

Definition nullish (v : jsval) : bool :=
  match v with
  | VUndef | VNull => true
  | _ => false
  end.

(** Whether an object has the own property [k]. *)
Definition has_key (k : jsstring) (fs : list (jsstring * jsval)) : bool :=
  existsb (fun kv => str_eqb k (fst kv)) fs.

(** ToString, as template literals, [new Error(...)] and the setter of
    [textContent] apply it; [None] is the TypeError of a value that has
    no primitive value.  The values here are data: no property of theirs
    is a function.  So an object converts through
    [Object.prototype.toString], unless it has an own property
    "toString", which hides that method and is not callable; and an array
    joins the texts of its elements, [null] and [undefined] counting as
    empty. *)
Fixpoint to_string (v : jsval) : option jsstring :=
  match v with
  | VUndef => Some (utf16 "undefined")
  | VNull => Some (utf16 "null")
  | VBool true => Some (utf16 "true")
  | VBool false => Some (utf16 "false")
  | VNum n => Some (num_text n)
  | VStr s => Some s
  | VArr items =>
      (fix join (l : list jsval) : option jsstring :=
         match l with
         | [] => Some []
         | x :: t =>
             match (if nullish x then Some [] else to_string x),
                   match t with
                   | [] => Some []
                   | _ => match join t with
                          | Some r => Some (44 :: r)
                          | None => None
                          end
                   end with
             | Some a, Some b => Some (a ++ b)
             | _, _ => None
             end
         end) items
  | VObj fs =>
      if has_key (utf16 "toString") fs then None
      else Some (utf16 "[object Object]")
  end.

(** Whether a value has a text, and that text. *)
Definition printable (v : jsval) : bool :=
  match to_string v with Some _ => true | None => false end.

Definition text (v : jsval) : jsstring :=
  match to_string v with Some s => s | None => [] end.

(** [a || b] *)
Definition js_or (a b : jsval) : jsval := if truthy a then a else b.

(** [a || b] on strings *)
Definition str_or (a b : jsstring) : jsstring := if truthy (VStr a) then a else b.

(** [v === "literal"] *)
Definition is_string (v : jsval) (s : jsstring) : bool :=
  match v with
  | VStr s' => str_eqb s' s
  | _ => false
  end.

(** An own property of an object; the first binding of a key is the
    property. *)
Fixpoint field (k : jsstring) (fs : list (jsstring * jsval)) : jsval :=
  match fs with
  | [] => VUndef
  | (k', v) :: t => if str_eqb k k' then v else field k t
  end.

(** The property [k] of a value that is neither [null] nor [undefined]. *)
Definition prop (v : jsval) (k : jsstring) : jsval :=
  match v with
  | VObj fs => field k fs
  | _ => VUndef
  end.

(** The decimal text of a status code. *)
Definition digit_code (d : N) : N := 48 + d.

Fixpoint uint_codes (u : Decimal.uint) : jsstring :=
  match u with
  | Decimal.Nil => []
  | Decimal.D0 u' => digit_code 0 :: uint_codes u'
  | Decimal.D1 u' => digit_code 1 :: uint_codes u'
  | Decimal.D2 u' => digit_code 2 :: uint_codes u'
  | Decimal.D3 u' => digit_code 3 :: uint_codes u'
  | Decimal.D4 u' => digit_code 4 :: uint_codes u'
  | Decimal.D5 u' => digit_code 5 :: uint_codes u'
  | Decimal.D6 u' => digit_code 6 :: uint_codes u'
  | Decimal.D7 u' => digit_code 7 :: uint_codes u'
  | Decimal.D8 u' => digit_code 8 :: uint_codes u'
  | Decimal.D9 u' => digit_code 9 :: uint_codes u'
  end.

Definition N_to_string (n : N) : jsstring := uint_codes (N.to_uint n).

(** ** Exceptions and the platform *)

Inductive error_kind :=
| TypeError       (* raised by the engine, and by a failed [fetch] *)
| SyntaxError     (* raised by [JSON.parse] and [res.json()] *)
| PlainError.     (* [new Error(message)] *)

Record error := { kind : error_kind; message : jsstring }.

Inductive result (A : Type) :=
| Ok (a : A)
| Throw (e : error).
Arguments Ok {A} a.
Arguments Throw {A} e.

(** What the scripts call and the repository does not define.  The
    properties below hold whatever these are. *)
Record Platform := {
  JSON_stringify : jsval -> jsstring;
  JSON_parse : jsstring -> result jsval;
  toLowerCase : jsstring -> jsstring;
  (* the message of the TypeError of reading a property of [null] or
     [undefined] *)
  null_read_message : jsstring -> jsstring;
  (* the message of the TypeError of converting to a string an object
     that has no primitive value *)
  to_primitive_message : jsstring
}.

Definition conversion_error (P : Platform) : error :=
  {| kind := TypeError; message := to_primitive_message P |}.

(** ** The browser

    The window: local storage, the location, the timers set and not yet
    fired, the alerts shown.  [trace] is a ghost record of the order of
    two kinds of effects: the submit button being disabled or enabled and
    relabelled, and a request starting and settling. *)

(** The second argument of [fetch], and a request: [fetch(url, options)]. *)
Record options := {
  method : jsstring;
  headers : list (jsstring * jsstring);
  body : jsstring
}.

Record request := { url : jsstring; opts : options }.

(** A response: its status, and what [res.json()] settles with. *)
Record Response := { status : N; json : result jsval }.

(** [res.ok]: the status is in the range 200-299. *)
Definition res_ok (r : Response) : bool := (200 <=? status r) && (status r <=? 299).

Inductive fetch_reply :=
| Fulfilled (res : Response)
| Rejected (e : error).

Inductive event :=
| EvButton (disabled : bool) (label : jsstring)  (* the submit button was set so *)
| EvFetch (rq : request)                         (* a request started *)
| EvSettled.                                     (* the request settled *)

(** What a timer does when it fires. *)
Inductive callback :=
| Navigate (target : jsstring).      (* () => window.location.href = target *)

Record Window := {
  localStorage : gmap jsstring jsstring;
  location_href : jsstring;
  timers : list (N * callback);
  alerts : list jsstring;
  trace : list event
}.

Record Page (D : Type) := { win : Window; dom : D }.
Arguments win {D} p.
Arguments dom {D} p.

Definition requests_of (t : list event) : list request :=
  flat_map (fun e => match e with EvFetch rq => [rq] | _ => [] end) t.

(** ** A state and exception monad for the scripts *)

Definition M (D A : Type) : Type := Page D -> result A * Page D.

Section Monad.
Context {D : Type}.

Definition ret {A} (a : A) : M D A := fun p => (Ok a, p).

Definition bind {A B} (m : M D A) (f : A -> M D B) : M D B :=
  fun p =>
    match m p with
    | (Ok a, p') => f a p'
    | (Throw e, p') => (Throw e, p')
    end.

Definition throw {A} (e : error) : M D A := fun p => (Throw e, p).

Definition lift {A} (r : result A) : M D A := fun p => (r, p).

(** [try { m } catch (err) { h err }] *)
Definition try_catch {A} (m : M D A) (h : error -> M D A) : M D A :=
  fun p =>
    match m p with
    | (Ok a, p') => (Ok a, p')
    | (Throw e, p') => h e p'
    end.

(** [try { m } finally { f }]: [f] runs however [m] ends, and the
    outcome is that of [m] unless [f] throws. *)
Definition try_finally {A} (m : M D A) (f : M D unit) : M D A :=
  fun p =>
    match m p with
    | (r, p') =>
        match f p' with
        | (Ok _, p'') => (r, p'')
        | (Throw e, p'') => (Throw e, p'')
        end
    end.

Definition gets {A} (f : D -> A) : M D A := fun p => (Ok (f (dom p)), p).

Definition modify (f : D -> D) : M D unit :=
  fun p => (Ok tt, {| win := win p; dom := f (dom p) |}).

Definition modify_win (f : Window -> Window) : M D unit :=
  fun p => (Ok tt, {| win := f (win p); dom := dom p |}).

Definition gets_win {A} (f : Window -> A) : M D A := fun p => (Ok (f (win p)), p).

(** How a run ends, and the page it leaves. *)
Definition outcome {A} (m : M D A) (p : Page D) : result A := fst (m p).
Definition exec {A} (m : M D A) (p : Page D) : Page D := snd (m p).
End Monad.

Declare Scope js_scope.
Delimit Scope js_scope with js.
Notation "x <- c1 ;; c2" := (bind c1 (fun x => c2))
  (at level 100, c1 at next level, right associativity) : js_scope.
Notation "c1 ;; c2" := (bind c1 (fun _ => c2))
  (at level 100, right associativity) : js_scope.
Local Open Scope js_scope.

Section WindowOps.
Context {D : Type}.

Definition set_storage (f : gmap jsstring jsstring -> gmap jsstring jsstring)
  (w : Window) : Window :=
  {| localStorage := f (localStorage w); location_href := location_href w;
     timers := timers w; alerts := alerts w; trace := trace w |}.

Definition set_location (target : jsstring) (w : Window) : Window :=
  {| localStorage := localStorage w; location_href := target;
     timers := timers w; alerts := alerts w; trace := trace w |}.

Definition add_timer (t : N * callback) (w : Window) : Window :=
  {| localStorage := localStorage w; location_href := location_href w;
     timers := timers w ++ [t]; alerts := alerts w; trace := trace w |}.

Definition add_alert (text : jsstring) (w : Window) : Window :=
  {| localStorage := localStorage w; location_href := location_href w;
     timers := timers w; alerts := alerts w ++ [text]; trace := trace w |}.

Definition add_event (e : event) (w : Window) : Window :=
  {| localStorage := localStorage w; location_href := location_href w;
     timers := timers w; alerts := alerts w; trace := trace w ++ [e] |}.

(** [localStorage.getItem(key)]; [None] is [null]. *)
Definition getItem (key : jsstring) : M D (option jsstring) :=
  gets_win (fun w => localStorage w !! key).

(** [localStorage.setItem(key, value)] *)
Definition setItem (key value : jsstring) : M D unit :=
  modify_win (set_storage (insert key value)).

(** [localStorage.removeItem(key)] *)
Definition removeItem (key : jsstring) : M D unit :=
  modify_win (set_storage (delete key)).

(** [window.location.href = target] *)
Definition navigate (target : jsstring) : M D unit :=
  modify_win (set_location target).

(** [setTimeout(cb, ms)] *)
Definition setTimeout (cb : callback) (ms : N) : M D unit :=
  modify_win (add_timer (ms, cb)).

(** [alert(text)] *)
Definition alert (text : jsstring) : M D unit :=
  modify_win (add_alert text).

Definition emit (e : event) : M D unit := modify_win (add_event e).

(** [await fetch(url, options)]: the request starts, the network
    answers, and the await either yields the response or throws the
    rejection. *)
Definition fetch (net : request -> fetch_reply) (rq : request) : M D Response :=
  emit (EvFetch rq) ;;
  emit EvSettled ;;
  match net rq with
  | Fulfilled res => ret res
  | Rejected e => throw e
  end.

(** [v.k]: reading a property of [null] or [undefined] throws; the
    keys the scripts read ([token], [user], [role], [name], [detail],
    [email]) are no properties of strings, numbers, booleans or
    arrays. *)
Definition get_prop (P : Platform) (v : jsval) (k : jsstring) : M D jsval :=
  if nullish v
  then throw {| kind := TypeError; message := null_read_message P k |}
  else ret (prop v k).

(** [v?.k] *)
Definition get_opt (P : Platform) (v : jsval) (k : jsstring) : M D jsval :=
  if nullish v then ret VUndef else get_prop P v k.

(** ToString in a script: the text, or the TypeError thrown. *)
Definition ToString (P : Platform) (v : jsval) : M D jsstring :=
  match to_string v with
  | Some s => ret s
  | None => throw (conversion_error P)
  end.

(** The conversion of a value assigned to [el.textContent]: [null] and
    [undefined] give the empty text. *)
Definition dom_text (P : Platform) (v : jsval) : M D jsstring :=
  if nullish v then ret [] else ToString P v.
End WindowOps.

Arguments utf16 : simpl never.
Arguments isValidEmail : simpl never.
Arguments trim : simpl never.
Arguments N_to_string : simpl never.

(** ** The login page

    [src/unnamed/part_000] and [src/unnamed/part_001] are two versions of
    the script of the login page.  They are the same text up to the
    [submit] handler, so the elements of the page and the helpers are
    modelled once, in [Login]; [LoginDemo] is the handler of [part_000],
    which signs in against a built-in account without any request, and
    [LoginApi] the handler of [part_001], which asks the API. *)

Module Login.

(** The elements the script obtains with [document.getElementById], by
    the properties it reads or writes. *)
Record Dom := {
  email_value : jsstring;             (* email.value *)
  password_value : jsstring;          (* password.value *)
  password_type : jsstring;           (* password.type *)
  remember_checked : bool;            (* remember.checked *)
  emailError_text : jsstring;         (* emailError.textContent *)
  passError_text : jsstring;          (* passError.textContent *)
  formMsg_text : jsstring;            (* formMsg.textContent *)
  formMsg_display : jsstring;         (* formMsg.style.display *)
  formMsg_classList : list jsstring;  (* formMsg.classList *)
  btnLogin_disabled : bool;           (* btnLogin.disabled *)
  btnLogin_text : jsstring;           (* btnLogin.textContent *)
  togglePass_text : jsstring          (* togglePass.textContent *)
}.

Definition set_password_type v d :=
  {| email_value := email_value d; password_value := password_value d;
     password_type := v; remember_checked := remember_checked d;
     emailError_text := emailError_text d; passError_text := passError_text d;
     formMsg_text := formMsg_text d; formMsg_display := formMsg_display d;
     formMsg_classList := formMsg_classList d;
     btnLogin_disabled := btnLogin_disabled d; btnLogin_text := btnLogin_text d;
     togglePass_text := togglePass_text d |}.

Definition set_emailError_text v d :=
  {| email_value := email_value d; password_value := password_value d;
     password_type := password_type d; remember_checked := remember_checked d;
     emailError_text := v; passError_text := passError_text d;
     formMsg_text := formMsg_text d; formMsg_display := formMsg_display d;
     formMsg_classList := formMsg_classList d;
     btnLogin_disabled := btnLogin_disabled d; btnLogin_text := btnLogin_text d;
     togglePass_text := togglePass_text d |}.

Definition set_passError_text v d :=
  {| email_value := email_value d; password_value := password_value d;
     password_type := password_type d; remember_checked := remember_checked d;
     emailError_text := emailError_text d; passError_text := v;
     formMsg_text := formMsg_text d; formMsg_display := formMsg_display d;
     formMsg_classList := formMsg_classList d;
     btnLogin_disabled := btnLogin_disabled d; btnLogin_text := btnLogin_text d;
     togglePass_text := togglePass_text d |}.

Definition set_formMsg_text v d :=
  {| email_value := email_value d; password_value := password_value d;
     password_type := password_type d; remember_checked := remember_checked d;
     emailError_text := emailError_text d; passError_text := passError_text d;
     formMsg_text := v; formMsg_display := formMsg_display d;
     formMsg_classList := formMsg_classList d;
     btnLogin_disabled := btnLogin_disabled d; btnLogin_text := btnLogin_text d;
     togglePass_text := togglePass_text d |}.

Definition set_formMsg_display v d :=
  {| email_value := email_value d; password_value := password_value d;
     password_type := password_type d; remember_checked := remember_checked d;
     emailError_text := emailError_text d; passError_text := passError_text d;
     formMsg_text := formMsg_text d; formMsg_display := v;
     formMsg_classList := formMsg_classList d;
     btnLogin_disabled := btnLogin_disabled d; btnLogin_text := btnLogin_text d;
     togglePass_text := togglePass_text d |}.

Definition set_formMsg_classList v d :=
  {| email_value := email_value d; password_value := password_value d;
     password_type := password_type d; remember_checked := remember_checked d;
     emailError_text := emailError_text d; passError_text := passError_text d;
     formMsg_text := formMsg_text d; formMsg_display := formMsg_display d;
     formMsg_classList := v;
     btnLogin_disabled := btnLogin_disabled d; btnLogin_text := btnLogin_text d;
     togglePass_text := togglePass_text d |}.

Definition set_btnLogin (disabled : bool) (text : jsstring) d :=
  {| email_value := email_value d; password_value := password_value d;
     password_type := password_type d; remember_checked := remember_checked d;
     emailError_text := emailError_text d; passError_text := passError_text d;
     formMsg_text := formMsg_text d; formMsg_display := formMsg_display d;
     formMsg_classList := formMsg_classList d;
     btnLogin_disabled := disabled; btnLogin_text := text;
     togglePass_text := togglePass_text d |}.

Definition set_togglePass_text v d :=
  {| email_value := email_value d; password_value := password_value d;
     password_type := password_type d; remember_checked := remember_checked d;
     emailError_text := emailError_text d; passError_text := passError_text d;
     formMsg_text := formMsg_text d; formMsg_display := formMsg_display d;
     formMsg_classList := formMsg_classList d;
     btnLogin_disabled := btnLogin_disabled d; btnLogin_text := btnLogin_text d;
     togglePass_text := v |}.

(** [classList.add(c)] and [classList.remove(c)] *)
Definition classList_remove (c : jsstring) (l : list jsstring) : list jsstring :=
  filter (fun c' => str_eqb c' c = false) l.

Definition classList_add (c : jsstring) (l : list jsstring) : list jsstring :=
  if existsb (str_eqb c) l then l else l ++ [c].

Definition setLoading (isLoading : bool) : M Dom unit :=
  let label := if isLoading then utf16 "Ingresando..." else utf16 "Entrar" in
  modify (set_btnLogin isLoading label) ;;
  emit (EvButton isLoading label).

(** The two elements [showFieldError] is called with. *)
Inductive error_el := emailError | passError.

Definition showFieldError (el : error_el) (msg : jsstring) : M Dom unit :=
  match el with
  | emailError => modify (set_emailError_text msg)
  | passError => modify (set_passError_text msg)
  end.

Definition clearErrors : M Dom unit :=
  modify (set_emailError_text []) ;;
  modify (set_passError_text []) ;;
  modify (set_formMsg_display (utf16 "none")) ;;
  modify (set_formMsg_text []) ;;
  modify (fun d => set_formMsg_classList
                     (classList_remove (utf16 "ok") (formMsg_classList d)) d).

(** The click handler of [togglePass]. *)
Definition togglePass_click : M Dom unit :=
  isHidden <- gets (fun d => str_eqb (password_type d) (utf16 "password")) ;;
  modify (set_password_type (if isHidden then utf16 "text" else utf16 "password")) ;;
  modify (set_togglePass_text (if isHidden then utf16 "🙈" else utf16 "👁")).

Definition email_message : jsstring := utf16 "Ingresa un email válido.".
Definition password_message : jsstring :=
  utf16 "La contraseña debe tener al menos 6 caracteres.".

(** [!pVal || pVal.length < 6] *)
Definition bad_password (pVal : jsstring) : bool :=
  negb (truthy (VStr pVal)) || (length pVal <? 6)%nat.

(** The head of the [submit] handler, common to both versions: the
    errors are cleared, the fields are read and checked, and the answer
    is the pair of values to sign in with, or [None] when a check
    failed and the handler returns. *)
Definition validate : M Dom (option (jsstring * jsstring)) :=
  clearErrors ;;
  eVal <- gets (fun d => trim (email_value d)) ;;
  pVal <- gets password_value ;;
  let ok := true in
  ok <- (if negb (isValidEmail eVal)
         then showFieldError emailError email_message ;; ret false
         else ret ok) ;;
  ok <- (if bad_password pVal
         then showFieldError passError password_message ;; ret false
         else ret ok) ;;
  if negb ok then ret None else ret (Some (eVal, pVal)).

(** The end of the [try] block, common to both versions: the session
    is stored, the success message shown, the redirect scheduled. *)
Definition store_session (P : Platform) (session : jsval) : M Dom unit :=
  setItem (utf16 "session") (JSON_stringify P session) ;;
  modify (set_formMsg_text (utf16 "¡Login correcto! Redirigiendo…")) ;;
  modify (fun d => set_formMsg_classList
                     (classList_add (utf16 "ok") (formMsg_classList d)) d) ;;
  modify (set_formMsg_display (utf16 "block")) ;;
  setTimeout (Navigate (utf16 "./dashboard.html")) 500.

(** The [catch] block, common to both versions. *)
Definition show_failure (err : error) : M Dom unit :=
  modify (set_formMsg_text
            (str_or (message err) (utf16 "No se pudo iniciar sesión."))) ;;
  modify (set_formMsg_display (utf16 "block")).

End Login.

(** [src/unnamed/part_000] *)
Module LoginDemo.
Import Login.

Definition demoEmail : jsstring := utf16 "kevin@test.com".
Definition demoPass : jsstring := utf16 "123456".

(** The [try] statement of the handler, which runs once the button is
    busy.  The wait of 600 ms that stands for the request touches
    nothing of the model. *)
Definition attempt (P : Platform) (eVal pVal : jsstring) : M Dom unit :=
  try_finally
    (try_catch
       ((if negb (str_eqb eVal demoEmail) || negb (str_eqb pVal demoPass)
         then throw {| kind := PlainError;
                       message := utf16 "Email o contraseña incorrectos." |}
         else ret tt) ;;
        checked <- gets remember_checked ;;
        let session :=
          VObj [(utf16 "token", VStr (utf16 "demo_token_123"));
                (utf16 "user",
                  VObj [(utf16 "name", VStr (utf16 "Kevin"));
                        (utf16 "email", VStr eVal);
                        (utf16 "role", VStr (utf16 "admin"))]);
                (utf16 "remember", VBool checked)] in
        store_session P session)
       show_failure)
    (setLoading false).

(** The listener of the form's [submit] event.  [e.preventDefault()]
    touches nothing of the model. *)
Definition submit (P : Platform) : M Dom unit :=
  v <- validate ;;
  match v with
  | None => ret tt
  | Some (eVal, pVal) => setLoading true ;; attempt P eVal pVal
  end.
End LoginDemo.

(** [src/unnamed/part_001] *)
Module LoginApi.
Import Login.

Definition login_request (P : Platform) (eVal pVal : jsstring) : request :=
  {| url := utf16 "http://localhost:3000/auth/login";
     opts :=
       {| method := utf16 "POST";
          headers := [(utf16 "Content-Type", utf16 "application/json")];
          body := JSON_stringify P
                    (VObj [(utf16 "email", VStr eVal);
                           (utf16 "password", VStr pVal)]) |} |}.

(** The [try] statement of the handler, which runs once the button is
    busy; [net] is the network, which answers the request. *)
Definition attempt (P : Platform) (net : request -> fetch_reply)
  (eVal pVal : jsstring) : M Dom unit :=
  try_finally
    (try_catch
       (res <- fetch net (login_request P eVal pVal) ;;
        data <- lift (json res) ;;
        (if negb (res_ok res)
         then
           detail <- get_prop P data (utf16 "detail") ;;
           m <- ToString P
                  (js_or detail (VStr (utf16 "Email o contraseña incorrectos."))) ;;
           throw {| kind := PlainError; message := m |}
         else ret tt) ;;
        token <- get_prop P data (utf16 "token") ;;
        user <- get_prop P data (utf16 "user") ;;
        checked <- gets remember_checked ;;
        let session :=
          VObj [(utf16 "token", token);
                (utf16 "user", user);
                (utf16 "remember", VBool checked)] in
        store_session P session)
       show_failure)
    (setLoading false).

(** The listener of the form's [submit] event. *)
Definition submit (P : Platform) (net : request -> fetch_reply) : M Dom unit :=
  v <- validate ;;
  match v with
  | None => ret tt
  | Some (eVal, pVal) => setLoading true ;; attempt P net eVal pVal
  end.
End LoginApi.

(** ** The admin page: [src/FrontEnd/js/admin_users.js] *)

Module Admin.

Definition API_BASE : jsstring := utf16 "http://localhost:3000".

(** The listeners the script registers. *)
Inductive listener :=
| logoutBtn_click     (* goLogin *)
| togglePass_click_l  (* the password toggle *)
| form_submit.        (* the create-user handler *)

(** The elements the script obtains with [document.getElementById], by
    the properties it reads or writes.  The [_default] fields are the
    values [form.reset()] puts back, which the markup of the page
    fixes. *)
Record Dom := {
  subtitle_text : jsstring;       (* #subtitle .textContent *)
  name_value : jsstring;          (* nameEl.value *)
  email_value : jsstring;         (* emailEl.value *)
  password_value : jsstring;      (* passEl.value *)
  password_type : jsstring;       (* passEl.type *)
  role_value : jsstring;          (* roleEl.value *)
  name_default : jsstring;
  email_default : jsstring;
  password_default : jsstring;
  role_default : jsstring;
  btn_disabled : bool;            (* btn.disabled *)
  btn_text : jsstring;            (* btn.textContent *)
  msg_className : jsstring;       (* msg.className *)
  msg_text : jsstring;            (* msg.textContent *)
  nameErr_text : jsstring;        (* nameErr.textContent *)
  emailErr_text : jsstring;       (* emailErr.textContent *)
  passErr_text : jsstring;        (* passErr.textContent *)
  togglePass_text : jsstring;     (* togglePass.textContent *)
  listeners : list listener
}.

Definition set_subtitle_text v d :=
  {| subtitle_text := v; name_value := name_value d; email_value := email_value d;
     password_value := password_value d; password_type := password_type d;
     role_value := role_value d; name_default := name_default d;
     email_default := email_default d; password_default := password_default d;
     role_default := role_default d; btn_disabled := btn_disabled d;
     btn_text := btn_text d; msg_className := msg_className d;
     msg_text := msg_text d; nameErr_text := nameErr_text d;
     emailErr_text := emailErr_text d; passErr_text := passErr_text d;
     togglePass_text := togglePass_text d; listeners := listeners d |}.

Definition set_values (n e p r : jsstring) d :=
  {| subtitle_text := subtitle_text d; name_value := n; email_value := e;
     password_value := p; password_type := password_type d;
     role_value := r; name_default := name_default d;
     email_default := email_default d; password_default := password_default d;
     role_default := role_default d; btn_disabled := btn_disabled d;
     btn_text := btn_text d; msg_className := msg_className d;
     msg_text := msg_text d; nameErr_text := nameErr_text d;
     emailErr_text := emailErr_text d; passErr_text := passErr_text d;
     togglePass_text := togglePass_text d; listeners := listeners d |}.

Definition set_role_value v d :=
  set_values (name_value d) (email_value d) (password_value d) v d.

Definition set_password_type v d :=
  {| subtitle_text := subtitle_text d; name_value := name_value d;
     email_value := email_value d;
     password_value := password_value d; password_type := v;
     role_value := role_value d; name_default := name_default d;
     email_default := email_default d; password_default := password_default d;
     role_default := role_default d; btn_disabled := btn_disabled d;
     btn_text := btn_text d; msg_className := msg_className d;
     msg_text := msg_text d; nameErr_text := nameErr_text d;
     emailErr_text := emailErr_text d; passErr_text := passErr_text d;
     togglePass_text := togglePass_text d; listeners := listeners d |}.

Definition set_btn (disabled : bool) (text : jsstring) d :=
  {| subtitle_text := subtitle_text d; name_value := name_value d;
     email_value := email_value d;
     password_value := password_value d; password_type := password_type d;
     role_value := role_value d; name_default := name_default d;
     email_default := email_default d; password_default := password_default d;
     role_default := role_default d; btn_disabled := disabled;
     btn_text := text; msg_className := msg_className d;
     msg_text := msg_text d; nameErr_text := nameErr_text d;
     emailErr_text := emailErr_text d; passErr_text := passErr_text d;
     togglePass_text := togglePass_text d; listeners := listeners d |}.

Definition set_msg (className text : jsstring) d :=
  {| subtitle_text := subtitle_text d; name_value := name_value d;
     email_value := email_value d;
     password_value := password_value d; password_type := password_type d;
     role_value := role_value d; name_default := name_default d;
     email_default := email_default d; password_default := password_default d;
     role_default := role_default d; btn_disabled := btn_disabled d;
     btn_text := btn_text d; msg_className := className;
     msg_text := text; nameErr_text := nameErr_text d;
     emailErr_text := emailErr_text d; passErr_text := passErr_text d;
     togglePass_text := togglePass_text d; listeners := listeners d |}.

Definition set_errors (n e p : jsstring) d :=
  {| subtitle_text := subtitle_text d; name_value := name_value d;
     email_value := email_value d;
     password_value := password_value d; password_type := password_type d;
     role_value := role_value d; name_default := name_default d;
     email_default := email_default d; password_default := password_default d;
     role_default := role_default d; btn_disabled := btn_disabled d;
     btn_text := btn_text d; msg_className := msg_className d;
     msg_text := msg_text d; nameErr_text := n;
     emailErr_text := e; passErr_text := p;
     togglePass_text := togglePass_text d; listeners := listeners d |}.

Definition set_nameErr_text v d := set_errors v (emailErr_text d) (passErr_text d) d.
Definition set_emailErr_text v d := set_errors (nameErr_text d) v (passErr_text d) d.
Definition set_passErr_text v d := set_errors (nameErr_text d) (emailErr_text d) v d.

Definition set_togglePass_text v d :=
  {| subtitle_text := subtitle_text d; name_value := name_value d;
     email_value := email_value d;
     password_value := password_value d; password_type := password_type d;
     role_value := role_value d; name_default := name_default d;
     email_default := email_default d; password_default := password_default d;
     role_default := role_default d; btn_disabled := btn_disabled d;
     btn_text := btn_text d; msg_className := msg_className d;
     msg_text := msg_text d; nameErr_text := nameErr_text d;
     emailErr_text := emailErr_text d; passErr_text := passErr_text d;
     togglePass_text := v; listeners := listeners d |}.

Definition add_listener (l : listener) d :=
  {| subtitle_text := subtitle_text d; name_value := name_value d;
     email_value := email_value d;
     password_value := password_value d; password_type := password_type d;
     role_value := role_value d; name_default := name_default d;
     email_default := email_default d; password_default := password_default d;
     role_default := role_default d; btn_disabled := btn_disabled d;
     btn_text := btn_text d; msg_className := msg_className d;
     msg_text := msg_text d; nameErr_text := nameErr_text d;
     emailErr_text := emailErr_text d; passErr_text := passErr_text d;
     togglePass_text := togglePass_text d; listeners := listeners d ++ [l] |}.

Definition goLogin : M Dom unit :=
  removeItem (utf16 "session") ;;
  navigate (utf16 "./login.html").

(** The script from its first line to its last: the session guard, the
    subtitle, the listeners.  An exception ends the script where it is
    thrown.  The answer is the constant [session], which the handlers
    registered here read later. *)
Definition page_load (P : Platform) : M Dom jsval :=
  sessionRaw <- getItem (utf16 "session") ;;
  session <- match sessionRaw with
             | Some raw =>
                 if truthy (VStr raw) then lift (JSON_parse P raw) else ret VNull
             | None => ret VNull
             end ;;
  (* if (!session || !session.token) goLogin(); *)
  (if negb (truthy session) then goLogin
   else
     token <- get_prop P session (utf16 "token") ;;
     if negb (truthy token) then goLogin else ret tt) ;;
  (* if (session.user?.role !== "admin") { ... } *)
  user <- get_prop P session (utf16 "user") ;;
  role <- get_opt P user (utf16 "role") ;;
  (if negb (is_string role (utf16 "admin"))
   then
     alert (utf16 "No autorizado. Solo admins pueden acceder a esta página.") ;;
     navigate (utf16 "./dashboard.html")
   else ret tt) ;;
  (* `Sesión: ${session.user?.name || "admin"} · rol: ${session.user?.role}` *)
  user <- get_prop P session (utf16 "user") ;;
  name <- get_opt P user (utf16 "name") ;;
  name_text <- ToString P (js_or name (VStr (utf16 "admin"))) ;;
  user <- get_prop P session (utf16 "user") ;;
  role <- get_opt P user (utf16 "role") ;;
  role_text <- ToString P role ;;
  modify (set_subtitle_text
            (utf16 "Sesión: " ++ name_text ++ utf16 " · rol: " ++ role_text)) ;;
  modify (add_listener logoutBtn_click) ;;
  modify (add_listener togglePass_click_l) ;;
  modify (add_listener form_submit) ;;
  ret session.

(** The click handler of [togglePass]. *)
Definition togglePass_click : M Dom unit :=
  hidden <- gets (fun d => str_eqb (password_type d) (utf16 "password")) ;;
  modify (set_password_type (if hidden then utf16 "text" else utf16 "password")) ;;
  modify (set_togglePass_text (if hidden then utf16 "🙈" else utf16 "👁")).

Definition clearErrors : M Dom unit :=
  modify (set_nameErr_text []) ;;
  modify (set_emailErr_text []) ;;
  modify (set_passErr_text []) ;;
  modify (fun d => set_msg (utf16 "msg") (msg_text d) d) ;;
  modify (fun d => set_msg (msg_className d) [] d).

Definition showMsg (P : Platform) (type : jsstring) (text : jsval) : M Dom unit :=
  modify (fun d => set_msg
                     (utf16 "msg " ++
                        (if str_eqb type (utf16 "ok") then utf16 "ok" else utf16 "bad"))
                     (msg_text d) d) ;;
  shown <- dom_text P text ;;
  modify (fun d => set_msg (msg_className d) shown d).

(** What [apiFetch] returns. *)
Record ApiResult := { ok : bool; r_status : N; data : jsval }.

Definition apiFetch (net : request -> fetch_reply) (path : jsstring)
  (options : options) : M Dom ApiResult :=
  res <- fetch net {| url := API_BASE ++ path; opts := options |} ;;
  (if status res =? 401 then goLogin else ret tt) ;;
  if status res =? 204 then ret {| ok := true; r_status := 204; data := VNull |}
  else
    data <- try_catch (lift (json res)) (fun _ => ret VNull) ;;
    ret {| ok := res_ok res; r_status := status res; data := data |}.

Definition authHeaders (P : Platform) (session : jsval)
  : M Dom (list (jsstring * jsstring)) :=
  token <- get_prop P session (utf16 "token") ;;
  token_text <- ToString P token ;;
  ret [(utf16 "Content-Type", utf16 "application/json");
       (utf16 "Authorization", utf16 "Bearer " ++ token_text)].

Definition setLoading (on : bool) : M Dom unit :=
  let label := if on then utf16 "Creando…" else utf16 "Crear usuario" in
  modify (set_btn on label) ;;
  emit (EvButton on label).

Definition name_message : jsstring := utf16 "Nombre inválido (mín 2 caracteres).".
Definition email_message : jsstring := utf16 "Email inválido.".
Definition password_message : jsstring :=
  utf16 "Contraseña inválida (mín 6 caracteres).".

Record Payload := {
  p_name : jsstring;
  p_email : jsstring;
  p_password : jsstring;
  p_role : jsstring
}.

Definition payload_json (p : Payload) : jsval :=
  VObj [(utf16 "name", VStr (p_name p));
        (utf16 "email", VStr (p_email p));
        (utf16 "password", VStr (p_password p));
        (utf16 "role", VStr (p_role p))].

Definition read_payload (P : Platform) (d : Dom) : Payload :=
  {| p_name := trim (name_value d);
     p_email := toLowerCase P (trim (email_value d));
     p_password := password_value d;
     p_role := role_value d |}.

(** [!payload.name || payload.name.length < 2] *)
Definition bad_name (name : jsstring) : bool :=
  negb (truthy (VStr name)) || (length name <? 2)%nat.

(** [!payload.password || payload.password.length < 6] *)
Definition bad_password (password : jsstring) : bool :=
  negb (truthy (VStr password)) || (length password <? 6)%nat.

(** [form.reset()] *)
Definition form_reset : M Dom unit :=
  modify (fun d => set_values (name_default d) (email_default d)
                     (password_default d) (role_default d) d).

(** The listener of the form's [submit] event; [session] is the
    constant of the script and [net] the network.  [e.preventDefault()]
    touches nothing of the model, and the test [if (!r) return] never
    fires, [apiFetch] returning an object. *)
Definition submit (P : Platform) (session : jsval) (net : request -> fetch_reply)
  : M Dom unit :=
  clearErrors ;;
  payload <- gets (read_payload P) ;;
  let ok_ := true in
  ok_ <- (if bad_name (p_name payload)
          then modify (set_nameErr_text name_message) ;; ret false
          else ret ok_) ;;
  ok_ <- (if negb (isValidEmail (p_email payload))
          then modify (set_emailErr_text email_message) ;; ret false
          else ret ok_) ;;
  ok_ <- (if bad_password (p_password payload)
          then modify (set_passErr_text password_message) ;; ret false
          else ret ok_) ;;
  if negb ok_ then ret tt
  else
    setLoading true ;;
    hs <- authHeaders P session ;;
    r <- apiFetch net (utf16 "/admin/users")
           {| method := utf16 "POST";
              headers := hs;
              body := JSON_stringify P (payload_json payload) |} ;;
    setLoading false ;;
    if negb (ok r)
    then
      detail <- get_opt P (data r) (utf16 "detail") ;;
      showMsg P (utf16 "bad")
        (js_or detail
           (VStr (utf16 "No se pudo crear (" ++ N_to_string (r_status r)
                  ++ utf16 ")")))
    else
      email <- get_prop P (data r) (utf16 "email") ;;
      email_text <- ToString P email ;;
      role <- get_prop P (data r) (utf16 "role") ;;
      role_text <- ToString P role ;;
      showMsg P (utf16 "ok")
        (VStr (utf16 "Usuario creado ✅ (" ++ email_text
               ++ utf16 " · rol: " ++ role_text ++ utf16 ")")) ;;
      form_reset ;;
      modify (set_role_value (utf16 "user")).
End Admin.

(** ** A platform to run the scripts on

    The properties are stated for every [Platform]; the examples run the
    scripts on this one.  It writes and reads JSON without [\u] escapes
    and with integer numbers only, and lowers the case of the letters of
    Basic Latin and Latin-1. *)

Module Sample.

Definition hex_digit (n : N) : N := if n <? 10 then 48 + n else 87 + n.

Definition escape_unit (c : N) : jsstring :=
  if c =? 34 then [92; 34]
  else if c =? 92 then [92; 92]
  else if c =? 8 then [92; 98]
  else if c =? 12 then [92; 102]
  else if c =? 10 then [92; 110]
  else if c =? 13 then [92; 114]
  else if c =? 9 then [92; 116]
  else if c <? 32 then [92; 117; 48; 48; hex_digit (c / 16); hex_digit (c mod 16)]
  else [c].

Definition quote (s : jsstring) : jsstring := 34 :: flat_map escape_unit s ++ [34].

(** [JSON.stringify]: a property that is [undefined] is left out of an
    object, and written [null] in an array. *)
Fixpoint stringify (v : jsval) : jsstring :=
  match v with
  | VUndef | VNull => utf16 "null"
  | VBool true => utf16 "true"
  | VBool false => utf16 "false"
  | VNum n => num_text n
  | VStr s => quote s
  | VArr items =>
      91 :: (fix go (l : list jsval) : jsstring :=
               match l with
               | [] => []
               | x :: t => stringify x ++ match t with [] => [] | _ => 44 :: go t end
               end) items ++ [93]
  | VObj fields =>
      123 :: (fix go (first : bool) (l : list (jsstring * jsval)) : jsstring :=
                match l with
                | [] => []
                | (k, x) :: t =>
                    match x with
                    | VUndef => go first t
                    | _ => (if first then [] else [44])
                           ++ quote k ++ 58 :: stringify x ++ go false t
                    end
                end) true fields ++ [125]
  end.

Fixpoint skip_ws (s : jsstring) : jsstring :=
  match s with
  | c :: t => if (c =? 32) || (c =? 9) || (c =? 10) || (c =? 13) then skip_ws t else s
  | [] => []
  end.

Fixpoint strip_prefix (lit s : jsstring) : option jsstring :=
  match lit, s with
  | [], _ => Some s
  | a :: lit', b :: s' => if a =? b then strip_prefix lit' s' else None
  | _ :: _, [] => None
  end.

Definition unescape (e : N) : option N :=
  if e =? 34 then Some 34
  else if e =? 92 then Some 92
  else if e =? 47 then Some 47
  else if e =? 98 then Some 8
  else if e =? 102 then Some 12
  else if e =? 110 then Some 10
  else if e =? 114 then Some 13
  else if e =? 116 then Some 9
  else None.

(** The rest of a string literal, after its opening quote. *)
Fixpoint parse_chars (s : jsstring) : option (jsstring * jsstring) :=
  match s with
  | [] => None
  | c :: t =>
      if c =? 34 then Some ([], t)
      else if c =? 92 then
        match t with
        | e :: t' =>
            match unescape e, parse_chars t' with
            | Some u, Some (r, rest) => Some (u :: r, rest)
            | _, _ => None
            end
        | [] => None
        end
      else if c <? 32 then None
      else match parse_chars t with
           | Some (r, rest) => Some (c :: r, rest)
           | None => None
           end
  end.

Definition is_digit (c : N) : bool := (48 <=? c) && (c <=? 57).

Fixpoint span_digits (s : jsstring) : jsstring * jsstring :=
  match s with
  | c :: t => if is_digit c
              then let '(ds, rest) := span_digits t in (c :: ds, rest)
              else ([], s)
  | [] => ([], [])
  end.

(** An integer: an optional sign and digits, without a fraction or an
    exponent. *)
Definition parse_number (s : jsstring) : option (jsval * jsstring) :=
  let '(neg, s') := match s with
                    | 45 :: t => (true, t)
                    | _ => (false, s)
                    end in
  let '(ds, rest) := span_digits s' in
  match ds, rest with
  | [], _ => None
  | 48 :: _ :: _, _ => None
  | _, c :: _ =>
      if (c =? 46) || (c =? 101) || (c =? 69) then None
      else
        let nonzero := existsb (fun d => negb (d =? 48)) ds in
        Some (VNum {| num_text := if neg && nonzero then 45 :: ds else ds;
                      num_truthy := nonzero |}, rest)
  | _, [] =>
      let nonzero := existsb (fun d => negb (d =? 48)) ds in
      Some (VNum {| num_text := if neg && nonzero then 45 :: ds else ds;
                    num_truthy := nonzero |}, rest)
  end.

(** A later binding of a key replaces the earlier one, in place. *)
Fixpoint set_field (k : jsstring) (v : jsval) (fs : list (jsstring * jsval))
  : list (jsstring * jsval) :=
  match fs with
  | [] => [(k, v)]
  | (k', v') :: t => if str_eqb k k' then (k, v) :: t else (k', v') :: set_field k v t
  end.

Fixpoint parse_value (fuel : nat) (s : jsstring) : option (jsval * jsstring) :=
  match fuel with
  | O => None
  | S f =>
      let s := skip_ws s in
      match s with
      | 34 :: t =>
          match parse_chars t with
          | Some (str, rest) => Some (VStr str, rest)
          | None => None
          end
      | 91 :: t =>
          match skip_ws t with
          | 93 :: rest => Some (VArr [], rest)
          | _ =>
              (fix items (n : nat) (s : jsstring) (acc : list jsval) :=
                 match n with
                 | O => None
                 | S n' =>
                     match parse_value f s with
                     | Some (v, rest) =>
                         match skip_ws rest with
                         | 44 :: rest' => items n' rest' (acc ++ [v])
                         | 93 :: rest' => Some (VArr (acc ++ [v]), rest')
                         | _ => None
                         end
                     | None => None
                     end
                 end) f t []
          end
      | 123 :: t =>
          match skip_ws t with
          | 125 :: rest => Some (VObj [], rest)
          | _ =>
              (fix fields (n : nat) (s : jsstring) (acc : list (jsstring * jsval)) :=
                 match n with
                 | O => None
                 | S n' =>
                     match skip_ws s with
                     | 34 :: s1 =>
                         match parse_chars s1 with
                         | Some (k, s2) =>
                             match skip_ws s2 with
                             | 58 :: s3 =>
                                 match parse_value f s3 with
                                 | Some (v, rest) =>
                                     match skip_ws rest with
                                     | 44 :: rest' => fields n' rest' (set_field k v acc)
                                     | 125 :: rest' =>
                                         Some (VObj (set_field k v acc), rest')
                                     | _ => None
                                     end
                                 | None => None
                                 end
                             | _ => None
                             end
                         | None => None
                         end
                     | _ => None
                     end
                 end) f t []
          end
      | _ =>
          match strip_prefix (utf16 "null") s, strip_prefix (utf16 "true") s,
                strip_prefix (utf16 "false") s with
          | Some rest, _, _ => Some (VNull, rest)
          | _, Some rest, _ => Some (VBool true, rest)
          | _, _, Some rest => Some (VBool false, rest)
          | _, _, _ => parse_number s
          end
      end
  end.

(** [JSON.parse] *)
Definition parse (s : jsstring) : result jsval :=
  match parse_value (S (length s)) s with
  | Some (v, rest) =>
      match skip_ws rest with
      | [] => Ok v
      | _ => Throw {| kind := SyntaxError;
                      message := utf16 "Unexpected non-whitespace character after JSON" |}
      end
  | None => Throw {| kind := SyntaxError; message := utf16 "Unexpected token in JSON" |}
  end.

Definition lower_unit (c : N) : N :=
  if (65 <=? c) && (c <=? 90) then c + 32
  else if (192 <=? c) && (c <=? 222) && negb (c =? 215) then c + 32
  else c.

Definition platform : Platform :=
  {| JSON_stringify := stringify;
     JSON_parse := parse;
     toLowerCase := map lower_unit;
     null_read_message :=
       fun k => utf16 "Cannot read properties of null (reading '" ++ k ++ utf16 "')";
     to_primitive_message := utf16 "Cannot convert object to primitive value" |}.

End Sample.

(** ** Vocabulary of the properties, and pages to run the scripts on *)

(** The states in which the label of the toggle agrees with the type of
    the input: the eye on a hidden password, the monkey on a shown one. *)
Definition toggle_coherent (type label : jsstring) : Prop :=
  (type = utf16 "password" /\ label = utf16 "👁") \/
  (type = utf16 "text" /\ label = utf16 "🙈").

(** A login page whose toggle is labelled with a word. *)
Definition login_page_worded : Page Login.Dom :=
  {| win := {| localStorage := ∅; location_href := utf16 "./login.html";
               timers := []; alerts := []; trace := [] |};
     dom := {| Login.email_value := []; Login.password_value := [];
               Login.password_type := utf16 "password";
               Login.remember_checked := false;
               Login.emailError_text := []; Login.passError_text := [];
               Login.formMsg_text := []; Login.formMsg_display := utf16 "none";
               Login.formMsg_classList := [];
               Login.btnLogin_disabled := false;
               Login.btnLogin_text := utf16 "Entrar";
               Login.togglePass_text := utf16 "Mostrar" |} |}.


(** *** The login page *)

(** The values the login handlers go on with, when the checks pass. *)
Definition login_checked (d : Login.Dom) : option (jsstring * jsstring) :=
  let eVal := trim (Login.email_value d) in
  let pVal := Login.password_value d in
  if isValidEmail eVal && negb (Login.bad_password pVal)
  then Some (eVal, pVal) else None.

(** The elements after [clearErrors], and after the checks. *)
Definition login_cleared (d : Login.Dom) : Login.Dom :=
  Login.set_formMsg_classList
    (Login.classList_remove (utf16 "ok") (Login.formMsg_classList d))
    (Login.set_formMsg_text []
       (Login.set_formMsg_display (utf16 "none")
          (Login.set_passError_text [] (Login.set_emailError_text [] d)))).

Definition login_validated (d : Login.Dom) : Login.Dom :=
  Login.set_passError_text
    (if Login.bad_password (Login.password_value d)
     then Login.password_message else [])
    (Login.set_emailError_text
       (if isValidEmail (trim (Login.email_value d)) then [] else Login.email_message)
       (login_cleared d)).

(** The button while the handler works, and once it is done. *)
Definition login_busy : Login.Dom -> Login.Dom :=
  Login.set_btnLogin true (utf16 "Ingresando...").
Definition login_idle : Login.Dom -> Login.Dom :=
  Login.set_btnLogin false (utf16 "Entrar").

(** The message area after a sign-in, and after a failure with the
    message [m]. *)
Definition login_welcomed (d : Login.Dom) : Login.Dom :=
  Login.set_formMsg_display (utf16 "block")
    (Login.set_formMsg_classList
       (Login.classList_add (utf16 "ok") (Login.formMsg_classList d))
       (Login.set_formMsg_text (utf16 "¡Login correcto! Redirigiendo…") d)).

Definition failure_text (m : jsstring) : jsstring :=
  match m with
  | [] => utf16 "No se pudo iniciar sesión."
  | _ => m
  end.

Definition login_failed (m : jsstring) (d : Login.Dom) : Login.Dom :=
  Login.set_formMsg_display (utf16 "block")
    (Login.set_formMsg_text (failure_text m) d).

(** The session object the handlers build. *)
Definition session_object (token user : jsval) (remember : bool) : jsval :=
  VObj [(utf16 "token", token); (utf16 "user", user);
        (utf16 "remember", VBool remember)].

Definition demo_user (eVal : jsstring) : jsval :=
  VObj [(utf16 "name", VStr (utf16 "Kevin"));
        (utf16 "email", VStr eVal);
        (utf16 "role", VStr (utf16 "admin"))].

(** What the body of the [try] block of [part_001] comes to, as a
    function of the answer of the network: the token and the user of the
    session to store, or the exception thrown. *)
Definition api_verdict (P : Platform) (reply : fetch_reply) : error + jsval * jsval :=
  match reply with
  | Rejected e => inl e
  | Fulfilled res =>
      match json res with
      | Throw e => inl e
      | Ok data =>
          if res_ok res then
            if nullish data
            then inl {| kind := TypeError;
                        message := null_read_message P (utf16 "token") |}
            else inr (prop data (utf16 "token"), prop data (utf16 "user"))
          else
            if nullish data
            then inl {| kind := TypeError;
                        message := null_read_message P (utf16 "detail") |}
            else
              match to_string
                      (js_or (prop data (utf16 "detail"))
                         (VStr (utf16 "Email o contraseña incorrectos."))) with
              | Some m => inl {| kind := PlainError; message := m |}
              | None => inl (conversion_error P)
              end
      end
  end.

(** The window after a sign-in: the session stored, the redirect
    scheduled. *)
Definition signed_in (P : Platform) (session : jsval) (w : Window) : Window :=
  add_timer (500, Navigate (utf16 "./dashboard.html"))
    (set_storage (insert (utf16 "session") (JSON_stringify P session)) w).

Definition login_button_on : event := EvButton true (utf16 "Ingresando...").
Definition login_button_off : event := EvButton false (utf16 "Entrar").

(** *** The admin page *)

(** The payload the create-user handler goes on with, when the checks
    pass. *)
Definition admin_checked (P : Platform) (d : Admin.Dom) : option Admin.Payload :=
  let payload := Admin.read_payload P d in
  if negb (Admin.bad_name (Admin.p_name payload))
     && isValidEmail (Admin.p_email payload)
     && negb (Admin.bad_password (Admin.p_password payload))
  then Some payload else None.

(** The elements after [clearErrors], and after the checks. *)
Definition admin_cleared (d : Admin.Dom) : Admin.Dom :=
  Admin.set_msg (utf16 "msg") [] (Admin.set_errors [] [] [] d).

Definition admin_validated (P : Platform) (d : Admin.Dom) : Admin.Dom :=
  let payload := Admin.read_payload P d in
  Admin.set_errors
    (if Admin.bad_name (Admin.p_name payload) then Admin.name_message else [])
    (if isValidEmail (Admin.p_email payload) then [] else Admin.email_message)
    (if Admin.bad_password (Admin.p_password payload)
     then Admin.password_message else [])
    (admin_cleared d).

Definition admin_busy : Admin.Dom -> Admin.Dom := Admin.set_btn true (utf16 "Creando…").
Definition admin_idle : Admin.Dom -> Admin.Dom :=
  Admin.set_btn false (utf16 "Crear usuario").

Definition admin_button_on : event := EvButton true (utf16 "Creando…").
Definition admin_button_off : event := EvButton false (utf16 "Crear usuario").

(** The request of the create-user handler. *)
Definition admin_request (P : Platform) (session : jsval) (payload : Admin.Payload)
  : request :=
  {| url := Admin.API_BASE ++ utf16 "/admin/users";
     opts :=
       {| method := utf16 "POST";
          headers :=
            [(utf16 "Content-Type", utf16 "application/json");
             (utf16 "Authorization",
               utf16 "Bearer " ++ text (prop session (utf16 "token")))];
          body := JSON_stringify P (Admin.payload_json payload) |} |}.

(** What [apiFetch] returns on a response. *)
Definition api_result (res : Response) : Admin.ApiResult :=
  if status res =? 204
  then {| Admin.ok := true; Admin.r_status := 204; Admin.data := VNull |}
  else {| Admin.ok := res_ok res; Admin.r_status := status res;
          Admin.data := match json res with Ok v => v | Throw _ => VNull end |}.

(** The window after [goLogin]. *)
Definition logged_out (w : Window) : Window :=
  set_location (utf16 "./login.html") (set_storage (delete (utf16 "session")) w).

(** The window once [apiFetch] has looked at the status. *)
Definition after_response (res : Response) (w : Window) : Window :=
  if status res =? 401 then logged_out w else w.

(** What the create-user handler passes to [showMsg] after a refusal:
    [r.data?.detail || `No se pudo crear (${r.status})`]. *)
Definition refusal_value (r : Admin.ApiResult) : jsval :=
  js_or (if nullish (Admin.data r) then VUndef
         else prop (Admin.data r) (utf16 "detail"))
    (VStr (utf16 "No se pudo crear (" ++ N_to_string (Admin.r_status r)
           ++ utf16 ")")).

(** The elements after a refused creation, when the value to show has a
    text, and when it has none and only the class was set. *)
Definition admin_refused (r : Admin.ApiResult) (d : Admin.Dom) : Admin.Dom :=
  Admin.set_msg (utf16 "msg " ++ utf16 "bad") (text (refusal_value r)) d.

Definition admin_refusing (d : Admin.Dom) : Admin.Dom :=
  Admin.set_msg (utf16 "msg " ++ utf16 "bad") (Admin.msg_text d) d.

(** The confirmation of a creation, and whether it can be written: the
    email and the role of the data both have a text. *)
Definition confirmation (data : jsval) : jsstring :=
  utf16 "Usuario creado ✅ (" ++ text (prop data (utf16 "email"))
  ++ utf16 " · rol: " ++ text (prop data (utf16 "role")) ++ utf16 ")".

Definition confirmable (data : jsval) : bool :=
  printable (prop data (utf16 "email")) && printable (prop data (utf16 "role")).

Definition admin_created (data : jsval) (d : Admin.Dom) : Admin.Dom :=
  Admin.set_values (Admin.name_default d) (Admin.email_default d)
    (Admin.password_default d) (utf16 "user")
    (Admin.set_msg (utf16 "msg " ++ utf16 "ok") (confirmation data) d).

(** The constant [session] of the admin script: what is stored, parsed,
    or [null]. *)
Definition stored_session (P : Platform) (w : Window) : result jsval :=
  match localStorage w !! utf16 "session" with
  | Some raw => if truthy (VStr raw) then JSON_parse P raw else Ok VNull
  | None => Ok VNull
  end.

(** [v?.k] as a value. *)
Definition opt_prop (v : jsval) (k : jsstring) : jsval :=
  if nullish v then VUndef else prop v k.

(** [!session || !session.token] *)
Definition guard_fires (session : jsval) : bool :=
  negb (truthy session) || negb (truthy (prop session (utf16 "token"))).

(** [session.user?.role !== "admin"] *)
Definition not_admin (session : jsval) : bool :=
  negb (is_string (opt_prop (prop session (utf16 "user")) (utf16 "role"))
          (utf16 "admin")).

Definition subtitle_of (session : jsval) : jsstring :=
  utf16 "Sesión: "
  ++ text (js_or (opt_prop (prop session (utf16 "user")) (utf16 "name"))
             (VStr (utf16 "admin")))
  ++ utf16 " · rol: "
  ++ text (opt_prop (prop session (utf16 "user")) (utf16 "role")).

(** Whether the subtitle can be written: the name, or "admin" in its
    place, and the role of the session both have a text. *)
Definition renders (session : jsval) : bool :=
  printable (js_or (opt_prop (prop session (utf16 "user")) (utf16 "name"))
               (VStr (utf16 "admin")))
  && printable (opt_prop (prop session (utf16 "user")) (utf16 "role")).

(** The elements once the script has run to its end. *)
Definition admin_rendered (session : jsval) (d : Admin.Dom) : Admin.Dom :=
  Admin.add_listener Admin.form_submit
    (Admin.add_listener Admin.togglePass_click_l
       (Admin.add_listener Admin.logoutBtn_click
          (Admin.set_subtitle_text (subtitle_of session) d))).

(** The window after the alert and the redirect of the role check. *)
Definition sent_to_dashboard (w : Window) : Window :=
  set_location (utf16 "./dashboard.html")
    (add_alert (utf16 "No autorizado. Solo admins pueden acceder a esta página.") w).

(** *** Pages to run the scripts on *)

Definition fresh_window : Window :=
  {| localStorage := ∅; location_href := utf16 "./login.html";
     timers := []; alerts := []; trace := [] |}.

(** The login page with its two fields filled in. *)
Definition login_page (email password : string) : Page Login.Dom :=
  {| win := fresh_window;
     dom := {| Login.email_value := utf16 email;
               Login.password_value := utf16 password;
               Login.password_type := utf16 "password";
               Login.remember_checked := false;
               Login.emailError_text := []; Login.passError_text := [];
               Login.formMsg_text := []; Login.formMsg_display := utf16 "none";
               Login.formMsg_classList := [];
               Login.btnLogin_disabled := false;
               Login.btnLogin_text := utf16 "Entrar";
               Login.togglePass_text := utf16 "👁" |} |}.

(** The admin page with the text [stored] under the key "session" and
    the fields of its form filled in. *)
Definition admin_page (stored name email password : string) : Page Admin.Dom :=
  {| win := {| localStorage := {[ utf16 "session" := utf16 stored ]};
               location_href := utf16 "./admin_users.html";
               timers := []; alerts := []; trace := [] |};
     dom := {| Admin.subtitle_text := [];
               Admin.name_value := utf16 name;
               Admin.email_value := utf16 email;
               Admin.password_value := utf16 password;
               Admin.password_type := utf16 "password";
               Admin.role_value := utf16 "admin";
               Admin.name_default := []; Admin.email_default := [];
               Admin.password_default := []; Admin.role_default := utf16 "user";
               Admin.btn_disabled := false;
               Admin.btn_text := utf16 "Crear usuario";
               Admin.msg_className := utf16 "msg"; Admin.msg_text := [];
               Admin.nameErr_text := []; Admin.emailErr_text := [];
               Admin.passErr_text := [];
               Admin.togglePass_text := utf16 "👁";
               Admin.listeners := [] |} |}.

(** The session of an administrator, as the admin script holds it. *)
Definition admin_session : jsval :=
  session_object (VStr (utf16 "t0k3n"))
    (VObj [(utf16 "name", VStr (utf16 "Kevin"));
           (utf16 "email", VStr (utf16 "kevin@test.com"));
           (utf16 "role", VStr (utf16 "admin"))])
    false.

(** Networks: one that is down, and one that answers every request with
    the same response. *)
Definition net_down : request -> fetch_reply :=
  fun _ => Rejected {| kind := TypeError; message := utf16 "Failed to fetch" |}.

Definition net_answers (res : Response) : request -> fetch_reply :=
  fun _ => Fulfilled res.

Definition empty_body_error : error :=
  {| kind := SyntaxError; message := utf16 "Unexpected end of JSON input" |}.

(** Responses of the API: a sign-in accepted and one refused, a user
    created, a creation answered without a body, a session no longer
    valid. *)
Definition res_signed_in : Response :=
  {| status := 200;
     json := Ok (VObj [(utf16 "token", VStr (utf16 "t0k3n"));
                       (utf16 "user",
                         VObj [(utf16 "name", VStr (utf16 "Kevin"));
                               (utf16 "role", VStr (utf16 "admin"))])]) |}.

Definition res_refused : Response :=
  {| status := 401;
     json := Ok (VObj [(utf16 "detail", VStr (utf16 "Credenciales inválidas"))]) |}.

(** A refusal whose detail is a list of validation errors. *)
Definition res_unprocessable : Response :=
  {| status := 422;
     json := Ok (VObj [(utf16 "detail",
                        VArr [VObj [(utf16 "loc", VArr [VStr (utf16 "body");
                                                         VStr (utf16 "email")]);
                                    (utf16 "msg", VStr (utf16 "field required"))]])]) |}.

Definition res_created : Response :=
  {| status := 201;
     json := Ok (VObj [(utf16 "email", VStr (utf16 "ana@test.com"));
                       (utf16 "role", VStr (utf16 "user"))]) |}.

Definition res_no_content : Response :=
  {| status := 204; json := Throw empty_body_error |}.

(** *** Further vocabulary *)

(** The value [r.data?.detail] of the create-user handler, read off the
    response: the detail of a JSON body that is not [null]. *)
Definition detail_of (res : Response) : jsval :=
  match json res with
  | Ok data => if nullish data then VUndef else prop data (utf16 "detail")
  | Throw _ => VUndef
  end.

(** A response that counts as a success for [apiFetch] and carries no
    data the handler can read. *)
Definition success_without_data (res : Response) : Prop :=
  status res = 204 \/
  (res_ok res = true /\
   match json res with
   | Ok data => nullish data = true
   | Throw _ => True
   end).

Definition res_server_error : Response :=
  {| status := 500;
     json := Throw {| kind := SyntaxError;
                      message := utf16 "Unexpected token < in JSON" |} |}.

Definition res_conflict : Response :=
  {| status := 409;
     json := Ok (VObj [(utf16 "detail", VStr (utf16 "Email ya registrado"))]) |}.

Definition res_html_ok : Response :=
  {| status := 200;
     json := Throw {| kind := SyntaxError;
                      message := utf16 "Unexpected token < in JSON" |} |}.

(** The admin page, empty, with the JSON text of [session] stored under
    the key "session". *)
Definition admin_page_holding (session : jsval) : Page Admin.Dom :=
  {| win := {| localStorage := {[ utf16 "session" := Sample.stringify session ]};
               location_href := utf16 "./admin_users.html";
               timers := []; alerts := []; trace := [] |};
     dom := dom (admin_page "" "" "" "") |}.

Definition session_of_role (role : string) : jsval :=
  session_object (VStr (utf16 "t0k3n"))
    (VObj [(utf16 "name", VStr (utf16 "Ana")); (utf16 "role", VStr (utf16 role))])
    true.

(** Data that has no conversion to a string: an object with an own
    property "toString". *)
Definition unprintable : jsval :=
  VObj [(utf16 "toString", VNum {| num_text := utf16 "1"; num_truthy := true |})].

Definition res_bad_detail : Response :=
  {| status := 400; json := Ok (VObj [(utf16 "detail", unprintable)]) |}.

Definition res_created_odd : Response :=
  {| status := 201;
     json := Ok (VObj [(utf16 "email", unprintable);
                       (utf16 "role", VStr (utf16 "user"))]) |}.

(** * Properties *)

Example isValidEmail_abc : isValidEmail (utf16 "a@b.c") = true.
Proof. reflexivity. Qed.
Example isValidEmail_ex1 : isValidEmail (utf16 "kevin@test.com") = true.
Proof. reflexivity. Qed.
Example isValidEmail_ex2 : isValidEmail (utf16 "a@b") = false.
Proof. reflexivity. Qed.
Example isValidEmail_ex3 : isValidEmail (utf16 "a b@c.d") = false.
Proof. reflexivity. Qed.
Example isValidEmail_ex4 : isValidEmail (utf16 "a@b@c.d") = false.
Proof. reflexivity. Qed.
Example isValidEmail_ex5 : isValidEmail (utf16 "a@b.c.d") = true.
Proof. reflexivity. Qed.
Example utf16_ex : utf16 "ñ👁" = [241; 55357; 56385].
Proof. reflexivity. Qed.

(** ** The matcher against the relation *)

Section Matcher.
Variable input : jsstring.

Lemma matches_bounds r x y :
  matches input r x y -> (x <= y <= length input)%nat.
Proof.
  induction 1; try lia.
  - apply lookup_lt_Some in H. lia.
  - apply lookup_lt_Some in H. lia.
Qed.

Lemma matches_Plus_iterate r x z :
  matches input (Plus r) x z <-> exists y, matches input r x y /\ iterate input r y z.
Proof.
  split.
  - remember (Plus r) as p eqn:Hp. induction 1; inversion Hp; subst.
    + exists y. split; [assumption|]. constructor.
      eapply matches_bounds; eassumption.
    + destruct (IHmatches2 eq_refl) as (y' & Hy' & Hit).
      exists y. split; [assumption|]. econstructor; eassumption.
  - intros (y & Hxy & Hit). revert x Hxy.
    induction Hit as [y Hy | y y' z Hyy' Hit IH]; intros x Hxy.
    + now apply M_Plus_one.
    + eapply M_Plus_more; [eassumption|]. now apply IH.
Qed.

Section More.
Variables (r : regex) (m : nat -> (nat -> bool) -> bool).
Hypothesis m_correct :
  forall x k, m x k = true <-> exists y, matches input r x y /\ k y = true.

Lemma more_sound k n y :
  (y <= length input)%nat ->
  more m k n y = true -> exists z, iterate input r y z /\ k z = true.
Proof using m_correct.
  revert y. induction n as [|n IH]; simpl; intros y Hy H.
  - exists y. split; [now constructor | assumption].
  - apply orb_true_iff in H as [H|H].
    + apply m_correct in H as (y' & Hm & Hk).
      destruct (Nat.eqb_spec y' y) as [|Hne]; [discriminate|].
      apply IH in Hk as (z & Hit & Hz).
      * exists z. split; [econstructor; eassumption | assumption].
      * eapply matches_bounds; eassumption.
    + exists y. split; [now constructor | assumption].
Qed.

Lemma more_complete k y z :
  iterate input r y z -> k z = true ->
  forall n, (length input - y <= n)%nat -> more m k n y = true.
Proof using m_correct.
  induction 1 as [y Hy | x y z Hxy Hit IH]; intros Hk n Hn.
  - destruct n; simpl; [assumption|]. rewrite Hk. apply orb_true_r.
  - destruct (Nat.eq_dec y x) as [->|Hne]; [now apply IH|].
    pose proof (matches_bounds _ _ _ Hxy) as Hb.
    destruct n as [|n]; [lia|]. simpl.
    apply orb_true_iff. left. apply m_correct.
    exists y. split; [assumption|].
    destruct (Nat.eqb_spec y x); [contradiction|].
    apply IH; [assumption | lia].
Qed.
End More.

Lemma rmatch_correct r :
  forall x k,
    rmatch input r x k = true <-> exists y, matches input r x y /\ k y = true.
Proof.
  induction r as [| | c | neg items | r1 IH1 r2 IH2 | r IH]; intros x k; simpl.
  - destruct (Nat.eqb_spec x 0) as [->|Hne].
    + split; [intros H; exists 0%nat; split; [constructor | assumption]|].
      intros (y & Hm & Hk). inversion Hm; subst. assumption.
    + split; [discriminate|]. intros (y & Hm & _). inversion Hm; subst. lia.
  - destruct (Nat.eqb_spec x (length input)) as [->|Hne].
    + split; [intros H; eexists; split; [constructor | assumption]|].
      intros (y & Hm & Hk). inversion Hm; subst. assumption.
    + split; [discriminate|]. intros (y & Hm & _). inversion Hm; subst. lia.
  - destruct (input !! x) as [d|] eqn:Hd.
    + destruct (N.eqb_spec c d) as [->|Hne].
      * split; [intros H; eexists; split; [now constructor | assumption]|].
        intros (y & Hm & Hk). inversion Hm; subst. assumption.
      * split; [discriminate|]. intros (y & Hm & _). inversion Hm; subst.
        congruence.
    + split; [discriminate|]. intros (y & Hm & _). inversion Hm; subst.
      congruence.
  - destruct (input !! x) as [d|] eqn:Hd.
    + destruct (class_mem neg items d) eqn:Hc.
      * split; [intros H; eexists; split; [econstructor; eassumption | assumption]|].
        intros (y & Hm & Hk). inversion Hm; subst. assumption.
      * split; [discriminate|]. intros (y & Hm & _). inversion Hm; subst.
        congruence.
    + split; [discriminate|]. intros (y & Hm & _). inversion Hm; subst.
      congruence.
  - rewrite IH1. split.
    + intros (y & H1 & H2). apply IH2 in H2 as (z & H2 & Hk).
      exists z. split; [econstructor; eassumption | assumption].
    + intros (z & Hm & Hk). inversion Hm; subst.
      eexists. split; [eassumption|]. apply IH2. eauto.
  - rewrite IH. split.
    + intros (y & Hxy & Hmore).
      apply (more_sound r _ IH) in Hmore as (z & Hit & Hk).
      * exists z. split; [|assumption]. apply matches_Plus_iterate. eauto.
      * eapply matches_bounds; eassumption.
    + intros (z & Hm & Hk). apply matches_Plus_iterate in Hm as (y & Hxy & Hit).
      exists y. split; [assumption|].
      eapply (more_complete r _ IH); [eassumption | assumption | lia].
Qed.

Lemma regex_test_accepts r :
  regex_test r input = true <-> regex_accepts r input.
Proof.
  unfold regex_test, regex_accepts. rewrite existsb_exists. split.
  - intros (x & _ & H). apply rmatch_correct in H as (y & Hm & _). eauto.
  - intros (x & y & Hm). exists x. split.
    + apply in_seq. apply matches_bounds in Hm. lia.
    + apply rmatch_correct. eauto.
Qed.
End Matcher.

(** ** The strings of [email_re] *)

Lemma not_space_at_mem d : class_mem true [CSpace; CChar at_sign] d = email_char d.
Proof.
  unfold class_mem, email_char. cbn [existsb item_mem].
  rewrite (N.eqb_sym at_sign d).
  destruct (is_space d), (d =? at_sign); reflexivity.
Qed.

Lemma matches_eq input r x y x' y' :
  matches input r x y -> x = x' -> y = y' -> matches input r x' y'.
Proof. now intros H <- <-. Qed.

Lemma matches_plus_class_intro neg items :
  forall (mid pre post : jsstring),
    mid <> [] ->
    Forall (fun d => class_mem neg items d = true) mid ->
    matches (pre ++ mid ++ post) (Plus (Class neg items))
      (length pre) (length pre + length mid).
Proof.
  induction mid as [|c mid IH]; intros pre post Hne HF; [congruence|].
  inversion HF as [|? ? Hc HF']; subst.
  assert (Hhd : matches (pre ++ (c :: mid) ++ post) (Class neg items)
                  (length pre) (S (length pre))).
  { econstructor; [|exact Hc]. simpl. apply list_lookup_middle. reflexivity. }
  destruct mid as [|c' mid'].
  - simpl length. replace (length pre + 1)%nat with (S (length pre)) by lia.
    now apply M_Plus_one.
  - eapply M_Plus_more; [exact Hhd|].
    specialize (IH (pre ++ [c]) post ltac:(congruence) HF').
    rewrite <- app_assoc, length_app in IH. simpl in IH.
    replace (length pre + length (c :: c' :: mid'))%nat
      with (length pre + 1 + S (length mid'))%nat by (simpl; lia).
    replace (S (length pre)) with (length pre + 1)%nat by lia.
    exact IH.
Qed.

Lemma matches_plus_class_elim input neg items x y :
  matches input (Plus (Class neg items)) x y ->
  (x < y)%nat /\
  forall p, (x <= p < y)%nat ->
    exists d, input !! p = Some d /\ class_mem neg items d = true.
Proof.
  remember (Plus (Class neg items)) as r eqn:Hr.
  induction 1 as [| | | | | r' x y Hm _ | r' x y z Hm _ Hrest IH];
    inversion Hr; subst.
  - inversion Hm; subst. split; [lia|]. intros p Hp.
    assert (p = x) as -> by lia. eauto.
  - inversion Hm; subst. destruct (IH eq_refl) as [Hlt Hall].
    split; [lia|]. intros p Hp.
    destruct (Nat.eq_dec p x) as [->|Hne]; [eauto|]. apply Hall. lia.
Qed.

Lemma Forall_segment (P : N -> Prop) (s : jsstring) x y :
  (forall p, (x <= p < y)%nat -> exists d, s !! p = Some d /\ P d) ->
  Forall P (take (y - x) (drop x s)).
Proof.
  intros H. apply Forall_lookup. intros i d Hi.
  apply lookup_take_Some in Hi as [Hi Hlt]. rewrite lookup_drop in Hi.
  destruct (H (x + i)%nat ltac:(lia)) as (d' & Hd' & HP). congruence.
Qed.

Lemma email_re_matches s x y :
  matches s email_re x y <-> x = 0%nat /\ y = length s /\ email_shape s.
Proof.
  split.
  - unfold email_re. intros H.
    inversion H as [| | | |? ? ? ? ? Hbol H1| |]; subst; clear H.
    inversion Hbol; subst; clear Hbol.
    inversion H1 as [| | | |? ? ? a ? Hl H2| |]; subst; clear H1.
    inversion H2 as [| | | |? ? ? a' ? Hat H3| |]; subst; clear H2.
    inversion Hat as [| |? ? Ha | | | |]; subst; clear Hat.
    inversion H3 as [| | | |? ? ? b ? Hd H4| |]; subst; clear H3.
    inversion H4 as [| | | |? ? ? b' ? Hdot H5| |]; subst; clear H4.
    inversion Hdot as [| |? ? Hb | | | |]; subst; clear Hdot.
    inversion H5 as [| | | |? ? ? c ? Ht Heol| |]; subst; clear H5.
    inversion Heol; subst; clear Heol.
    apply matches_plus_class_elim in Hl as [Hl1 Hl2].
    apply matches_plus_class_elim in Hd as [Hd1 Hd2].
    apply matches_plus_class_elim in Ht as [Ht1 Ht2].
    split; [reflexivity|]. split; [reflexivity|].
    exists (take a s), (take (b - S a) (drop (S a) s)), (drop (S b) s).
    assert (Hb' : drop (S a) s !! (b - S a)%nat = Some full_stop).
    { rewrite lookup_drop. replace (S a + (b - S a))%nat with b by lia. exact Hb. }
    split; [|split; [|split; [|split]]].
    + rewrite <- (take_drop_middle s a at_sign Ha) at 1. f_equal. f_equal.
      rewrite <- (take_drop_middle _ _ _ Hb') at 1. f_equal. f_equal.
      rewrite drop_drop. f_equal. lia.
    + intros E. apply (f_equal length) in E. rewrite length_take in E.
      apply lookup_lt_Some in Ha. simpl in E. lia.
    + intros E. apply (f_equal length) in E. rewrite length_take, length_drop in E.
      apply lookup_lt_Some in Hb. simpl in E. lia.
    + intros E. apply (f_equal length) in E. rewrite length_drop in E.
      simpl in E. lia.
    + setoid_rewrite not_space_at_mem in Hl2.
      setoid_rewrite not_space_at_mem in Hd2.
      setoid_rewrite not_space_at_mem in Ht2.
      rewrite !Forall_app. split; [|split].
      * replace a with (a - 0)%nat at 1 by lia.
        rewrite <- (drop_0 s) at 1. now apply Forall_segment.
      * now apply Forall_segment.
      * rewrite <- (take_ge (drop (S b) s) (length s - S b)) by (rewrite length_drop; lia).
        now apply Forall_segment.
  - intros (-> & -> & l & d & t & -> & Hl & Hd & Ht & HF).
    apply Forall_app in HF as [HFl HF]. apply Forall_app in HF as [HFd HFt].
    assert (Hcls : forall m, Forall (fun c => email_char c = true) m ->
              Forall (fun c => class_mem true [CSpace; CChar at_sign] c = true) m).
    { intros m Hm. eapply Forall_impl; [exact Hm|].
      intros c Hc. now rewrite not_space_at_mem. }
    assert (Hlen : length (l ++ at_sign :: d ++ full_stop :: t)
                   = (length l + S (length d + S (length t)))%nat).
    { rewrite length_app. simpl. rewrite length_app. reflexivity. }
    unfold email_re, not_space_at.
    eapply M_Seq; [constructor|].
    eapply M_Seq.
    { pose proof (matches_plus_class_intro true [CSpace; CChar at_sign]
                    l [] (at_sign :: d ++ full_stop :: t) Hl (Hcls _ HFl)) as H.
      exact H. }
    eapply M_Seq.
    { constructor. apply list_lookup_middle. reflexivity. }
    eapply M_Seq.
    { pose proof (matches_plus_class_intro true [CSpace; CChar at_sign]
                    d (l ++ [at_sign]) (full_stop :: t) Hd (Hcls _ HFd)) as H.
      rewrite <- app_assoc in H.
      eapply matches_eq; [exact H | rewrite length_app; simpl; lia | reflexivity]. }
    eapply M_Seq.
    { eapply matches_eq; [| reflexivity | reflexivity].
      constructor.
      replace (l ++ at_sign :: d ++ full_stop :: t)
        with ((l ++ at_sign :: d) ++ full_stop :: t)
        by (rewrite <- app_assoc; reflexivity).
      apply list_lookup_middle. rewrite !length_app. simpl. lia. }
    eapply M_Seq.
    { pose proof (matches_plus_class_intro true [CSpace; CChar at_sign]
                    t (l ++ at_sign :: d ++ [full_stop]) [] Ht (Hcls _ HFt)) as H.
      rewrite app_nil_r in H.
      replace ((l ++ at_sign :: d ++ [full_stop]) ++ t)
        with (l ++ at_sign :: d ++ full_stop :: t) in H
        by (rewrite <- !app_assoc; simpl; rewrite <- app_assoc; reflexivity).
      eapply matches_eq; [exact H | | reflexivity].
      rewrite !length_app. simpl. rewrite length_app. simpl. lia. }
    eapply matches_eq; [apply M_Eol | | reflexivity].
    rewrite Hlen, !length_app. simpl. rewrite length_app. simpl. lia.
Qed.

Lemma isValidEmail_shape s : isValidEmail s = true <-> email_shape s.
Proof.
  unfold isValidEmail. rewrite regex_test_accepts. unfold regex_accepts. split.
  - intros (x & y & H). now apply email_re_matches in H.
  - intros H. exists 0%nat, (length s). now apply email_re_matches.
Qed.

Lemma email_shape_at_dot s :
  email_shape s ->
  exists pre post, s = pre ++ at_sign :: post /\ In full_stop post.
Proof.
  intros (l & d & t & -> & _). exists l, (d ++ full_stop :: t).
  split; [reflexivity|]. apply in_or_app. right. now left.
Qed.

(** C1. [isValidEmail] answers true exactly on the strings that match
    [/^[^\s@]+@[^\s@]+\.[^\s@]+$/], that is on the strings of the shape
    local-part, "@", domain, ".", rest, the three parts non-empty and free
    of white space and of "@".  In particular it answers false on a
    string with no "@", and on a string with no "." after an "@", and it
    answers true on "a@b.c". *)
Theorem isValidEmail_matches_regex (s : jsstring) :
  (isValidEmail s = true <-> regex_accepts email_re s) /\
  (isValidEmail s = true <-> email_shape s) /\
  (~ In at_sign s -> isValidEmail s = false) /\
  ((forall pre post, s = pre ++ at_sign :: post -> ~ In full_stop post) ->
   isValidEmail s = false) /\
  isValidEmail (utf16 "a@b.c") = true.
Proof.
  split; [apply regex_test_accepts|].
  split; [apply isValidEmail_shape|].
  split; [|split]; [| |reflexivity].
  - intros Hno. apply not_true_is_false. intros H.
    apply isValidEmail_shape, email_shape_at_dot in H as (pre & post & -> & _).
    apply Hno, in_or_app. right. now left.
  - intros Hno. apply not_true_is_false. intros H.
    apply isValidEmail_shape, email_shape_at_dot in H as (pre & post & -> & Hdot).
    exact (Hno pre post eq_refl Hdot).
Qed.

Ltac absent_from_literal :=
  let H := fresh in
  vm_compute; intros H;
  repeat (destruct H as [H|H]; [discriminate H|]); exact H.

Lemma isValidEmail_matches_regex_witness :
  isValidEmail (utf16 "ab.c") = false /\ isValidEmail (utf16 "a.b@c") = false.
Proof.
  split.
  - destruct (isValidEmail_matches_regex (utf16 "ab.c")) as (_ & _ & H & _).
    apply H. absent_from_literal.
  - destruct (isValidEmail_matches_regex (utf16 "a.b@c")) as (_ & _ & _ & H & _).
    apply H. intros pre post E.
    assert (post = utf16 "c") as ->.
    { destruct pre as [|a [|b [|c [|e pre]]]]; vm_compute in E;
        try discriminate E.
      - now inversion E.
      - inversion E as [[E1 E2 E3 E4 E5]].
        destruct pre as [|f pre]; [discriminate E5|].
        destruct pre; discriminate E5. }
    absent_from_literal.
Defined.

(** ** Running the scripts *)

Lemma str_eqb_eq a b : str_eqb a b = true <-> a = b.
Proof.
  revert b. induction a as [|x a IH]; intros [|y b]; simpl; try easy.
  rewrite andb_true_iff, N.eqb_eq, IH. split.
  - now intros [-> ->].
  - intros E. now inversion E.
Qed.

Lemma str_eqb_refl a : str_eqb a a = true.
Proof. now apply str_eqb_eq. Qed.

Lemma str_eqb_neq a b : str_eqb a b = false <-> a <> b.
Proof.
  rewrite <- str_eqb_eq. destruct (str_eqb a b); split; congruence.
Qed.

Ltac conjuncts := repeat match goal with |- _ /\ _ => split end.

Ltac unfold_monad :=
  unfold outcome, exec, bind, ret, throw, lift, try_catch, try_finally,
    gets, modify, modify_win, gets_win, getItem, setItem, removeItem,
    navigate, setTimeout, alert, emit, fetch, get_prop, get_opt, ToString,
    dom_text in *.

(** Running a script on a page given by its fields: the operations of the
    monad, the setters and the projections are unfolded and computed, and
    nothing else. *)
Ltac run_page :=
  cbv beta iota zeta delta
    [outcome exec bind ret throw lift try_catch try_finally gets modify
    modify_win gets_win getItem setItem removeItem navigate setTimeout alert
    emit fetch get_prop get_opt ToString dom_text fst snd win dom
    localStorage location_href timers alerts trace
    set_storage set_location add_timer add_alert add_event
    andb orb negb
    Admin.ok Admin.r_status Admin.data
    Admin.p_name Admin.p_email Admin.p_password Admin.p_role
    login_cleared login_validated login_busy login_idle login_welcomed
    login_failed signed_in login_button_on login_button_off
    admin_cleared admin_validated admin_busy admin_idle admin_button_on
    admin_button_off logged_out after_response admin_refused admin_refusing
    admin_created
    admin_rendered sent_to_dashboard api_result
    Login.setLoading Login.showFieldError Login.clearErrors Login.store_session
    Login.show_failure Login.togglePass_click Login.validate
    Admin.goLogin Admin.togglePass_click Admin.clearErrors Admin.showMsg
    Admin.setLoading Admin.form_reset Admin.authHeaders Admin.read_payload
    Login.set_password_type Login.set_emailError_text
    Login.set_passError_text Login.set_formMsg_text
    Login.set_formMsg_display Login.set_formMsg_classList Login.set_btnLogin
    Login.set_togglePass_text Login.email_value Login.password_value
    Login.password_type Login.remember_checked Login.emailError_text
    Login.passError_text Login.formMsg_text Login.formMsg_display
    Login.formMsg_classList Login.btnLogin_disabled Login.btnLogin_text
    Login.togglePass_text
    Admin.set_subtitle_text Admin.set_values Admin.set_role_value
    Admin.set_password_type Admin.set_btn Admin.set_msg Admin.set_errors
    Admin.set_nameErr_text Admin.set_emailErr_text Admin.set_passErr_text
    Admin.set_togglePass_text Admin.add_listener Admin.subtitle_text
    Admin.name_value Admin.email_value Admin.password_value
    Admin.password_type Admin.role_value Admin.name_default
    Admin.email_default Admin.password_default Admin.role_default
    Admin.btn_disabled Admin.btn_text Admin.msg_className Admin.msg_text
    Admin.nameErr_text Admin.emailErr_text Admin.passErr_text
    Admin.togglePass_text Admin.listeners].

Ltac run_page_in H :=
  cbv beta iota zeta delta
    [outcome exec bind ret throw lift try_catch try_finally gets modify
    modify_win gets_win getItem setItem removeItem navigate setTimeout alert
    emit fetch get_prop get_opt ToString dom_text fst snd win dom
    localStorage location_href timers alerts trace
    set_storage set_location add_timer add_alert add_event
    andb orb negb
    Admin.ok Admin.r_status Admin.data
    Admin.p_name Admin.p_email Admin.p_password Admin.p_role
    login_cleared login_validated login_busy login_idle login_welcomed
    login_failed signed_in login_button_on login_button_off
    admin_cleared admin_validated admin_busy admin_idle admin_button_on
    admin_button_off logged_out after_response admin_refused admin_refusing
    admin_created
    admin_rendered sent_to_dashboard api_result
    Login.setLoading Login.showFieldError Login.clearErrors Login.store_session
    Login.show_failure Login.togglePass_click Login.validate
    Admin.goLogin Admin.togglePass_click Admin.clearErrors Admin.showMsg
    Admin.setLoading Admin.form_reset Admin.authHeaders Admin.read_payload
    Login.set_password_type Login.set_emailError_text
    Login.set_passError_text Login.set_formMsg_text
    Login.set_formMsg_display Login.set_formMsg_classList Login.set_btnLogin
    Login.set_togglePass_text Login.email_value Login.password_value
    Login.password_type Login.remember_checked Login.emailError_text
    Login.passError_text Login.formMsg_text Login.formMsg_display
    Login.formMsg_classList Login.btnLogin_disabled Login.btnLogin_text
    Login.togglePass_text
    Admin.set_subtitle_text Admin.set_values Admin.set_role_value
    Admin.set_password_type Admin.set_btn Admin.set_msg Admin.set_errors
    Admin.set_nameErr_text Admin.set_emailErr_text Admin.set_passErr_text
    Admin.set_togglePass_text Admin.add_listener Admin.subtitle_text
    Admin.name_value Admin.email_value Admin.password_value
    Admin.password_type Admin.role_value Admin.name_default
    Admin.email_default Admin.password_default Admin.role_default
    Admin.btn_disabled Admin.btn_text Admin.msg_className Admin.msg_text
    Admin.nameErr_text Admin.emailErr_text Admin.passErr_text
    Admin.togglePass_text Admin.listeners] in H.

Ltac open_login_page p :=
  destruct p as [[? ? ? ? ?] [? ? ? ? ? ? ? ? ? ? ? ?]].

Ltac open_admin_page p :=
  destruct p as [[? ? ? ? ?] [? ? ? ? ? ? ? ? ? ? ? ? ? ? ? ? ? ? ?]].

Ltac open_admin_page_dom d :=
  destruct d as [? ? ? ? ? ? ? ? ? ? ? ? ? ? ? ? ? ? ?].

(** ** The password toggle *)

Lemma password_neq_text : str_eqb (utf16 "text") (utf16 "password") = false.
Proof. reflexivity. Qed.

Lemma login_toggle_run (p : Page Login.Dom) :
  let hidden := str_eqb (Login.password_type (dom p)) (utf16 "password") in
  Login.togglePass_click p =
    (Ok tt,
     {| win := win p;
        dom := Login.set_togglePass_text
                 (if hidden then utf16 "🙈" else utf16 "👁")
                 (Login.set_password_type
                    (if hidden then utf16 "text" else utf16 "password") (dom p)) |}).
Proof. reflexivity. Qed.

Lemma admin_toggle_run (p : Page Admin.Dom) :
  let hidden := str_eqb (Admin.password_type (dom p)) (utf16 "password") in
  Admin.togglePass_click p =
    (Ok tt,
     {| win := win p;
        dom := Admin.set_togglePass_text
                 (if hidden then utf16 "🙈" else utf16 "👁")
                 (Admin.set_password_type
                    (if hidden then utf16 "text" else utf16 "password") (dom p)) |}).
Proof. reflexivity. Qed.

(** C10, as stated, fails: from a page whose toggle is labelled
    "Mostrar", two clicks leave the label "👁". *)
Lemma toggle_twice_changes_label :
  let p := login_page_worded in
  let p2 := exec Login.togglePass_click (exec Login.togglePass_click p) in
  Login.password_type (dom p2) = Login.password_type (dom p) /\
  Login.togglePass_text (dom p2) = utf16 "👁" /\
  Login.togglePass_text (dom p2) <> Login.togglePass_text (dom p).
Proof. vm_compute. repeat split. discriminate. Qed.

(** C10, amended.  On both pages a click of the toggle shows a hidden
    password (type "password" becomes "text", label "🙈") and hides any
    other (type becomes "password", label "👁"); the state it leaves has
    a label that agrees with the type; and from a state whose label
    agrees with the type two clicks give back the page as it was, type
    and label included. *)
Theorem toggle_involution :
  (forall p : Page Login.Dom,
     let p1 := exec Login.togglePass_click p in
     (Login.password_type (dom p) = utf16 "password" ->
      Login.password_type (dom p1) = utf16 "text") /\
     (Login.password_type (dom p) <> utf16 "password" ->
      Login.password_type (dom p1) = utf16 "password") /\
     toggle_coherent (Login.password_type (dom p1)) (Login.togglePass_text (dom p1)) /\
     (toggle_coherent (Login.password_type (dom p)) (Login.togglePass_text (dom p)) ->
      exec Login.togglePass_click p1 = p)) /\
  (forall p : Page Admin.Dom,
     let p1 := exec Admin.togglePass_click p in
     (Admin.password_type (dom p) = utf16 "password" ->
      Admin.password_type (dom p1) = utf16 "text") /\
     (Admin.password_type (dom p) <> utf16 "password" ->
      Admin.password_type (dom p1) = utf16 "password") /\
     toggle_coherent (Admin.password_type (dom p1)) (Admin.togglePass_text (dom p1)) /\
     (toggle_coherent (Admin.password_type (dom p)) (Admin.togglePass_text (dom p)) ->
      exec Admin.togglePass_click p1 = p)).
Proof.
  split; intros [w d]; unfold exec.
  - rewrite login_toggle_run. cbn [snd dom win].
    destruct (str_eqb (Login.password_type d) (utf16 "password")) eqn:E.
    + apply str_eqb_eq in E. repeat split.
      * congruence.
      * right. split; reflexivity.
      * intros [[_ Hl] | [Ht _]]; [|rewrite E in Ht; discriminate Ht].
        rewrite login_toggle_run. cbn. rewrite password_neq_text.
        destruct d; cbn in *. subst. reflexivity.
    + apply str_eqb_neq in E. repeat split.
      * intros Hp. contradiction.
      * left. split; reflexivity.
      * intros [[Ht _] | [Ht Hl]]; [contradiction|].
        rewrite login_toggle_run. cbn. rewrite str_eqb_refl.
        destruct d; cbn in *. subst. reflexivity.
  - rewrite admin_toggle_run. cbn [snd dom win].
    destruct (str_eqb (Admin.password_type d) (utf16 "password")) eqn:E.
    + apply str_eqb_eq in E. repeat split.
      * congruence.
      * right. split; reflexivity.
      * intros [[_ Hl] | [Ht _]]; [|rewrite E in Ht; discriminate Ht].
        rewrite admin_toggle_run. cbn. rewrite password_neq_text.
        destruct d; cbn in *. subst. reflexivity.
    + apply str_eqb_neq in E. repeat split.
      * intros Hp. contradiction.
      * left. split; reflexivity.
      * intros [[Ht _] | [Ht Hl]]; [contradiction|].
        rewrite admin_toggle_run. cbn. rewrite str_eqb_refl.
        destruct d; cbn in *. subst. reflexivity.
Qed.

Lemma toggle_involution_witness :
  exec Login.togglePass_click (exec Login.togglePass_click (login_page "a@b.c" ""))
  = login_page "a@b.c" "".
Proof.
  destruct toggle_involution as [Hlogin _].
  destruct (Hlogin (login_page "a@b.c" "")) as (_ & _ & _ & H).
  apply H. left. split; reflexivity.
Defined.

(** ** The login handlers, step by step *)

Lemma login_validate_run (p : Page Login.Dom) :
  Login.validate p =
    (Ok (login_checked (dom p)), {| win := win p; dom := login_validated (dom p) |}).
Proof.
  open_login_page p. unfold login_checked, Login.classList_remove. run_page.
  destruct (isValidEmail _); destruct (Login.bad_password _); reflexivity.
Qed.

Lemma login_setLoading_run b (p : Page Login.Dom) :
  Login.setLoading b p =
    (Ok tt,
     {| win := add_event (if b then login_button_on else login_button_off) (win p);
        dom := (if b then login_busy else login_idle) (dom p) |}).
Proof. open_login_page p. destruct b; run_page; reflexivity. Qed.

Lemma login_store_session_run P session (p : Page Login.Dom) :
  Login.store_session P session p =
    (Ok tt, {| win := signed_in P session (win p); dom := login_welcomed (dom p) |}).
Proof. open_login_page p. run_page. reflexivity. Qed.

Lemma failure_text_or m :
  str_or m (utf16 "No se pudo iniciar sesión.") = failure_text m.
Proof. destruct m; vm_compute; reflexivity. Qed.

Lemma login_show_failure_run e (p : Page Login.Dom) :
  Login.show_failure e p =
    (Ok tt, {| win := win p; dom := login_failed (message e) (dom p) |}).
Proof.
  open_login_page p. destruct e as [k m]. run_page.
  rewrite failure_text_or. reflexivity.
Qed.

(** The handler of [part_001], from the page it starts on to the page
    it leaves. *)
Lemma api_submit_run P net (p : Page Login.Dom) :
  LoginApi.submit P net p =
    (Ok tt,
     match login_checked (dom p) with
     | None => {| win := win p; dom := login_validated (dom p) |}
     | Some (eVal, pVal) =>
         let rq := LoginApi.login_request P eVal pVal in
         let w := add_event EvSettled
                    (add_event (EvFetch rq) (add_event login_button_on (win p))) in
         let d := login_busy (login_validated (dom p)) in
         match api_verdict P (net rq) with
         | inr (token, user) =>
             let session := session_object token user (Login.remember_checked (dom p)) in
             {| win := add_event login_button_off (signed_in P session w);
                dom := login_idle (login_welcomed d) |}
         | inl e =>
             {| win := add_event login_button_off w;
                dom := login_idle (login_failed (message e) d) |}
         end
     end).
Proof.
  open_login_page p.
  unfold LoginApi.submit, LoginApi.attempt, login_checked, api_verdict,
    Login.classList_remove.
  run_page.
  destruct (isValidEmail _); destruct (Login.bad_password _); run_page;
    try reflexivity.
  destruct (net _) as [[st [data|e]]|e]; cbn [json]; run_page;
    rewrite ?failure_text_or; try reflexivity.
  destruct (res_ok _); destruct (nullish data); run_page; cbn [message];
    rewrite ?failure_text_or; try reflexivity.
  destruct (to_string _); run_page; unfold conversion_error; cbn [message];
    rewrite ?failure_text_or; reflexivity.
Qed.

(** The handler of [part_000], likewise. *)
Lemma demo_submit_run P (p : Page Login.Dom) :
  LoginDemo.submit P p =
    (Ok tt,
     match login_checked (dom p) with
     | None => {| win := win p; dom := login_validated (dom p) |}
     | Some (eVal, pVal) =>
         let w := add_event login_button_on (win p) in
         let d := login_busy (login_validated (dom p)) in
         if str_eqb eVal LoginDemo.demoEmail && str_eqb pVal LoginDemo.demoPass then
           let session :=
             session_object (VStr (utf16 "demo_token_123")) (demo_user eVal)
               (Login.remember_checked (dom p)) in
           {| win := add_event login_button_off (signed_in P session w);
              dom := login_idle (login_welcomed d) |}
         else
           {| win := add_event login_button_off w;
              dom := login_idle
                       (login_failed (utf16 "Email o contraseña incorrectos.") d) |}
     end).
Proof.
  open_login_page p.
  unfold LoginDemo.submit, LoginDemo.attempt, login_checked,
    Login.classList_remove.
  run_page.
  destruct (isValidEmail _); destruct (Login.bad_password _); run_page;
    try reflexivity.
  destruct (str_eqb _ LoginDemo.demoEmail);
    try destruct (str_eqb _ LoginDemo.demoPass);
    run_page; cbn [message]; rewrite ?failure_text_or; reflexivity.
Qed.
(** What passing the checks means. *)
Lemma login_checked_Some d eVal pVal :
  login_checked d = Some (eVal, pVal) <->
  eVal = trim (Login.email_value d) /\ pVal = Login.password_value d /\
  isValidEmail eVal = true /\ Login.bad_password pVal = false.
Proof.
  unfold login_checked.
  destruct (isValidEmail (trim (Login.email_value d))) eqn:E1;
    destruct (Login.bad_password (Login.password_value d)) eqn:E2; cbn; split.
  all: try discriminate.
  all: try (intros (-> & -> & H1 & H2); congruence).
  intros [= <- <-]. auto.
Qed.

Lemma login_checked_None d :
  login_checked d = None <->
  isValidEmail (trim (Login.email_value d)) = false \/
  Login.bad_password (Login.password_value d) = true.
Proof.
  unfold login_checked.
  destruct (isValidEmail (trim (Login.email_value d)));
    destruct (Login.bad_password (Login.password_value d)); cbn;
    intuition discriminate.
Qed.

Lemma login_bad_password_short pVal :
  Login.bad_password pVal = true <-> (length pVal < 6)%nat.
Proof.
  unfold Login.bad_password. rewrite orb_true_iff, Nat.ltb_lt.
  split; [|auto]. intros [H|H]; [|exact H].
  destruct pVal; [cbn; lia | discriminate H].
Qed.


(** ** The admin handlers, step by step *)

Lemma admin_goLogin_run (p : Page Admin.Dom) :
  Admin.goLogin p = (Ok tt, {| win := logged_out (win p); dom := dom p |}).
Proof. open_admin_page p. run_page. reflexivity. Qed.

Lemma apiFetch_run net path options (p : Page Admin.Dom) :
  let rq := {| url := Admin.API_BASE ++ path; opts := options |} in
  let w := add_event EvSettled (add_event (EvFetch rq) (win p)) in
  Admin.apiFetch net path options p =
    match net rq with
    | Fulfilled res =>
        (Ok (api_result res), {| win := after_response res w; dom := dom p |})
    | Rejected e => (Throw e, {| win := w; dom := dom p |})
    end.
Proof.
  open_admin_page p. unfold Admin.apiFetch. run_page.
  destruct (net _) as [[st js]|e]; cbn [status json]; run_page; [|reflexivity].
  destruct (st =? 401); destruct (st =? 204); run_page; try reflexivity;
    destruct js; reflexivity.
Qed.

Lemma truthy_not_nullish v : truthy v = true -> nullish v = false.
Proof. destruct v; simpl; congruence. Qed.

Lemma refusal_not_nullish a t :
  nullish (js_or a (VStr (utf16 "No se pudo crear (" ++ t))) = false.
Proof.
  apply truthy_not_nullish. unfold js_or.
  destruct (truthy a) eqn:E; [exact E|]. vm_compute. reflexivity.
Qed.

Lemma bad_is_not_ok : str_eqb (utf16 "bad") (utf16 "ok") = false.
Proof. vm_compute. reflexivity. Qed.

Lemma to_string_text v : printable v = true -> to_string v = Some (text v).
Proof. unfold printable, text. destruct (to_string v); [reflexivity | discriminate]. Qed.

Lemma to_string_none v : printable v = false -> to_string v = None.
Proof. unfold printable. destruct (to_string v); [discriminate | reflexivity]. Qed.

(** The create-user handler, from the page it starts on to the outcome
    and the page it leaves.  ([session] is an object whenever the script
    got as far as registering the handler; were it [null], building the
    headers would throw.) *)
Lemma admin_submit_run P session net (p : Page Admin.Dom) :
  Admin.submit P session net p =
    match admin_checked P (dom p) with
    | None => (Ok tt, {| win := win p; dom := admin_validated P (dom p) |})
    | Some payload =>
        let rq := admin_request P session payload in
        let w := add_event EvSettled
                   (add_event (EvFetch rq) (add_event admin_button_on (win p))) in
        let d := admin_busy (admin_validated P (dom p)) in
        if nullish session
        then (Throw {| kind := TypeError;
                       message := null_read_message P (utf16 "token") |},
              {| win := add_event admin_button_on (win p); dom := d |})
        else if negb (printable (prop session (utf16 "token")))
        then (Throw (conversion_error P),
              {| win := add_event admin_button_on (win p); dom := d |})
        else
        match net rq with
        | Rejected e => (Throw e, {| win := w; dom := d |})
        | Fulfilled res =>
            let r := api_result res in
            let w' := add_event admin_button_off (after_response res w) in
            let d' := admin_idle d in
            if Admin.ok r then
              if nullish (Admin.data r)
              then (Throw {| kind := TypeError;
                             message := null_read_message P (utf16 "email") |},
                    {| win := w'; dom := d' |})
              else if confirmable (Admin.data r)
              then (Ok tt, {| win := w'; dom := admin_created (Admin.data r) d' |})
              else (Throw (conversion_error P), {| win := w'; dom := d' |})
            else if printable (refusal_value r)
            then (Ok tt, {| win := w'; dom := admin_refused r d' |})
            else (Throw (conversion_error P), {| win := w'; dom := admin_refusing d' |})
        end
    end.
Proof.
  open_admin_page p.
  unfold Admin.submit, admin_checked, admin_request, Admin.apiFetch, confirmation,
    confirmable, refusal_value.
  run_page.
  destruct (Admin.bad_name _); destruct (isValidEmail _);
    destruct (Admin.bad_password _); run_page; try reflexivity.
  destruct (nullish session); run_page; [reflexivity|].
  destruct (printable (prop session (utf16 "token"))) eqn:Htok;
    [rewrite (to_string_text _ Htok) | rewrite (to_string_none _ Htok)];
    run_page; [|reflexivity].
  destruct (net _) as [[st js]|e]; cbn [status json]; run_page; [|reflexivity].
  destruct (st =? 401); destruct (st =? 204); run_page; try reflexivity.
  all: destruct js as [data|e]; run_page.
  all: destruct (res_ok _); run_page; try reflexivity.
  all: try (destruct (nullish data) eqn:Hn; run_page; try reflexivity).
  all: rewrite ?bad_is_not_ok, ?str_eqb_refl, ?refusal_not_nullish.
  all: repeat match goal with
         | |- context [printable ?v] =>
             let H := fresh "Hp" in
             destruct (printable v) eqn:H;
             [rewrite ?(to_string_text _ H) | rewrite ?(to_string_none _ H)]
         end.
  all: run_page; unfold refusal_value, confirmation; run_page;
    cbn [nullish to_string]; run_page; rewrite ?Hn; try reflexivity.
Qed.


(** The script of the admin page, from the page it is loaded on to the
    outcome and the page it leaves. *)
Lemma page_load_run P (p : Page Admin.Dom) :
  Admin.page_load P p =
    match stored_session P (win p) with
    | Throw e => (Throw e, p)
    | Ok session =>
        let w := if guard_fires session then logged_out (win p) else win p in
        if nullish session
        then (Throw {| kind := TypeError;
                       message := null_read_message P (utf16 "user") |},
              {| win := w; dom := dom p |})
        else
          let w' := if not_admin session then sent_to_dashboard w else w in
          if renders session
          then (Ok session, {| win := w'; dom := admin_rendered session (dom p) |})
          else (Throw (conversion_error P), {| win := w'; dom := dom p |})
    end.
Proof.
  open_admin_page p.
  unfold Admin.page_load, stored_session, guard_fires, not_admin, renders.
  run_page. unfold subtitle_of, opt_prop.
  destruct (_ !! _) as [raw|]; [destruct (truthy (VStr raw))|]; run_page;
    try reflexivity.
  destruct (JSON_parse P raw) as [session|e]; [|reflexivity].
  destruct (truthy session) eqn:Ht.
  - rewrite (truthy_not_nullish _ Ht).
    destruct (truthy (prop session _)); run_page;
      destruct (nullish (prop session _)); run_page;
      destruct (is_string _ _); run_page;
      repeat match goal with
        | |- context [printable ?v] =>
            let H := fresh "Hp" in
            destruct (printable v) eqn:H;
            [rewrite ?(to_string_text _ H) | rewrite ?(to_string_none _ H)];
            run_page
        end; reflexivity.
  - destruct (nullish session); run_page; [reflexivity|].
    destruct (nullish (prop session _)); run_page;
      destruct (is_string _ _); run_page;
      repeat match goal with
        | |- context [printable ?v] =>
            let H := fresh "Hp" in
            destruct (printable v) eqn:H;
            [rewrite ?(to_string_text _ H) | rewrite ?(to_string_none _ H)];
            run_page
        end; reflexivity.
Qed.

(** ** Validation *)

Lemma admin_bad_password_short pw :
  Admin.bad_password pw = true <-> (length pw < 6)%nat.
Proof.
  unfold Admin.bad_password. rewrite orb_true_iff, Nat.ltb_lt.
  split; [|auto]. intros [H|H]; [|exact H].
  destruct pw; [cbn; lia | discriminate H].
Qed.

Lemma admin_checked_None_password P d :
  Admin.bad_password (Admin.password_value d) = true -> admin_checked P d = None.
Proof.
  intros H. unfold admin_checked. cbn [Admin.read_payload Admin.p_password].
  rewrite H. cbn [negb]. now rewrite andb_false_r.
Qed.

(** C6. On the three forms a password shorter than six code units, the
    empty one included, makes the handler set the password message, send
    no request and return: nothing of the window changes, so no request
    starts, and the button is never touched. *)
Theorem short_password_blocks_submission :
  (forall P net (p : Page Login.Dom),
     (length (Login.password_value (dom p)) < 6)%nat ->
     let p' := exec (LoginApi.submit P net) p in
     outcome (LoginApi.submit P net) p = Ok tt /\
     Login.passError_text (dom p') = Login.password_message /\
     win p' = win p /\
     requests_of (trace (win p')) = requests_of (trace (win p)) /\
     Login.btnLogin_disabled (dom p') = Login.btnLogin_disabled (dom p)) /\
  (forall P (p : Page Login.Dom),
     (length (Login.password_value (dom p)) < 6)%nat ->
     let p' := exec (LoginDemo.submit P) p in
     outcome (LoginDemo.submit P) p = Ok tt /\
     Login.passError_text (dom p') = Login.password_message /\
     win p' = win p /\
     requests_of (trace (win p')) = requests_of (trace (win p)) /\
     Login.btnLogin_disabled (dom p') = Login.btnLogin_disabled (dom p)) /\
  (forall P session net (p : Page Admin.Dom),
     (length (Admin.password_value (dom p)) < 6)%nat ->
     let p' := exec (Admin.submit P session net) p in
     outcome (Admin.submit P session net) p = Ok tt /\
     Admin.passErr_text (dom p') = Admin.password_message /\
     win p' = win p /\
     requests_of (trace (win p')) = requests_of (trace (win p)) /\
     Admin.btn_disabled (dom p') = Admin.btn_disabled (dom p)).
Proof.
  split; [|split].
  - intros P net p Hlen. apply login_bad_password_short in Hlen.
    assert (Hc : login_checked (dom p) = None) by (apply login_checked_None; auto).
    cbn zeta. unfold outcome, exec. rewrite api_submit_run, Hc.
    open_login_page p. run_page_in Hlen. run_page. rewrite Hlen. auto.
  - intros P p Hlen. apply login_bad_password_short in Hlen.
    assert (Hc : login_checked (dom p) = None) by (apply login_checked_None; auto).
    cbn zeta. unfold outcome, exec. rewrite demo_submit_run, Hc.
    open_login_page p. run_page_in Hlen. run_page. rewrite Hlen. auto.
  - intros P session net p Hlen. apply admin_bad_password_short in Hlen.
    cbn zeta. unfold outcome, exec.
    rewrite admin_submit_run, (admin_checked_None_password _ _ Hlen).
    open_admin_page p. run_page_in Hlen. run_page. rewrite Hlen. auto.
Qed.

Lemma short_password_blocks_submission_witness :
  Login.passError_text
    (dom (exec (LoginApi.submit Sample.platform net_down)
            (login_page "kevin@test.com" "12345")))
  = Login.password_message /\
  Login.passError_text
    (dom (exec (LoginDemo.submit Sample.platform)
            (login_page "kevin@test.com" "")))
  = Login.password_message /\
  Admin.passErr_text
    (dom (exec (Admin.submit Sample.platform admin_session net_down)
            (admin_page "" "Ana" "ana@test.com" "abc")))
  = Admin.password_message.
Proof.
  destruct short_password_blocks_submission as (Hapi & Hdemo & Hadmin).
  split; [|split].
  - apply (Hapi Sample.platform net_down (login_page "kevin@test.com" "12345")).
    vm_compute. lia.
  - apply (Hdemo Sample.platform (login_page "kevin@test.com" "")).
    vm_compute. lia.
  - apply (Hadmin Sample.platform admin_session net_down
             (admin_page "" "Ana" "ana@test.com" "abc")).
    vm_compute. lia.
Defined.

Ltac checks_done :=
  repeat (split || intro); try reflexivity;
  match goal with
  | H : _ \/ _ |- _ => decompose [or] H; discriminate
  end.

(** C9. The checks of a form all run, whatever the others found: after
    a submission every field has its message exactly when its check
    fails, so the fields that are invalid at once have their messages at
    once; and when some check fails the handler returns having touched
    nothing else than the page's elements. *)
Theorem all_checks_run :
  (forall P net (p : Page Login.Dom),
     let eVal := trim (Login.email_value (dom p)) in
     let pVal := Login.password_value (dom p) in
     let p' := exec (LoginApi.submit P net) p in
     Login.emailError_text (dom p')
       = (if isValidEmail eVal then [] else Login.email_message) /\
     Login.passError_text (dom p')
       = (if Login.bad_password pVal then Login.password_message else []) /\
     (isValidEmail eVal = false \/ Login.bad_password pVal = true ->
      outcome (LoginApi.submit P net) p = Ok tt /\ win p' = win p)) /\
  (forall P (p : Page Login.Dom),
     let eVal := trim (Login.email_value (dom p)) in
     let pVal := Login.password_value (dom p) in
     let p' := exec (LoginDemo.submit P) p in
     Login.emailError_text (dom p')
       = (if isValidEmail eVal then [] else Login.email_message) /\
     Login.passError_text (dom p')
       = (if Login.bad_password pVal then Login.password_message else []) /\
     (isValidEmail eVal = false \/ Login.bad_password pVal = true ->
      outcome (LoginDemo.submit P) p = Ok tt /\ win p' = win p)) /\
  (forall P session net (p : Page Admin.Dom),
     let payload := Admin.read_payload P (dom p) in
     let p' := exec (Admin.submit P session net) p in
     Admin.nameErr_text (dom p')
       = (if Admin.bad_name (Admin.p_name payload) then Admin.name_message else []) /\
     Admin.emailErr_text (dom p')
       = (if isValidEmail (Admin.p_email payload) then [] else Admin.email_message) /\
     Admin.passErr_text (dom p')
       = (if Admin.bad_password (Admin.p_password payload)
          then Admin.password_message else []) /\
     (Admin.bad_name (Admin.p_name payload) = true \/
      isValidEmail (Admin.p_email payload) = false \/
      Admin.bad_password (Admin.p_password payload) = true ->
      outcome (Admin.submit P session net) p = Ok tt /\ win p' = win p)).
Proof.
  split; [|split].
  - intros P net p. cbn zeta. unfold outcome, exec. rewrite api_submit_run.
    unfold login_checked. open_login_page p. run_page.
    destruct (isValidEmail _); destruct (Login.bad_password _); run_page;
      try destruct (api_verdict _ _) as [err|[token user]]; run_page;
      checks_done.
  - intros P p. cbn zeta. unfold outcome, exec. rewrite demo_submit_run.
    unfold login_checked. open_login_page p. run_page.
    destruct (isValidEmail _); destruct (Login.bad_password _); run_page;
      try (destruct (str_eqb _ _); [destruct (str_eqb _ _)|]); run_page;
      checks_done.
  - intros P session net p. cbn zeta. unfold outcome, exec.
    rewrite admin_submit_run.
    unfold admin_checked. open_admin_page p. run_page.
    destruct (Admin.bad_name _); destruct (isValidEmail _);
      destruct (Admin.bad_password _); run_page; try checks_done.
    destruct (nullish session); run_page; [checks_done|].
    destruct (printable (prop session _)); run_page; [|checks_done].
    destruct (net _) as [[st js]|e]; cbn [status json]; run_page; [|checks_done].
    destruct (st =? 401); destruct (st =? 204); run_page;
      try destruct (res_ok _); run_page;
      try destruct js as [data|e]; run_page;
      try destruct (nullish _); run_page;
      try destruct (confirmable _); run_page;
      try destruct (printable _); run_page; checks_done.
Qed.

Lemma all_checks_run_witness :
  let p' := exec (Admin.submit Sample.platform admin_session net_down)
              (admin_page "" "A" "not-an-email" "abc") in
  Admin.nameErr_text (dom p') = Admin.name_message /\
  Admin.emailErr_text (dom p') = Admin.email_message /\
  Admin.passErr_text (dom p') = Admin.password_message /\
  requests_of (trace (win p')) = [].
Proof.
  destruct all_checks_run as (_ & _ & Hadmin).
  destruct (Hadmin Sample.platform admin_session net_down
              (admin_page "" "A" "not-an-email" "abc"))
    as (Hn & He & Hp & Habort).
  cbn zeta. rewrite Hn, He, Hp.
  destruct Habort as [_ Hw]; [left; vm_compute; reflexivity|].
  rewrite Hw. repeat split; vm_compute; reflexivity.
Defined.

(** ** The flows *)

Lemma app3_assoc {A} (l : list A) a b c :
  ((l ++ [a]) ++ [b]) ++ [c] = l ++ [a; b; c].
Proof. now rewrite <- !app_assoc. Qed.

Lemma app4_assoc {A} (l : list A) a b c d :
  (((l ++ [a]) ++ [b]) ++ [c]) ++ [d] = l ++ [a; b; c; d].
Proof. now rewrite <- !app_assoc. Qed.

Lemma app2_assoc {A} (l : list A) a b :
  (l ++ [a]) ++ [b] = l ++ [a; b].
Proof. now rewrite <- !app_assoc. Qed.

(** C3. A call through [apiFetch] that is answered with status 401
    removes the entry "session" of local storage, and nothing else of it,
    and sends the browser to the login page. *)
Theorem unauthorized_response_logs_out
  net path options (p : Page Admin.Dom) res :
  net {| url := Admin.API_BASE ++ path; opts := options |} = Fulfilled res ->
  status res = 401 ->
  let p' := exec (Admin.apiFetch net path options) p in
  localStorage (win p') !! utf16 "session" = None /\
  localStorage (win p') = delete (utf16 "session") (localStorage (win p)) /\
  location_href (win p') = utf16 "./login.html".
Proof.
  intros Hnet Hst. cbn zeta. unfold exec. rewrite apiFetch_run. cbn zeta.
  rewrite Hnet. unfold after_response. rewrite Hst.
  change (401 =? 401) with true. open_admin_page p. run_page.
  split; [apply lookup_delete_eq|]. split; reflexivity.
Qed.

Lemma unauthorized_response_logs_out_witness :
  let p' := exec (Admin.apiFetch (net_answers res_refused) (utf16 "/admin/users")
                    {| method := utf16 "POST"; headers := []; body := [] |})
              (admin_page "{}" "" "" "") in
  localStorage (win p') !! utf16 "session" = None /\
  localStorage (win p') = delete (utf16 "session")
                            (localStorage (win (admin_page "{}" "" "" ""))) /\
  location_href (win p') = utf16 "./login.html".
Proof.
  apply (unauthorized_response_logs_out (net_answers res_refused)
           (utf16 "/admin/users")
           {| method := utf16 "POST"; headers := []; body := [] |}
           (admin_page "{}" "" "" "") res_refused); reflexivity.
Defined.

(** The same through the create-user handler: whatever else the handler
    does with a response of status 401, the session is gone and the
    location is the login page when it is done. *)
Lemma admin_submit_unauthorized P session net (p : Page Admin.Dom) payload res :
  nullish session = false ->
  printable (prop session (utf16 "token")) = true ->
  admin_checked P (dom p) = Some payload ->
  net (admin_request P session payload) = Fulfilled res ->
  status res = 401 ->
  let p' := exec (Admin.submit P session net) p in
  localStorage (win p') = delete (utf16 "session") (localStorage (win p)) /\
  location_href (win p') = utf16 "./login.html" /\
  Admin.btn_disabled (dom p') = false.
Proof.
  intros Hs Htok Hc Hnet Hst. cbn zeta. unfold exec.
  rewrite admin_submit_run, Hc. cbn zeta. rewrite Hs, Htok, Hnet. cbn [negb].
  destruct res as [st js]. cbn [status] in Hst. subst st.
  unfold api_result, after_response. cbn [status json].
  change (401 =? 401) with true. change (401 =? 204) with false.
  change (res_ok {| status := 401; json := js |}) with false.
  clear. cbn [Admin.ok].
  destruct (printable (refusal_value _)); open_admin_page p; run_page;
    repeat split.
Qed.

(** C2 fails on the admin form: when the request of the create-user
    handler is rejected, the handler ends with the rejection and the
    button is left disabled, labelled "Creando…": the last thing that
    happened to it is that it was made busy, before the request.  (With
    a session whose token has no text the handler ends earlier still,
    building the headers, the button busy as well.) *)
Theorem admin_button_stays_busy_on_network_error
  P session net (p : Page Admin.Dom) payload e :
  nullish session = false ->
  admin_checked P (dom p) = Some payload ->
  net (admin_request P session payload) = Rejected e ->
  let p' := exec (Admin.submit P session net) p in
  Admin.btn_disabled (dom p') = true /\
  Admin.btn_text (dom p') = utf16 "Creando…" /\
  (printable (prop session (utf16 "token")) = true ->
   outcome (Admin.submit P session net) p = Throw e /\
   trace (win p') =
     trace (win p) ++ [admin_button_on;
                       EvFetch (admin_request P session payload); EvSettled]) /\
  (printable (prop session (utf16 "token")) = false ->
   outcome (Admin.submit P session net) p = Throw (conversion_error P) /\
   trace (win p') = trace (win p) ++ [admin_button_on]).
Proof.
  intros Hs Hc Hnet. cbn zeta. unfold outcome, exec.
  rewrite admin_submit_run, Hc. cbn zeta. rewrite Hs, Hnet.
  destruct (printable (prop session (utf16 "token"))); cbn [negb];
    open_admin_page p; run_page; rewrite ?app3_assoc;
    conjuncts; try reflexivity; intros H; try discriminate H;
    conjuncts; reflexivity.
Qed.

Lemma admin_button_stays_busy_on_network_error_witness :
  let p := admin_page "{}" "Ana" "ana@test.com" "secreto" in
  let p' := exec (Admin.submit Sample.platform admin_session net_down) p in
  Admin.btn_disabled (dom p') = true /\
  Admin.btn_text (dom p') = utf16 "Creando…" /\
  outcome (Admin.submit Sample.platform admin_session net_down) p
  = Throw {| kind := TypeError; message := utf16 "Failed to fetch" |}.
Proof.
  cbn zeta.
  set (p := admin_page "{}" "Ana" "ana@test.com" "secreto").
  assert (Hc : admin_checked Sample.platform (dom p)
               = Some (Admin.read_payload Sample.platform (dom p)))
    by (vm_compute; reflexivity).
  destruct (admin_button_stays_busy_on_network_error Sample.platform
              admin_session net_down p _
              {| kind := TypeError; message := utf16 "Failed to fetch" |}
              eq_refl Hc eq_refl)
    as (Hd & Ht & Hp & _).
  split; [exact Hd|]. split; [exact Ht|].
  exact (proj1 (Hp eq_refl)).
Defined.


(** And of the create-user handler whenever the request is answered,
    whatever the answer, for a session whose token has a text. *)
Lemma admin_button_released P session net (p : Page Admin.Dom) payload res :
  nullish session = false ->
  printable (prop session (utf16 "token")) = true ->
  admin_checked P (dom p) = Some payload ->
  net (admin_request P session payload) = Fulfilled res ->
  let p' := exec (Admin.submit P session net) p in
  Admin.btn_disabled (dom p') = false /\
  Admin.btn_text (dom p') = utf16 "Crear usuario" /\
  trace (win p') =
    trace (win p) ++ [admin_button_on; EvFetch (admin_request P session payload);
                      EvSettled; admin_button_off].
Proof.
  intros Hs Htok Hc Hnet. cbn zeta. unfold exec.
  rewrite admin_submit_run, Hc. cbn zeta. rewrite Hs, Htok, Hnet. cbn [negb].
  clear Hs Htok Hc Hnet.
  destruct res as [st js]. unfold after_response. cbn [status].
  open_admin_page p. run_page. cbn [status json].
  destruct (st =? 401); destruct (st =? 204); run_page;
    try destruct (res_ok _); run_page;
    try destruct js as [data|e]; run_page;
    try destruct (nullish _); run_page;
    try destruct (confirmable _); run_page;
    try destruct (printable _); run_page;
    rewrite app4_assoc; repeat split.
Qed.

Lemma failure_text_nonempty m : failure_text m <> [].
Proof. destruct m; [vm_compute|]; discriminate. Qed.

Lemma failure_text_mismatch :
  failure_text (utf16 "Email o contraseña incorrectos.")
  = utf16 "Email o contraseña incorrectos.".
Proof. vm_compute. reflexivity. Qed.

Lemma api_verdict_refused P res :
  res_ok res = false -> exists e, api_verdict P (Fulfilled res) = inl e.
Proof.
  intros H. unfold api_verdict. rewrite H.
  destruct (json res) as [data|e];
    [destruct (nullish data); [|destruct (to_string _)]|]; eauto.
Qed.

(** C4. A sign-in that is accepted stores under "session" the text of
    the object {token, user, remember}, adding nothing else to local
    storage, and schedules the redirect to the dashboard; one that is
    refused leaves local storage as it was, schedules nothing, and shows
    a message.  For [part_001] accepted means answered with a status in
    200-299 and a JSON body that is not [null], refused means answered
    with another status; for [part_000] accepted means the built-in
    account.  Values that do not pass the checks store nothing either and
    show the message of a field. *)
Theorem login_stores_session_when_accepted :
  (forall P net (p : Page Login.Dom) eVal pVal res data,
     login_checked (dom p) = Some (eVal, pVal) ->
     net (LoginApi.login_request P eVal pVal) = Fulfilled res ->
     res_ok res = true -> json res = Ok data -> nullish data = false ->
     let p' := exec (LoginApi.submit P net) p in
     let session :=
       session_object (prop data (utf16 "token")) (prop data (utf16 "user"))
         (Login.remember_checked (dom p)) in
     localStorage (win p')
       = <[utf16 "session" := JSON_stringify P session]> (localStorage (win p)) /\
     timers (win p')
       = timers (win p) ++ [(500, Navigate (utf16 "./dashboard.html"))]) /\
  (forall P net (p : Page Login.Dom) eVal pVal res,
     login_checked (dom p) = Some (eVal, pVal) ->
     net (LoginApi.login_request P eVal pVal) = Fulfilled res ->
     res_ok res = false ->
     let p' := exec (LoginApi.submit P net) p in
     localStorage (win p') = localStorage (win p) /\
     timers (win p') = timers (win p) /\
     Login.formMsg_text (dom p') <> [] /\
     Login.formMsg_display (dom p') = utf16 "block") /\
  (forall P (p : Page Login.Dom),
     trim (Login.email_value (dom p)) = LoginDemo.demoEmail ->
     Login.password_value (dom p) = LoginDemo.demoPass ->
     let p' := exec (LoginDemo.submit P) p in
     let session :=
       session_object (VStr (utf16 "demo_token_123"))
         (demo_user LoginDemo.demoEmail) (Login.remember_checked (dom p)) in
     localStorage (win p')
       = <[utf16 "session" := JSON_stringify P session]> (localStorage (win p)) /\
     timers (win p')
       = timers (win p) ++ [(500, Navigate (utf16 "./dashboard.html"))]) /\
  (forall P (p : Page Login.Dom) eVal pVal,
     login_checked (dom p) = Some (eVal, pVal) ->
     eVal <> LoginDemo.demoEmail \/ pVal <> LoginDemo.demoPass ->
     let p' := exec (LoginDemo.submit P) p in
     localStorage (win p') = localStorage (win p) /\
     timers (win p') = timers (win p) /\
     Login.formMsg_text (dom p') = utf16 "Email o contraseña incorrectos." /\
     Login.formMsg_display (dom p') = utf16 "block") /\
  (forall P net (p : Page Login.Dom),
     login_checked (dom p) = None ->
     let p1 := exec (LoginApi.submit P net) p in
     let p0 := exec (LoginDemo.submit P) p in
     win p1 = win p /\ win p0 = win p /\
     (Login.emailError_text (dom p1) = Login.email_message \/
      Login.passError_text (dom p1) = Login.password_message) /\
     (Login.emailError_text (dom p0) = Login.email_message \/
      Login.passError_text (dom p0) = Login.password_message)).
Proof.
  split; [|split; [|split; [|split]]].
  - intros P net p eVal pVal res data Hc Hnet Hok Hjs Hnn. cbn zeta.
    unfold exec. rewrite api_submit_run, Hc. cbn zeta. rewrite Hnet.
    unfold api_verdict. rewrite Hjs, Hok, Hnn.
    open_login_page p. run_page. split; reflexivity.
  - intros P net p eVal pVal res Hc Hnet Hok. cbn zeta.
    unfold exec. rewrite api_submit_run, Hc. cbn zeta. rewrite Hnet.
    destruct (api_verdict_refused P res Hok) as [e ->].
    open_login_page p. run_page.
    repeat split. apply failure_text_nonempty.
  - intros P p He Hp. cbn zeta.
    assert (Hc : login_checked (dom p) = Some (LoginDemo.demoEmail, LoginDemo.demoPass)).
    { unfold login_checked. rewrite He, Hp. vm_compute. reflexivity. }
    unfold exec. rewrite demo_submit_run, Hc. cbn zeta.
    rewrite !str_eqb_refl. open_login_page p. run_page. split; reflexivity.
  - intros P p eVal pVal Hc Hne. cbn zeta.
    unfold exec. rewrite demo_submit_run, Hc. cbn zeta.
    assert (Hb : str_eqb eVal LoginDemo.demoEmail && str_eqb pVal LoginDemo.demoPass
                 = false).
    { apply andb_false_iff. destruct Hne as [H|H]; [left|right];
        now apply str_eqb_neq. }
    rewrite Hb. open_login_page p. run_page.
    rewrite failure_text_mismatch. repeat split.
  - intros P net p Hc. cbn zeta.
    unfold exec. rewrite api_submit_run, demo_submit_run, Hc.
    apply login_checked_None in Hc.
    open_login_page p. run_page. run_page_in Hc.
    split; [reflexivity|]. split; [reflexivity|].
    destruct Hc as [Hc|Hc]; rewrite Hc; auto.
Qed.

Lemma login_stores_session_when_accepted_witness :
  let p := login_page "  kevin@test.com " "123456" in
  (let p' := exec (LoginApi.submit Sample.platform (net_answers res_signed_in)) p in
   timers (win p') = [(500, Navigate (utf16 "./dashboard.html"))]) /\
  (let p' := exec (LoginApi.submit Sample.platform (net_answers res_refused)) p in
   localStorage (win p') = ∅ /\
   Login.formMsg_display (dom p') = utf16 "block") /\
  (let p' := exec (LoginDemo.submit Sample.platform) p in
   timers (win p') = [(500, Navigate (utf16 "./dashboard.html"))]) /\
  (let p' := exec (LoginDemo.submit Sample.platform)
               (login_page "ana@test.com" "123456") in
   localStorage (win p') = ∅ /\
   Login.formMsg_text (dom p') = utf16 "Email o contraseña incorrectos.") /\
  (let p' := exec (LoginDemo.submit Sample.platform) (login_page "ana" "123456") in
   win p' = fresh_window).
Proof.
  destruct login_stores_session_when_accepted as (Ha & Hr & Hda & Hdr & Hbad).
  set (p := login_page "  kevin@test.com " "123456").
  assert (Hc : login_checked (dom p) = Some (utf16 "kevin@test.com", utf16 "123456"))
    by (vm_compute; reflexivity).
  assert (Hc' : login_checked (dom (login_page "ana@test.com" "123456"))
                = Some (utf16 "ana@test.com", utf16 "123456"))
    by (vm_compute; reflexivity).
  assert (Hc'' : login_checked (dom (login_page "ana" "123456")) = None)
    by (vm_compute; reflexivity).
  assert (He : trim (Login.email_value (dom p)) = LoginDemo.demoEmail)
    by (vm_compute; reflexivity).
  assert (Hne : utf16 "ana@test.com" <> LoginDemo.demoEmail)
    by (vm_compute; discriminate).
  cbn zeta. split; [|split; [|split; [|split]]].
  - exact (proj2 (Ha Sample.platform (net_answers res_signed_in) p _ _
                    res_signed_in _ Hc eq_refl eq_refl eq_refl eq_refl)).
  - destruct (Hr Sample.platform (net_answers res_refused) p _ _ res_refused
                Hc eq_refl eq_refl) as (Hs & _ & _ & Hd).
    split; [exact Hs | exact Hd].
  - exact (proj2 (Hda Sample.platform p He eq_refl)).
  - destruct (Hdr Sample.platform (login_page "ana@test.com" "123456") _ _
                Hc' (or_introl Hne)) as (Hs & _ & Hm & _).
    split; [exact Hs | exact Hm].
  - destruct (Hbad Sample.platform net_down (login_page "ana" "123456") Hc'')
      as (_ & Hw & _).
    exact Hw.
Defined.

(** C8, as stated, fails on [part_000]: its handler signs in against the
    built-in account and sends nothing.  A submission that passes the
    checks ends with the session stored and no request ever started. *)
Lemma demo_login_sends_no_request :
  let p := login_page "kevin@test.com" "123456" in
  let p' := exec (LoginDemo.submit Sample.platform) p in
  login_checked (dom p) = Some (utf16 "kevin@test.com", utf16 "123456") /\
  requests_of (trace (win p')) = [] /\
  trace (win p') = [login_button_on; login_button_off] /\
  timers (win p') = [(500, Navigate (utf16 "./dashboard.html"))].
Proof. vm_compute. repeat split. Qed.

(** The page on which the request of a submission starts: the checks
    have passed and [setLoading(true)] has run. *)
Lemma login_request_page (p : Page Login.Dom) :
  exec (Login.validate ;; Login.setLoading true) p
  = {| win := add_event login_button_on (win p);
       dom := login_busy (login_validated (dom p)) |}.
Proof.
  unfold exec, bind. rewrite login_validate_run. cbv beta iota.
  rewrite login_setLoading_run. reflexivity.
Qed.

Lemma requests_after_button b l (w : Window) :
  requests_of (trace (add_event (EvButton b l) w)) = requests_of (trace w).
Proof.
  destruct w. unfold add_event, requests_of. cbn [trace].
  rewrite flat_map_app. cbn [flat_map app]. apply app_nil_r.
Qed.

(** C8, amended.  A submission of the login form that passes the checks
    first disables the button and labels it "Ingresando...", sending
    nothing yet; the rest of the handler, its [try] statement, runs on
    the page with the button in that state.  The handler of [part_001]
    then sends one request, a POST to /auth/login whose body is the JSON
    text of {email, password}, email trimmed, and once the request has
    settled enables the button again, labelled "Entrar".  When the answer
    has a status outside 200-299 and a JSON body that is not [null], the
    message area is displayed and shows: "Email o contraseña incorrectos."
    when the detail of the body is falsy; otherwise the detail converted
    to a string (a non-empty string detail as it is), or "No se pudo
    iniciar sesión." when that string is empty; or, when the detail has
    no conversion to a string, the message of the TypeError the
    conversion throws.  The handler of [part_000] sends no request: it
    compares the values with its built-in account, stores the session
    when both are equal, and otherwise shows "Email o contraseña
    incorrectos." and stores nothing; it enables the button again in both
    cases. *)
Theorem login_submission_request :
  (forall P net (p : Page Login.Dom) eVal pVal,
     login_checked (dom p) = Some (eVal, pVal) ->
     let q := exec (Login.validate ;; Login.setLoading true) p in
     let p' := exec (LoginApi.submit P net) p in
     let rq := LoginApi.login_request P eVal pVal in
     eVal = trim (Login.email_value (dom p)) /\
     pVal = Login.password_value (dom p) /\
     LoginApi.submit P net p = LoginApi.attempt P net eVal pVal q /\
     Login.btnLogin_disabled (dom q) = true /\
     Login.btnLogin_text (dom q) = utf16 "Ingresando..." /\
     requests_of (trace (win q)) = requests_of (trace (win p)) /\
     url rq = utf16 "http://localhost:3000/auth/login" /\
     method (opts rq) = utf16 "POST" /\
     body (opts rq)
       = JSON_stringify P (VObj [(utf16 "email", VStr eVal);
                                 (utf16 "password", VStr pVal)]) /\
     requests_of (trace (win p')) = requests_of (trace (win p)) ++ [rq] /\
     trace (win p') =
       trace (win p) ++ [EvButton true (utf16 "Ingresando..."); EvFetch rq;
                         EvSettled; EvButton false (utf16 "Entrar")] /\
     Login.btnLogin_disabled (dom p') = false /\
     Login.btnLogin_text (dom p') = utf16 "Entrar" /\
     forall res data,
       net rq = Fulfilled res -> res_ok res = false ->
       json res = Ok data -> nullish data = false ->
       let detail := prop data (utf16 "detail") in
       Login.formMsg_display (dom p') = utf16 "block" /\
       (forall s, detail = VStr s -> s <> [] ->
                  Login.formMsg_text (dom p') = s) /\
       (truthy detail = false ->
        Login.formMsg_text (dom p') = utf16 "Email o contraseña incorrectos.") /\
       (truthy detail = true ->
        forall t, to_string detail = Some t ->
                  Login.formMsg_text (dom p') = failure_text t) /\
       (truthy detail = true -> to_string detail = None ->
        Login.formMsg_text (dom p') = failure_text (to_primitive_message P))) /\
  (forall P (p : Page Login.Dom) eVal pVal,
     login_checked (dom p) = Some (eVal, pVal) ->
     let q := exec (Login.validate ;; Login.setLoading true) p in
     let p' := exec (LoginDemo.submit P) p in
     eVal = trim (Login.email_value (dom p)) /\
     pVal = Login.password_value (dom p) /\
     LoginDemo.submit P p = LoginDemo.attempt P eVal pVal q /\
     Login.btnLogin_disabled (dom q) = true /\
     Login.btnLogin_text (dom q) = utf16 "Ingresando..." /\
     trace (win p') =
       trace (win p) ++ [EvButton true (utf16 "Ingresando...");
                         EvButton false (utf16 "Entrar")] /\
     requests_of (trace (win p')) = requests_of (trace (win p)) /\
     Login.btnLogin_disabled (dom p') = false /\
     Login.btnLogin_text (dom p') = utf16 "Entrar" /\
     (eVal = LoginDemo.demoEmail -> pVal = LoginDemo.demoPass ->
      localStorage (win p') =
        <[utf16 "session" :=
            JSON_stringify P
              (session_object (VStr (utf16 "demo_token_123")) (demo_user eVal)
                 (Login.remember_checked (dom p)))]> (localStorage (win p)) /\
      Login.formMsg_text (dom p') = utf16 "¡Login correcto! Redirigiendo…") /\
     (eVal <> LoginDemo.demoEmail \/ pVal <> LoginDemo.demoPass ->
      localStorage (win p') = localStorage (win p) /\
      Login.formMsg_display (dom p') = utf16 "block" /\
      Login.formMsg_text (dom p') = utf16 "Email o contraseña incorrectos.")).
Proof.
  split.
  - intros P net p eVal pVal Hc. cbn zeta.
    pose proof (proj1 (login_checked_Some _ _ _) Hc) as (He & Hp & _ & _).
    split; [exact He|]. split; [exact Hp|]. clear He Hp.
    split.
    { rewrite login_request_page. unfold LoginApi.submit, bind.
      rewrite login_validate_run. cbv beta iota. rewrite Hc. cbv beta iota.
      rewrite login_setLoading_run. reflexivity. }
    rewrite login_request_page. cbn [dom win].
    split; [reflexivity|]. split; [reflexivity|].
    split; [apply requests_after_button|].
    split; [reflexivity|]. split; [reflexivity|]. split; [reflexivity|].
    unfold exec. rewrite api_submit_run, Hc. cbn zeta. clear Hc.
    assert (Htr : forall x : Page Login.Dom,
      trace (win x) =
        trace (win p) ++ [EvButton true (utf16 "Ingresando...");
                          EvFetch (LoginApi.login_request P eVal pVal);
                          EvSettled; EvButton false (utf16 "Entrar")] ->
      requests_of (trace (win x))
      = requests_of (trace (win p)) ++ [LoginApi.login_request P eVal pVal]).
    { intros x ->. unfold requests_of. rewrite flat_map_app. reflexivity. }
    assert (Ht : trace (win (snd (@pair (result unit) _ (Ok tt)
        match api_verdict P (net (LoginApi.login_request P eVal pVal)) with
        | inl e =>
            {| win := add_event login_button_off
                        (add_event EvSettled
                           (add_event (EvFetch (LoginApi.login_request P eVal pVal))
                              (add_event login_button_on (win p))));
               dom := login_idle
                        (login_failed (message e)
                           (login_busy (login_validated (dom p)))) |}
        | inr (token, user) =>
            {| win := add_event login_button_off
                        (signed_in P
                           (session_object token user
                              (Login.remember_checked (dom p)))
                           (add_event EvSettled
                              (add_event
                                 (EvFetch (LoginApi.login_request P eVal pVal))
                                 (add_event login_button_on (win p)))));
               dom := login_idle
                        (login_welcomed (login_busy (login_validated (dom p)))) |}
        end))) =
        trace (win p) ++ [EvButton true (utf16 "Ingresando...");
                          EvFetch (LoginApi.login_request P eVal pVal);
                          EvSettled; EvButton false (utf16 "Entrar")]).
    { open_login_page p. run_page.
      destruct (api_verdict _ _) as [err|[token user]]; run_page;
        rewrite app4_assoc; reflexivity. }
    split; [apply Htr; exact Ht|]. split; [exact Ht|]. clear Htr Ht.
    split.
    { open_login_page p. run_page.
      destruct (api_verdict _ _) as [err|[token user]]; run_page; reflexivity. }
    split.
    { open_login_page p. run_page.
      destruct (api_verdict _ _) as [err|[token user]]; run_page; reflexivity. }
    intros res data Hnet Hok Hjs Hnn. rewrite Hnet.
    unfold api_verdict. rewrite Hjs, Hok, Hnn. unfold js_or.
    split.
    { destruct (truthy _); destruct (to_string _); open_login_page p; run_page;
        reflexivity. }
    split.
    { intros s Hs Hne. rewrite Hs. cbn [truthy to_string].
      destruct s; [congruence|]. open_login_page p. run_page. reflexivity. }
    split.
    { intros Hf. rewrite Hf. cbn [to_string].
      open_login_page p. run_page. cbn [message].
      apply failure_text_mismatch. }
    split.
    { intros Ht t Hs. rewrite Ht, Hs. open_login_page p. run_page. reflexivity. }
    intros Ht Hs. rewrite Ht, Hs. open_login_page p. run_page. reflexivity.
  - intros P p eVal pVal Hc. cbn zeta.
    pose proof (proj1 (login_checked_Some _ _ _) Hc) as (He & Hp & _ & _).
    split; [exact He|]. split; [exact Hp|]. clear He Hp.
    split.
    { rewrite login_request_page. unfold LoginDemo.submit, bind.
      rewrite login_validate_run. cbv beta iota. rewrite Hc. cbv beta iota.
      rewrite login_setLoading_run. reflexivity. }
    rewrite login_request_page. cbn [dom win].
    split; [reflexivity|]. split; [reflexivity|].
    unfold exec. rewrite demo_submit_run, Hc. cbn zeta. clear Hc.
    split.
    { open_login_page p. run_page.
      destruct (str_eqb eVal _); [destruct (str_eqb pVal _)|]; run_page;
        rewrite app2_assoc; reflexivity. }
    split.
    { open_login_page p. run_page.
      destruct (str_eqb eVal _); [destruct (str_eqb pVal _)|]; run_page;
        unfold requests_of; rewrite !flat_map_app; cbn [flat_map app];
        rewrite !app_nil_r; reflexivity. }
    split.
    { open_login_page p. run_page.
      destruct (str_eqb eVal _); [destruct (str_eqb pVal _)|]; run_page;
        reflexivity. }
    split.
    { open_login_page p. run_page.
      destruct (str_eqb eVal _); [destruct (str_eqb pVal _)|]; run_page;
        reflexivity. }
    split.
    { intros He Hp. subst eVal pVal. rewrite !str_eqb_refl.
      open_login_page p. run_page. split; reflexivity. }
    intros Hne.
    assert (Hb : str_eqb eVal LoginDemo.demoEmail && str_eqb pVal LoginDemo.demoPass
                 = false).
    { apply andb_false_iff. destruct Hne as [H|H]; [left|right];
        now apply str_eqb_neq. }
    rewrite Hb. open_login_page p. run_page.
    rewrite failure_text_mismatch. conjuncts; reflexivity.
Qed.

Lemma login_submission_request_witness :
  let p := login_page "kevin@test.com" "123456" in
  let q := exec (Login.validate ;; Login.setLoading true) p in
  Login.btnLogin_disabled (dom q) = true /\
  Login.formMsg_text
    (dom (exec (LoginApi.submit Sample.platform (net_answers res_refused)) p))
  = utf16 "Credenciales inválidas" /\
  Login.formMsg_text
    (dom (exec (LoginApi.submit Sample.platform (net_answers res_unprocessable)) p))
  = utf16 "[object Object]" /\
  requests_of (trace (win (exec (LoginDemo.submit Sample.platform) p)))
  = requests_of (trace (win p)).
Proof.
  destruct login_submission_request as [Hapi Hdemo].
  set (p := login_page "kevin@test.com" "123456").
  assert (Hc : login_checked (dom p) = Some (utf16 "kevin@test.com", utf16 "123456"))
    by (vm_compute; reflexivity).
  assert (Hne : utf16 "Credenciales inválidas" <> [])
    by (vm_compute; discriminate).
  assert (Hts : to_string
                  (prop (VObj [(utf16 "detail",
                                VArr [VObj [(utf16 "loc", VArr [VStr (utf16 "body");
                                                                 VStr (utf16 "email")]);
                                            (utf16 "msg", VStr (utf16 "field required"))]])])
                     (utf16 "detail"))
                = Some (utf16 "[object Object]"))
    by (vm_compute; reflexivity).
  cbn zeta.
  split.
  - destruct (Hapi Sample.platform (net_answers res_refused) p _ _ Hc)
      as (_ & _ & _ & Hbusy & _).
    exact Hbusy.
  - split; [|split].
    + destruct (Hapi Sample.platform (net_answers res_refused) p _ _ Hc)
        as (_ & _ & _ & _ & _ & _ & _ & _ & _ & _ & _ & _ & _ & Hres).
      destruct (Hres res_refused _ eq_refl eq_refl eq_refl eq_refl) as (_ & Hd & _).
      exact (Hd (utf16 "Credenciales inválidas") eq_refl Hne).
    + destruct (Hapi Sample.platform (net_answers res_unprocessable) p _ _ Hc)
        as (_ & _ & _ & _ & _ & _ & _ & _ & _ & _ & _ & _ & _ & Hres).
      destruct (Hres res_unprocessable _ eq_refl eq_refl eq_refl eq_refl)
        as (_ & _ & _ & Hd & _).
      exact (Hd eq_refl _ Hts).
    + destruct (Hdemo Sample.platform p _ _ Hc)
        as (_ & _ & _ & _ & _ & _ & Hrq & _).
      exact Hrq.
Defined.

(** C5 fails on a response of status 204: [apiFetch] reports a success
    without data, and the handler, reading the email of the data, throws
    a TypeError.  No confirmation is shown, the message area stays
    cleared, and the fields keep what the user typed: the form is not
    reset and the role is not put back to "user". *)
Theorem no_content_success_throws
  P session net (p : Page Admin.Dom) payload res :
  nullish session = false ->
  admin_checked P (dom p) = Some payload ->
  net (admin_request P session payload) = Fulfilled res ->
  status res = 204 ->
  let p' := exec (Admin.submit P session net) p in
  (exists e, outcome (Admin.submit P session net) p = Throw e /\
             kind e = TypeError) /\
  (printable (prop session (utf16 "token")) = true ->
   outcome (Admin.submit P session net) p
   = Throw {| kind := TypeError;
              message := null_read_message P (utf16 "email") |}) /\
  Admin.msg_text (dom p') = [] /\
  Admin.msg_className (dom p') = utf16 "msg" /\
  Admin.name_value (dom p') = Admin.name_value (dom p) /\
  Admin.email_value (dom p') = Admin.email_value (dom p) /\
  Admin.password_value (dom p') = Admin.password_value (dom p) /\
  Admin.role_value (dom p') = Admin.role_value (dom p).
Proof.
  intros Hs Hc Hnet Hst. cbn zeta. unfold outcome, exec.
  rewrite admin_submit_run, Hc. cbn zeta. rewrite Hs, Hnet.
  destruct res as [st js]. cbn [status] in Hst. subst st.
  unfold api_result, after_response. cbn [status json].
  change (204 =? 204) with true. change (204 =? 401) with false.
  clear. destruct (printable (prop session (utf16 "token"))); cbn [negb];
    open_admin_page p; run_page; cbn [nullish].
  - split; [eexists; split; reflexivity|]. repeat split.
  - split; [eexists; split; reflexivity|].
    split; [intros H; discriminate H|]. repeat split.
Qed.

Lemma no_content_success_throws_witness :
  let p := admin_page "{}" "Ana" "ana@test.com" "secreto" in
  let p' := exec (Admin.submit Sample.platform admin_session
                    (net_answers res_no_content)) p in
  Admin.msg_text (dom p') = [] /\
  Admin.role_value (dom p') = Admin.role_value (dom p).
Proof.
  cbn zeta.
  set (p := admin_page "{}" "Ana" "ana@test.com" "secreto").
  assert (Hc : admin_checked Sample.platform (dom p)
               = Some (Admin.read_payload Sample.platform (dom p)))
    by (vm_compute; reflexivity).
  destruct (no_content_success_throws Sample.platform admin_session
              (net_answers res_no_content) p _ res_no_content
              eq_refl Hc eq_refl eq_refl)
    as (_ & _ & Hm & _ & _ & _ & _ & Hr).
  split; assumption.
Defined.

(** What C5 says does hold of a success that carries data whose email
    and role have a text: the message area shows the confirmation with
    them, the fields go back to their defaults and the role to "user".
    When the email or the role has no text the handler throws instead,
    and nothing of this happens. *)
Lemma created_user_is_confirmed
  P session net (p : Page Admin.Dom) payload res data :
  nullish session = false ->
  printable (prop session (utf16 "token")) = true ->
  admin_checked P (dom p) = Some payload ->
  net (admin_request P session payload) = Fulfilled res ->
  status res <> 204 -> res_ok res = true ->
  json res = Ok data -> nullish data = false ->
  let p' := exec (Admin.submit P session net) p in
  (forall email role,
     to_string (prop data (utf16 "email")) = Some email ->
     to_string (prop data (utf16 "role")) = Some role ->
     outcome (Admin.submit P session net) p = Ok tt /\
     Admin.msg_text (dom p') =
       utf16 "Usuario creado ✅ (" ++ email ++ utf16 " · rol: " ++ role ++ utf16 ")" /\
     Admin.msg_className (dom p') = utf16 "msg " ++ utf16 "ok" /\
     Admin.name_value (dom p') = Admin.name_default (dom p) /\
     Admin.email_value (dom p') = Admin.email_default (dom p) /\
     Admin.password_value (dom p') = Admin.password_default (dom p) /\
     Admin.role_value (dom p') = utf16 "user") /\
  (confirmable data = false ->
   outcome (Admin.submit P session net) p = Throw (conversion_error P) /\
   Admin.msg_text (dom p') = [] /\
   Admin.name_value (dom p') = Admin.name_value (dom p) /\
   Admin.role_value (dom p') = Admin.role_value (dom p)).
Proof.
  intros Hs Htok Hc Hnet Hst Hok Hjs Hnn. cbn zeta. unfold outcome, exec.
  rewrite admin_submit_run, Hc. cbn zeta. rewrite Hs, Htok, Hnet. cbn [negb].
  unfold api_result. apply N.eqb_neq in Hst. rewrite Hst.
  cbn [Admin.ok Admin.data]. rewrite Hok, Hjs, Hnn.
  clear. split.
  - intros email role He Hr.
    assert (Hcf : confirmable data = true).
    { unfold confirmable, printable. now rewrite He, Hr. }
    rewrite Hcf. open_admin_page p. run_page.
    unfold confirmation, text. rewrite He, Hr. repeat split.
  - intros Hcf. rewrite Hcf. open_admin_page p. run_page. repeat split.
Qed.

(** C7 fails on a stored session that is an object without a token:
    [goLogin] is called and the script goes on.  When the role of the
    session is not "admin" the alert is shown and the location set again,
    to the dashboard, so that the browser is not sent to the login page;
    and the subtitle is written and the listeners registered, the script
    running to its end (unless the name or the role of the session has no
    text, where the script stops at the subtitle, the location already
    the dashboard). *)
Theorem tokenless_session_is_rendered P (p : Page Admin.Dom) raw session :
  localStorage (win p) !! utf16 "session" = Some raw ->
  raw <> [] ->
  JSON_parse P raw = Ok session ->
  truthy session = true ->
  truthy (prop session (utf16 "token")) = false ->
  not_admin session = true ->
  let p' := exec (Admin.page_load P) p in
  localStorage (win p') = delete (utf16 "session") (localStorage (win p)) /\
  location_href (win p') = utf16 "./dashboard.html" /\
  alerts (win p') =
    alerts (win p)
    ++ [utf16 "No autorizado. Solo admins pueden acceder a esta página."] /\
  (renders session = true ->
   outcome (Admin.page_load P) p = Ok session /\
   Admin.subtitle_text (dom p') = subtitle_of session /\
   Admin.listeners (dom p') =
     Admin.listeners (dom p)
     ++ [Admin.logoutBtn_click; Admin.togglePass_click_l; Admin.form_submit]) /\
  (renders session = false ->
   outcome (Admin.page_load P) p = Throw (conversion_error P) /\
   dom p' = dom p).
Proof.
  intros Hraw Hne Hparse Ht Htok Hrole. cbn zeta. unfold outcome, exec.
  rewrite page_load_run. unfold stored_session. rewrite Hraw.
  assert (Hr : truthy (VStr raw) = true) by (destruct raw; [congruence | reflexivity]).
  rewrite Hr, Hparse. cbn zeta.
  unfold guard_fires. rewrite Ht, Htok, (truthy_not_nullish _ Ht), Hrole.
  cbn [negb orb]. clear.
  destruct (renders session); open_admin_page p; run_page;
    rewrite ?app3_assoc; conjuncts; try reflexivity;
    intros H; try discriminate H; conjuncts; reflexivity.
Qed.

Lemma tokenless_session_is_rendered_witness :
  let p := admin_page "{}" "" "" "" in
  let p' := exec (Admin.page_load Sample.platform) p in
  location_href (win p') = utf16 "./dashboard.html" /\
  Admin.subtitle_text (dom p') = subtitle_of (VObj []).
Proof.
  cbn zeta.
  assert (Hne : utf16 "{}" <> []) by (vm_compute; discriminate).
  destruct (tokenless_session_is_rendered Sample.platform
              (admin_page "{}" "" "" "") (utf16 "{}") (VObj [])
              eq_refl Hne eq_refl eq_refl eq_refl eq_refl)
    as (_ & Hl & _ & Hren & _).
  split; [exact Hl|]. exact (proj1 (proj2 (Hren eq_refl))).
Defined.

(** What C7 says does hold when nothing is stored under "session", or
    the empty text, or the text of [null]: the entry is removed, the
    location is the login page, and the script stops there with a
    TypeError, the elements of the page untouched. *)
Lemma absent_session_redirects P (p : Page Admin.Dom) :
  stored_session P (win p) = Ok VNull ->
  let p' := exec (Admin.page_load P) p in
  outcome (Admin.page_load P) p
    = Throw {| kind := TypeError; message := null_read_message P (utf16 "user") |} /\
  localStorage (win p') = delete (utf16 "session") (localStorage (win p)) /\
  location_href (win p') = utf16 "./login.html" /\
  alerts (win p') = alerts (win p) /\
  dom p' = dom p.
Proof.
  intros Hs. cbn zeta. unfold outcome, exec. rewrite page_load_run, Hs.
  cbn zeta. cbn [nullish guard_fires truthy negb orb].
  clear. open_admin_page p. run_page. repeat split.
Qed.

(** ** More of the admin page *)




Lemma is_string_eq v s : is_string v s = true -> v = VStr s.
Proof.
  destruct v; simpl; try discriminate. intros H. apply str_eqb_eq in H. now subst.
Qed.

Lemma stored_session_parsed P (w : Window) raw :
  localStorage w !! utf16 "session" = Some raw -> raw <> [] ->
  stored_session P w = JSON_parse P raw.
Proof.
  intros Hraw Hne. unfold stored_session. rewrite Hraw.
  destruct raw; [congruence | reflexivity].
Qed.

(** The role check of the admin page: a stored session with a token and
    a role other than "admin" (or none) gets the alert and is sent to the
    dashboard; its entry in local storage is kept.  The script does not
    stop there: it goes on to write the subtitle and to register its
    listeners.  Only when the name or the role of the session has no
    conversion to a string does it stop, at the subtitle, with the
    TypeError of the conversion and the elements untouched. *)
Theorem non_admin_session_sent_to_dashboard P (p : Page Admin.Dom) raw session :
  localStorage (win p) !! utf16 "session" = Some raw ->
  raw <> [] ->
  JSON_parse P raw = Ok session ->
  truthy session = true ->
  truthy (prop session (utf16 "token")) = true ->
  not_admin session = true ->
  let p' := exec (Admin.page_load P) p in
  localStorage (win p') = localStorage (win p) /\
  location_href (win p') = utf16 "./dashboard.html" /\
  alerts (win p') =
    alerts (win p)
    ++ [utf16 "No autorizado. Solo admins pueden acceder a esta página."] /\
  (renders session = true ->
   outcome (Admin.page_load P) p = Ok session /\
   Admin.subtitle_text (dom p') = subtitle_of session /\
   Admin.listeners (dom p') =
     Admin.listeners (dom p)
     ++ [Admin.logoutBtn_click; Admin.togglePass_click_l; Admin.form_submit]) /\
  (renders session = false ->
   outcome (Admin.page_load P) p = Throw (conversion_error P) /\
   dom p' = dom p).
Proof.
  intros Hraw Hne Hparse Ht Htok Hrole. cbn zeta. unfold outcome, exec.
  rewrite page_load_run, (stored_session_parsed _ _ _ Hraw Hne), Hparse.
  cbn zeta. unfold guard_fires.
  rewrite Ht, Htok, (truthy_not_nullish _ Ht), Hrole.
  cbn [negb orb]. clear.
  destruct (renders session); open_admin_page p; run_page;
    rewrite ?app3_assoc; conjuncts; try reflexivity;
    intros H; try discriminate H; conjuncts; reflexivity.
Qed.

Lemma non_admin_session_sent_to_dashboard_witness :
  let p := admin_page_holding (session_of_role "user") in
  let p' := exec (Admin.page_load Sample.platform) p in
  localStorage (win p') = localStorage (win p) /\
  location_href (win p') = utf16 "./dashboard.html" /\
  outcome (Admin.page_load Sample.platform) p = Ok (session_of_role "user").
Proof.
  cbn zeta.
  assert (Hne : Sample.stringify (session_of_role "user") <> [])
    by (vm_compute; discriminate).
  assert (Hparse : JSON_parse Sample.platform
                     (Sample.stringify (session_of_role "user"))
                   = Ok (session_of_role "user"))
    by (vm_compute; reflexivity).
  destruct (non_admin_session_sent_to_dashboard Sample.platform
              (admin_page_holding (session_of_role "user")) _ _
              eq_refl Hne Hparse eq_refl eq_refl eq_refl)
    as (Hs & Hl & _ & Hren & _).
  split; [exact Hs|]. split; [exact Hl|]. exact (proj1 (Hren eq_refl)).
Defined.

(** The admin page for an administrator: a stored session with a token
    and the role "admin" passes both checks, and nothing of the window
    changes (no redirect, no alert, the session kept).  The subtitle
    names the user by the name of the session converted to a string, or
    by "admin" when the name is falsy, and the three listeners are
    registered; when the name has no conversion to a string the script
    stops at the subtitle with the TypeError of the conversion, the
    elements untouched. *)
Theorem admin_session_renders_page P (p : Page Admin.Dom) raw session :
  localStorage (win p) !! utf16 "session" = Some raw ->
  raw <> [] ->
  JSON_parse P raw = Ok session ->
  truthy session = true ->
  truthy (prop session (utf16 "token")) = true ->
  not_admin session = false ->
  let p' := exec (Admin.page_load P) p in
  let name := opt_prop (prop session (utf16 "user")) (utf16 "name") in
  win p' = win p /\
  (forall t, to_string (js_or name (VStr (utf16 "admin"))) = Some t ->
     outcome (Admin.page_load P) p = Ok session /\
     Admin.subtitle_text (dom p') =
       utf16 "Sesión: " ++ t ++ utf16 " · rol: " ++ utf16 "admin" /\
     Admin.listeners (dom p') =
       Admin.listeners (dom p)
       ++ [Admin.logoutBtn_click; Admin.togglePass_click_l; Admin.form_submit]) /\
  (truthy name = false ->
   to_string (js_or name (VStr (utf16 "admin"))) = Some (utf16 "admin")) /\
  (to_string (js_or name (VStr (utf16 "admin"))) = None ->
   outcome (Admin.page_load P) p = Throw (conversion_error P) /\
   dom p' = dom p).
Proof.
  intros Hraw Hne Hparse Ht Htok Hrole. cbn zeta. unfold outcome, exec.
  rewrite page_load_run, (stored_session_parsed _ _ _ Hraw Hne), Hparse.
  cbn zeta. unfold guard_fires.
  rewrite Ht, Htok, (truthy_not_nullish _ Ht), Hrole. cbn [negb orb].
  unfold not_admin in Hrole. apply negb_false_iff, is_string_eq in Hrole.
  unfold renders, admin_rendered, subtitle_of. rewrite Hrole.
  change (printable (VStr (utf16 "admin"))) with true.
  change (text (VStr (utf16 "admin"))) with (utf16 "admin").
  rewrite andb_true_r. unfold printable, text.
  assert (Hf : truthy (opt_prop (prop session (utf16 "user")) (utf16 "name")) = false ->
               to_string (js_or (opt_prop (prop session (utf16 "user")) (utf16 "name"))
                            (VStr (utf16 "admin"))) = Some (utf16 "admin")).
  { intros H. unfold js_or. rewrite H. reflexivity. }
  revert Hf. clear.
  generalize (js_or (opt_prop (prop session (utf16 "user")) (utf16 "name"))
                (VStr (utf16 "admin"))) as shown.
  intros shown.
  destruct (to_string shown) as [t|]; intros Hf; open_admin_page p; run_page;
    rewrite ?app3_assoc.
  - split; [reflexivity|]. split.
    + intros t' [= <-]. conjuncts; reflexivity.
    + split; [exact Hf|]. intros H; discriminate H.
  - split; [reflexivity|]. split.
    + intros t' H; discriminate H.
    + split; [exact Hf|]. intros _. split; reflexivity.
Qed.

Lemma admin_session_renders_page_witness :
  let p := admin_page_holding (session_of_role "admin") in
  let p' := exec (Admin.page_load Sample.platform) p in
  win p' = win p /\
  Admin.subtitle_text (dom p') =
    utf16 "Sesión: " ++ utf16 "Ana" ++ utf16 " · rol: " ++ utf16 "admin".
Proof.
  cbn zeta.
  assert (Hne : Sample.stringify (session_of_role "admin") <> [])
    by (vm_compute; discriminate).
  assert (Hparse : JSON_parse Sample.platform
                     (Sample.stringify (session_of_role "admin"))
                   = Ok (session_of_role "admin"))
    by (vm_compute; reflexivity).
  destruct (admin_session_renders_page Sample.platform
              (admin_page_holding (session_of_role "admin")) _ _
              eq_refl Hne Hparse eq_refl eq_refl eq_refl)
    as (Hw & Hs & _).
  split; [exact Hw|].
  exact (proj1 (proj2 (Hs (utf16 "Ana") eq_refl))).
Defined.

(** A stored session that is not JSON: [JSON.parse] throws on the second
    line of the script, before the guard.  The script ends there with
    that exception and has changed nothing: no redirect to the login
    page, and the unreadable entry stays in local storage. *)
Theorem corrupt_session_stops_script P (p : Page Admin.Dom) raw e :
  localStorage (win p) !! utf16 "session" = Some raw ->
  raw <> [] ->
  JSON_parse P raw = Throw e ->
  outcome (Admin.page_load P) p = Throw e /\
  exec (Admin.page_load P) p = p.
Proof.
  intros Hraw Hne Hparse. unfold outcome, exec.
  rewrite page_load_run, (stored_session_parsed _ _ _ Hraw Hne), Hparse.
  split; reflexivity.
Qed.

Lemma corrupt_session_stops_script_witness :
  let p := admin_page "{token:" "" "" "" in
  exec (Admin.page_load Sample.platform) p = p /\
  localStorage (win p) !! utf16 "session" = Some (utf16 "{token:").
Proof.
  cbn zeta.
  assert (Hne : utf16 "{token:" <> []) by (vm_compute; discriminate).
  assert (Hparse : JSON_parse Sample.platform (utf16 "{token:")
                   = Throw {| kind := SyntaxError;
                              message := utf16 "Unexpected token in JSON" |})
    by (vm_compute; reflexivity).
  split; [|reflexivity].
  exact (proj2 (corrupt_session_stops_script Sample.platform
                  (admin_page "{token:" "" "" "") _ _ eq_refl Hne Hparse)).
Defined.

(** [goLogin], the handler of the logout button: the entry "session" is
    removed and every other entry of local storage kept, the location is
    the login page, and nothing else of the page changes. *)
Theorem logout_removes_only_the_session (p : Page Admin.Dom) :
  let p' := exec Admin.goLogin p in
  outcome Admin.goLogin p = Ok tt /\
  (forall k, localStorage (win p') !! k =
             if decide (k = utf16 "session") then None else localStorage (win p) !! k) /\
  location_href (win p') = utf16 "./login.html" /\
  timers (win p') = timers (win p) /\
  alerts (win p') = alerts (win p) /\
  dom p' = dom p.
Proof.
  cbn zeta. unfold outcome, exec. rewrite admin_goLogin_run.
  open_admin_page p. run_page. repeat split.
  intros k. destruct (decide (k = utf16 "session")) as [->|Hk].
  - apply lookup_delete_eq.
  - apply lookup_delete_ne. congruence.
Qed.

(** After a logout the admin page cannot be loaded again: the script
    finds no session, removes the entry once more, sets the location to
    the login page and stops, the elements of the page untouched. *)
Theorem reload_after_logout_redirects P (p : Page Admin.Dom) (d : Admin.Dom) :
  let reloaded := {| win := win (exec Admin.goLogin p); dom := d |} in
  let p' := exec (Admin.page_load P) reloaded in
  outcome (Admin.page_load P) reloaded
    = Throw {| kind := TypeError; message := null_read_message P (utf16 "user") |} /\
  localStorage (win p') !! utf16 "session" = None /\
  location_href (win p') = utf16 "./login.html" /\
  dom p' = d.
Proof.
  cbn zeta.
  assert (Hs : stored_session P (win (exec Admin.goLogin p)) = Ok VNull).
  { unfold exec. rewrite admin_goLogin_run. unfold stored_session.
    open_admin_page p. run_page. now rewrite lookup_delete_eq. }
  destruct (absent_session_redirects P
              {| win := win (exec Admin.goLogin p); dom := d |} Hs)
    as (Ho & Hst & Hl & _ & Hd).
  split; [exact Ho|]. split; [|split; [exact Hl | exact Hd]].
  rewrite Hst. apply lookup_delete_eq.
Qed.

Lemma res_ok_not_204 res : res_ok res = false -> (status res =? 204) = false.
Proof.
  unfold res_ok. intros H. apply N.eqb_neq. intros E. rewrite E in H.
  discriminate H.
Qed.

(** [apiFetch] on an answered request never throws, not even when the
    body is not JSON: it returns the status, whether it is in 200-299,
    and the parsed body, or [null] in place of a body that does not
    parse; a status of 204 is reported as a success without data whatever
    the body.  It touches local storage and the location only on a status
    of 401.  On a rejected [fetch] it throws the rejection and touches
    neither. *)
Theorem apiFetch_result net path options (p : Page Admin.Dom) :
  let rq := {| url := Admin.API_BASE ++ path; opts := options |} in
  let p' := exec (Admin.apiFetch net path options) p in
  trace (win p') = trace (win p) ++ [EvFetch rq; EvSettled] /\
  dom p' = dom p /\
  (forall res, net rq = Fulfilled res ->
     (exists r, outcome (Admin.apiFetch net path options) p = Ok r /\
        (status res = 204 ->
         Admin.ok r = true /\ Admin.r_status r = 204 /\ Admin.data r = VNull) /\
        (status res <> 204 ->
         Admin.ok r = res_ok res /\ Admin.r_status r = status res /\
         Admin.data r = match json res with Ok v => v | Throw _ => VNull end)) /\
     (status res <> 401 ->
      localStorage (win p') = localStorage (win p) /\
      location_href (win p') = location_href (win p))) /\
  (forall e, net rq = Rejected e ->
     outcome (Admin.apiFetch net path options) p = Throw e /\
     localStorage (win p') = localStorage (win p) /\
     location_href (win p') = location_href (win p)).
Proof.
  cbn zeta. unfold outcome, exec. rewrite apiFetch_run. cbn zeta.
  split; [|split; [|split]].
  - destruct (net _) as [[st js]|e]; unfold after_response; cbn [status];
      [destruct (st =? 401)|]; open_admin_page p; run_page;
      rewrite app2_assoc; reflexivity.
  - destruct (net _) as [res|e]; reflexivity.
  - intros res ->. cbn [fst snd]. split.
    + exists (api_result res). split; [reflexivity|].
      unfold api_result. split.
      * intros ->. repeat split.
      * intros Hne. apply N.eqb_neq in Hne. rewrite Hne. repeat split.
    + intros Hne. unfold after_response. apply N.eqb_neq in Hne. rewrite Hne.
      split; reflexivity.
  - intros e ->. repeat split.
Qed.

Lemma apiFetch_result_witness :
  exists r,
    outcome (Admin.apiFetch (net_answers res_server_error) (utf16 "/admin/users")
               {| method := utf16 "POST"; headers := []; body := [] |})
      (admin_page "{}" "" "" "") = Ok r /\
    Admin.ok r = false /\ Admin.r_status r = 500 /\ Admin.data r = VNull.
Proof.
  destruct (apiFetch_result (net_answers res_server_error) (utf16 "/admin/users")
              {| method := utf16 "POST"; headers := []; body := [] |}
              (admin_page "{}" "" "" "")) as (_ & _ & Hres & _).
  destruct (Hres res_server_error eq_refl) as [(r & Hr & _ & H) _].
  exists r. split; [exact Hr|].
  apply H. discriminate.
Defined.

(** A creation that the API refuses (a status outside 200-299), for a
    session whose token has a conversion to a string: the message area is
    styled "msg bad", the fields keep what the user typed and the button
    is enabled again.  The message area shows "No se pudo crear (N)",
    with the status in decimal, when the body has no detail or a falsy
    one, also when the body is not JSON; and otherwise the detail
    converted to a string (a string detail as it is).  When the detail
    has no conversion to a string the handler ends with the TypeError of
    the conversion, the message area styled "msg bad" and its text
    empty. *)
Theorem refused_creation_is_reported
  P session net (p : Page Admin.Dom) payload res :
  nullish session = false ->
  printable (prop session (utf16 "token")) = true ->
  admin_checked P (dom p) = Some payload ->
  net (admin_request P session payload) = Fulfilled res ->
  res_ok res = false ->
  let p' := exec (Admin.submit P session net) p in
  Admin.msg_className (dom p') = utf16 "msg " ++ utf16 "bad" /\
  Admin.name_value (dom p') = Admin.name_value (dom p) /\
  Admin.email_value (dom p') = Admin.email_value (dom p) /\
  Admin.password_value (dom p') = Admin.password_value (dom p) /\
  Admin.role_value (dom p') = Admin.role_value (dom p) /\
  Admin.btn_disabled (dom p') = false /\
  (forall s, detail_of res = VStr s -> s <> [] ->
     outcome (Admin.submit P session net) p = Ok tt /\
     Admin.msg_text (dom p') = s) /\
  (truthy (detail_of res) = false ->
   outcome (Admin.submit P session net) p = Ok tt /\
   Admin.msg_text (dom p') =
     utf16 "No se pudo crear (" ++ N_to_string (status res) ++ utf16 ")") /\
  (truthy (detail_of res) = true ->
   forall t, to_string (detail_of res) = Some t ->
     outcome (Admin.submit P session net) p = Ok tt /\
     Admin.msg_text (dom p') = t) /\
  (truthy (detail_of res) = true -> to_string (detail_of res) = None ->
   outcome (Admin.submit P session net) p = Throw (conversion_error P) /\
   Admin.msg_text (dom p') = []).
Proof.
  intros Hs Htok Hc Hnet Hok. cbn zeta. unfold outcome, exec.
  rewrite admin_submit_run, Hc. cbn zeta. rewrite Hs, Htok, Hnet. cbn [negb].
  unfold api_result. rewrite (res_ok_not_204 _ Hok).
  cbn [Admin.ok]. rewrite Hok.
  assert (Hd : (if nullish (match json res with Ok v => v | Throw _ => VNull end)
                then VUndef
                else prop (match json res with Ok v => v | Throw _ => VNull end)
                       (utf16 "detail")) = detail_of res).
  { unfold detail_of. destruct (json res); reflexivity. }
  unfold admin_refused, admin_refusing, refusal_value, printable, text.
  cbn [Admin.data Admin.r_status]. rewrite Hd.
  generalize (detail_of res) as detail. intros detail.
  clear. destruct res as [st js]. cbn [status].
  unfold js_or.
  destruct (truthy detail) eqn:Ht.
  - destruct (to_string detail) as [t|] eqn:Hts;
      open_admin_page p; run_page; conjuncts; try reflexivity.
    + intros s -> Hne. cbn [to_string] in Hts. injection Hts as <-.
      split; reflexivity.
    + intros H; discriminate H.
    + intros _ t' [= <-]. split; reflexivity.
    + intros _ H; discriminate H.
    + intros s -> Hne. discriminate Hts.
    + intros H; discriminate H.
    + intros _ t' H; discriminate H.
    + intros _ _. split; reflexivity.
  - cbn [to_string]. open_admin_page p. run_page. conjuncts; try reflexivity.
    + intros s -> Hne. destruct s; [congruence | discriminate Ht].
    + intros _. split; reflexivity.
    + intros H; discriminate H.
    + intros H; discriminate H.
Qed.

Lemma refused_creation_is_reported_witness :
  let p := admin_page "{}" "Ana" "ana@test.com" "secreto" in
  Admin.msg_text
    (dom (exec (Admin.submit Sample.platform admin_session
                  (net_answers res_conflict)) p))
  = utf16 "Email ya registrado" /\
  Admin.msg_text
    (dom (exec (Admin.submit Sample.platform admin_session
                  (net_answers res_server_error)) p))
  = utf16 "No se pudo crear (" ++ N_to_string 500 ++ utf16 ")" /\
  outcome (Admin.submit Sample.platform admin_session (net_answers res_bad_detail)) p
  = Throw (conversion_error Sample.platform).
Proof.
  cbn zeta.
  set (p := admin_page "{}" "Ana" "ana@test.com" "secreto").
  assert (Hc : admin_checked Sample.platform (dom p)
               = Some (Admin.read_payload Sample.platform (dom p)))
    by (vm_compute; reflexivity).
  assert (Hne : utf16 "Email ya registrado" <> []) by (vm_compute; discriminate).
  assert (Hun : to_string (detail_of res_bad_detail) = None)
    by (vm_compute; reflexivity).
  split; [|split].
  - destruct (refused_creation_is_reported Sample.platform admin_session
                (net_answers res_conflict) p _ res_conflict
                eq_refl eq_refl Hc eq_refl eq_refl)
      as (_ & _ & _ & _ & _ & _ & Hd & _).
    exact (proj2 (Hd _ eq_refl Hne)).
  - destruct (refused_creation_is_reported Sample.platform admin_session
                (net_answers res_server_error) p _ res_server_error
                eq_refl eq_refl Hc eq_refl eq_refl)
      as (_ & _ & _ & _ & _ & _ & _ & Hf & _).
    exact (proj2 (Hf eq_refl)).
  - destruct (refused_creation_is_reported Sample.platform admin_session
                (net_answers res_bad_detail) p _ res_bad_detail
                eq_refl eq_refl Hc eq_refl eq_refl)
      as (_ & _ & _ & _ & _ & _ & _ & _ & _ & Hu).
    exact (proj1 (Hu eq_refl Hun)).
Defined.



Lemma api_result_without_data res :
  (Admin.ok (api_result res) = true /\ nullish (Admin.data (api_result res)) = true)
  <-> success_without_data res.
Proof.
  unfold api_result, success_without_data.
  destruct (N.eqb_spec (status res) 204) as [E|E]; cbn [Admin.ok Admin.data].
  - split; [auto|]. intros _. split; reflexivity.
  - split.
    + intros [Hok Hn]. right. split; [exact Hok|].
      destruct (json res); [exact Hn | exact I].
    + intros [H|[Hok Hn]]; [contradiction|]. split; [exact Hok|].
      destruct (json res); [exact Hn | reflexivity].
Qed.

(** The exceptions of the create-user handler, which has no [try]: the
    handler ends with an exception exactly when the values pass the
    checks and one of these holds: the session is [null] or its token
    has no conversion to a string (building the headers throws); [fetch]
    rejects; the answer is a success without data that can be read (a
    status of 204, or a status in 200-299 with a body that is not JSON
    or is [null]); the answer is a success whose data has an email or a
    role without a conversion to a string; the answer is a refusal whose
    detail is truthy and has no conversion to a string. *)
Theorem create_user_exceptions P session net (p : Page Admin.Dom) :
  outcome (Admin.submit P session net) p <> Ok tt <->
  exists payload,
    admin_checked P (dom p) = Some payload /\
    (nullish session = true \/
     printable (prop session (utf16 "token")) = false \/
     (exists e, net (admin_request P session payload) = Rejected e) \/
     (exists res, net (admin_request P session payload) = Fulfilled res /\
        (success_without_data res \/
         (Admin.ok (api_result res) = true /\
          confirmable (Admin.data (api_result res)) = false) \/
         (Admin.ok (api_result res) = false /\
          truthy (detail_of res) = true /\
          printable (detail_of res) = false)))).
Proof.
  unfold outcome. rewrite admin_submit_run.
  destruct (admin_checked P (dom p)) as [payload|]; cbn zeta.
  2:{ cbn [fst]. split; [intros H; now contradiction H|].
      intros (pl & Hpl & _). discriminate Hpl. }
  destruct (nullish session) eqn:Hs.
  { cbn [fst]. split; [|intros _; discriminate].
    intros _. exists payload. split; [reflexivity|]. now left. }
  destruct (printable (prop session (utf16 "token"))) eqn:Htok; cbn [negb].
  2:{ cbn [fst]. split; [|intros _; discriminate].
      intros _. exists payload. split; [reflexivity|]. right. now left. }
  destruct (net (admin_request P session payload)) as [res|e] eqn:Hnet.
  2:{ cbn [fst]. split; [|intros _; discriminate].
      intros _. exists payload. split; [reflexivity|]. right. right. left. eauto. }
  pose proof (api_result_without_data res) as Hwd.
  assert (Hrv : Admin.ok (api_result res) = false ->
                printable (refusal_value (api_result res))
                = negb (truthy (detail_of res) && negb (printable (detail_of res)))).
  { unfold api_result, refusal_value, detail_of, js_or.
    destruct (status res =? 204); cbn [Admin.ok Admin.data Admin.r_status];
      [discriminate|]. intros _.
    destruct (json res) as [data|e]; cbn [nullish].
    - destruct (nullish data); cbn [truthy]; [reflexivity|].
      destruct (truthy (prop data (utf16 "detail"))); cbn [andb negb].
      + now rewrite negb_involutive.
      + reflexivity.
    - reflexivity. }
  destruct (Admin.ok (api_result res)) eqn:Hok.
  - clear Hrv. destruct (nullish (Admin.data (api_result res))) eqn:Hn.
    + cbn [fst]. split; [|intros _; discriminate].
      intros _. exists payload. split; [reflexivity|]. right. right. right.
      exists res. split; [exact Hnet|]. left. now apply Hwd.
    + destruct (confirmable (Admin.data (api_result res))) eqn:Hcf; cbn [fst].
      * split; [intros H; now contradiction H|].
        intros (pl & [= <-] & [H|[H|[[e He]|(res' & Hr & Hw)]]]);
          try congruence.
        rewrite Hnet in Hr. injection Hr as <-.
        destruct Hw as [Hw|[[_ Hw]|[Hw _]]]; try congruence.
        apply Hwd in Hw as [_ Hw]. congruence.
      * split; [|intros _; discriminate].
        intros _. exists payload. split; [reflexivity|]. right. right. right.
        exists res. split; [exact Hnet|]. right. left. split; [exact Hok | exact Hcf].
  - rewrite (Hrv eq_refl). clear Hrv.
    destruct (truthy (detail_of res)) eqn:Ht;
      destruct (printable (detail_of res)) eqn:Hpr; cbn [andb negb fst].
    2:{ split; [|intros _; discriminate].
        intros _. exists payload. split; [reflexivity|]. right. right. right.
        exists res. split; [exact Hnet|]. right. right. auto. }
    all: split; [intros H; now contradiction H|].
    all: intros (pl & [= <-] & [H|[H|[[e He]|(res' & Hr & Hw)]]]);
           try congruence.
    all: rewrite Hnet in Hr; injection Hr as <-.
    all: destruct Hw as [Hw|[[Hw _]|(_ & Hw1 & Hw2)]]; try congruence.
    all: apply Hwd in Hw as [Hw _]; congruence.
Qed.

Lemma create_user_exceptions_witness :
  outcome (Admin.submit Sample.platform admin_session (net_answers res_html_ok))
    (admin_page "{}" "Ana" "ana@test.com" "secreto") <> Ok tt.
Proof.
  apply (create_user_exceptions Sample.platform admin_session
           (net_answers res_html_ok)
           (admin_page "{}" "Ana" "ana@test.com" "secreto")).
  eexists. split; [vm_compute; reflexivity|].
  right. right. right. exists res_html_ok. split; [reflexivity|].
  left. right. split; [reflexivity | exact I].
Defined.

(** ** More of the login page *)

Lemma classList_remove_spec c (l : list jsstring) x :
  x ∈ Login.classList_remove c l <-> x ∈ l /\ x <> c.
Proof.
  unfold Login.classList_remove. rewrite list_elem_of_filter, str_eqb_neq. tauto.
Qed.

Lemma classList_add_spec c (l : list jsstring) x :
  x ∈ Login.classList_add c l <-> x ∈ l \/ x = c.
Proof.
  unfold Login.classList_add. destruct (existsb (str_eqb c) l) eqn:E.
  - split; [auto|]. intros [H | Hx]; [exact H|]. subst x.
    apply existsb_exists in E as (y & Hy & Hcy). apply str_eqb_eq in Hcy.
    subst y. now apply list_elem_of_In.
  - rewrite elem_of_app, list_elem_of_singleton. tauto.
Qed.

(** No exception leaves the login handlers: whatever the fields hold and
    whatever the network answers or fails with, the handler returns
    normally. *)
Theorem login_handlers_never_throw P net (p : Page Login.Dom) :
  outcome (LoginApi.submit P net) p = Ok tt /\
  outcome (LoginDemo.submit P) p = Ok tt.
Proof.
  unfold outcome. rewrite api_submit_run, demo_submit_run. split; reflexivity.
Qed.

(** A sign-in through the API while the network is down: the rejection
    of [fetch] is caught, its message is shown, or "No se pudo iniciar
    sesión." when it has none, nothing is stored and no redirect is
    scheduled, and the button is enabled again. *)
Theorem login_network_error_is_shown P net (p : Page Login.Dom) eVal pVal e :
  login_checked (dom p) = Some (eVal, pVal) ->
  net (LoginApi.login_request P eVal pVal) = Rejected e ->
  let p' := exec (LoginApi.submit P net) p in
  Login.formMsg_text (dom p') =
    (match message e with
     | [] => utf16 "No se pudo iniciar sesión."
     | m => m
     end) /\
  Login.formMsg_display (dom p') = utf16 "block" /\
  localStorage (win p') = localStorage (win p) /\
  timers (win p') = timers (win p) /\
  location_href (win p') = location_href (win p) /\
  Login.btnLogin_disabled (dom p') = false.
Proof.
  intros Hc Hnet. cbn zeta. unfold exec.
  rewrite api_submit_run, Hc. cbn zeta. rewrite Hnet. unfold api_verdict.
  clear. open_login_page p. run_page. unfold failure_text.
  destruct (message e); repeat split.
Qed.

Lemma login_network_error_is_shown_witness :
  let p := login_page "kevin@test.com" "123456" in
  let p' := exec (LoginApi.submit Sample.platform net_down) p in
  Login.formMsg_text (dom p') = utf16 "Failed to fetch" /\
  localStorage (win p') = localStorage (win p).
Proof.
  cbn zeta.
  set (p := login_page "kevin@test.com" "123456").
  assert (Hc : login_checked (dom p) = Some (utf16 "kevin@test.com", utf16 "123456"))
    by (vm_compute; reflexivity).
  destruct (login_network_error_is_shown Sample.platform net_down p _ _
              {| kind := TypeError; message := utf16 "Failed to fetch" |}
              Hc eq_refl) as (Hm & _ & Hs & _).
  split; [|exact Hs]. rewrite Hm. vm_compute. reflexivity.
Defined.

(** A sign-in answered with a status in 200-299 whose body is not JSON,
    or is [null], is treated as a failure: nothing is stored, no redirect
    is scheduled, and a message is shown, the one of the exception. *)
Theorem login_success_without_body_fails P net (p : Page Login.Dom) eVal pVal res :
  login_checked (dom p) = Some (eVal, pVal) ->
  net (LoginApi.login_request P eVal pVal) = Fulfilled res ->
  res_ok res = true ->
  match json res with
  | Ok data => nullish data = true
  | Throw _ => True
  end ->
  let p' := exec (LoginApi.submit P net) p in
  localStorage (win p') = localStorage (win p) /\
  timers (win p') = timers (win p) /\
  Login.formMsg_display (dom p') = utf16 "block" /\
  Login.formMsg_text (dom p') <> [] /\
  (forall e, json res = Throw e ->
             Login.formMsg_text (dom p') = failure_text (message e)).
Proof.
  intros Hc Hnet Hok Hjs. cbn zeta. unfold exec.
  rewrite api_submit_run, Hc. cbn zeta. rewrite Hnet. unfold api_verdict.
  rewrite Hok. clear Hc Hnet Hok.
  destruct (json res) as [data|e0]; [rewrite Hjs|]; clear Hjs;
    open_login_page p; run_page; cbn [message].
  - repeat split; [apply failure_text_nonempty | discriminate].
  - repeat split; [apply failure_text_nonempty|].
    intros e [= <-]. reflexivity.
Qed.

Lemma login_success_without_body_fails_witness :
  let p := login_page "kevin@test.com" "123456" in
  let p' := exec (LoginApi.submit Sample.platform (net_answers res_html_ok)) p in
  localStorage (win p') = localStorage (win p) /\ timers (win p') = timers (win p).
Proof.
  cbn zeta.
  set (p := login_page "kevin@test.com" "123456").
  assert (Hc : login_checked (dom p) = Some (utf16 "kevin@test.com", utf16 "123456"))
    by (vm_compute; reflexivity).
  destruct (login_success_without_body_fails Sample.platform
              (net_answers res_html_ok) p _ _ res_html_ok Hc eq_refl eq_refl I)
    as (Hs & Ht & _).
  split; assumption.
Defined.

(** The message area after a submission through the API is in one of two
    states.  Either the sign-in went through: the area carries the class
    "ok", is displayed, says "¡Login correcto! Redirigiendo…", and the
    session is stored and the redirect scheduled.  Or it did not: the
    area does not carry the class "ok", whatever it carried before, and
    local storage and the timers are as they were.  A failure is never
    styled as a success.  The other classes of the area are kept. *)
Theorem login_message_area_states P net (p : Page Login.Dom) :
  let p' := exec (LoginApi.submit P net) p in
  ((utf16 "ok" ∈ Login.formMsg_classList (dom p') /\
    Login.formMsg_display (dom p') = utf16 "block" /\
    Login.formMsg_text (dom p') = utf16 "¡Login correcto! Redirigiendo…" /\
    is_Some (localStorage (win p') !! utf16 "session") /\
    timers (win p') =
      timers (win p) ++ [(500, Navigate (utf16 "./dashboard.html"))])
   \/
   (~ utf16 "ok" ∈ Login.formMsg_classList (dom p') /\
    localStorage (win p') = localStorage (win p) /\
    timers (win p') = timers (win p))) /\
  (forall c, c <> utf16 "ok" ->
     c ∈ Login.formMsg_classList (dom p') <-> c ∈ Login.formMsg_classList (dom p)).
Proof.
  cbn zeta. unfold exec. rewrite api_submit_run.
  destruct (login_checked (dom p)) as [[eVal pVal]|]; cbn zeta;
    [destruct (api_verdict _ _) as [e|[token user]]|];
    open_login_page p; run_page.
  - split; [right|]; [repeat split|].
    + rewrite classList_remove_spec. tauto.
    + intros c Hc. rewrite classList_remove_spec. tauto.
  - split; [left|]; [repeat split|].
    + rewrite classList_add_spec. auto.
    + rewrite lookup_insert_eq. eauto.
    + intros c Hc. rewrite classList_add_spec, classList_remove_spec. tauto.
  - split; [right|]; [repeat split|].
    + rewrite classList_remove_spec. tauto.
    + intros c Hc. rewrite classList_remove_spec. tauto.
Qed.

(** A submission that fails the checks wipes what an earlier attempt left
    in the message area: on both versions of the page the area is empty
    and hidden afterwards, and does not carry the class "ok". *)
Theorem failed_checks_hide_message_area P net (p : Page Login.Dom) :
  isValidEmail (trim (Login.email_value (dom p))) = false \/
  (length (Login.password_value (dom p)) < 6)%nat ->
  let p1 := exec (LoginApi.submit P net) p in
  let p0 := exec (LoginDemo.submit P) p in
  Login.formMsg_text (dom p1) = [] /\
  Login.formMsg_display (dom p1) = utf16 "none" /\
  ~ utf16 "ok" ∈ Login.formMsg_classList (dom p1) /\
  dom p0 = dom p1.
Proof.
  intros H. cbn zeta.
  assert (Hc : login_checked (dom p) = None).
  { apply login_checked_None. rewrite login_bad_password_short. exact H. }
  unfold exec. rewrite api_submit_run, demo_submit_run, Hc. clear.
  open_login_page p. run_page. repeat split.
  rewrite classList_remove_spec. tauto.
Qed.

Lemma failed_checks_hide_message_area_witness :
  Login.formMsg_display
    (dom (exec (LoginApi.submit Sample.platform net_down)
            (login_page "kevin@test" "123456")))
  = utf16 "none".
Proof.
  assert (H : isValidEmail
                (trim (Login.email_value (dom (login_page "kevin@test" "123456"))))
              = false) by (vm_compute; reflexivity).
  destruct (failed_checks_hide_message_area Sample.platform net_down
              (login_page "kevin@test" "123456") (or_introl H))
    as (_ & Hd & _).
  exact Hd.
Defined.

Lemma subtitle_of_demo_session token eVal remember :
  subtitle_of (session_object token (demo_user eVal) remember)
  = utf16 "Sesión: Kevin · rol: admin".
Proof. vm_compute. reflexivity. Qed.

(** From the login page to the admin page: the session the simulated
    sign-in of [part_000] stores is one the admin script accepts.  On a
    platform whose [JSON.parse] reads back what its [JSON.stringify]
    wrote for that session, loading the admin page after the sign-in
    redirects nowhere, shows no alert, and writes the subtitle
    "Sesión: Kevin · rol: admin". *)
Theorem demo_login_opens_admin_page P (pl : Page Login.Dom) (d : Admin.Dom) :
  trim (Login.email_value (dom pl)) = LoginDemo.demoEmail ->
  Login.password_value (dom pl) = LoginDemo.demoPass ->
  let session :=
    session_object (VStr (utf16 "demo_token_123")) (demo_user LoginDemo.demoEmail)
      (Login.remember_checked (dom pl)) in
  JSON_stringify P session <> [] ->
  JSON_parse P (JSON_stringify P session) = Ok session ->
  let pa := {| win := win (exec (LoginDemo.submit P) pl); dom := d |} in
  let pa' := exec (Admin.page_load P) pa in
  outcome (Admin.page_load P) pa = Ok session /\
  win pa' = win pa /\
  Admin.subtitle_text (dom pa') = utf16 "Sesión: Kevin · rol: admin".
Proof.
  intros He Hp session Hne Hparse. cbn zeta.
  assert (Hc : login_checked (dom pl) = Some (LoginDemo.demoEmail, LoginDemo.demoPass)).
  { unfold login_checked. rewrite He, Hp. vm_compute. reflexivity. }
  assert (Hst : localStorage (win (exec (LoginDemo.submit P) pl)) !! utf16 "session"
                = Some (JSON_stringify P session)).
  { unfold exec. rewrite demo_submit_run, Hc. cbn zeta. rewrite !str_eqb_refl.
    clear. open_login_page pl. run_page. apply lookup_insert_eq. }
  assert (Hg : guard_fires session = false) by (vm_compute; reflexivity).
  assert (Ha : not_admin session = false).
  { subst session. destruct (Login.remember_checked (dom pl));
      vm_compute; reflexivity. }
  assert (Hsub : subtitle_of session = utf16 "Sesión: Kevin · rol: admin")
    by apply subtitle_of_demo_session.
  unfold outcome, exec. rewrite page_load_run.
  cbn [win]. rewrite (stored_session_parsed _ _ _ Hst Hne), Hparse.
  cbn zeta. rewrite Hg, Ha.
  change (nullish session) with false. cbn iota.
  unfold admin_rendered. rewrite Hsub.
  generalize (win (snd (LoginDemo.submit P pl))) as w. intros w.
  clear. destruct w. open_admin_page_dom d. run_page. repeat split.
Qed.

Lemma demo_login_opens_admin_page_witness :
  let pl := login_page " kevin@test.com" "123456" in
  let pa := {| win := win (exec (LoginDemo.submit Sample.platform) pl);
               dom := dom (admin_page "" "" "" "") |} in
  Admin.subtitle_text (dom (exec (Admin.page_load Sample.platform) pa))
  = utf16 "Sesión: Kevin · rol: admin".
Proof.
  cbn zeta.
  set (pl := login_page " kevin@test.com" "123456").
  assert (He : trim (Login.email_value (dom pl)) = LoginDemo.demoEmail)
    by (vm_compute; reflexivity).
  assert (Hne : JSON_stringify Sample.platform
                  (session_object (VStr (utf16 "demo_token_123"))
                     (demo_user LoginDemo.demoEmail) (Login.remember_checked (dom pl)))
                <> []) by (vm_compute; discriminate).
  assert (Hparse : JSON_parse Sample.platform
                     (JSON_stringify Sample.platform
                        (session_object (VStr (utf16 "demo_token_123"))
                           (demo_user LoginDemo.demoEmail)
                           (Login.remember_checked (dom pl))))
                   = Ok (session_object (VStr (utf16 "demo_token_123"))
                           (demo_user LoginDemo.demoEmail)
                           (Login.remember_checked (dom pl))))
    by (vm_compute; reflexivity).
  exact (proj2 (proj2 (demo_login_opens_admin_page Sample.platform pl
                         (dom (admin_page "" "" "" "")) He eq_refl Hne Hparse))).
Defined.

(** ** More of [isValidEmail] *)

Lemma email_char_spec c :
  email_char c = true <-> is_space c = false /\ c <> at_sign.
Proof.
  unfold email_char. rewrite andb_true_iff, !negb_true_iff, N.eqb_neq. tauto.
Qed.

Lemma email_chars_count (l : jsstring) :
  Forall (fun c => email_char c = true) l ->
  count_occ N.eq_dec l at_sign = 0%nat /\ Forall (fun c => is_space c = false) l.
Proof.
  induction 1 as [|c l Hc _ [IH1 IH2]]; [split; [reflexivity | constructor]|].
  apply email_char_spec in Hc as [Hs Ha]. split.
  - rewrite count_occ_cons_neq by exact Ha. exact IH1.
  - constructor; assumption.
Qed.

(** What every string that [isValidEmail] accepts has: no white space
    anywhere, exactly one "@", which is neither its first nor its last
    character, and at least five code units. *)
Theorem valid_email_is_well_formed (s : jsstring) :
  isValidEmail s = true ->
  Forall (fun c => is_space c = false) s /\
  count_occ N.eq_dec s at_sign = 1%nat /\
  (5 <= length s)%nat /\
  head s <> Some at_sign /\
  last s <> Some at_sign.
Proof.
  intros H. apply isValidEmail_shape in H as (l & d & t & -> & Hl & Hd & Ht & HF).
  apply Forall_app in HF as [HFl HF]. apply Forall_app in HF as [HFd HFt].
  destruct (email_chars_count _ HFl) as [Cl Sl].
  destruct (email_chars_count _ HFd) as [Cd Sd].
  destruct (email_chars_count _ HFt) as [Ct St].
  split; [|split; [|split; [|split]]].
  - apply Forall_app. split; [exact Sl|]. constructor; [reflexivity|].
    apply Forall_app. split; [exact Sd|]. constructor; [reflexivity | exact St].
  - rewrite count_occ_app, Cl, count_occ_cons_eq by reflexivity.
    rewrite count_occ_app, Cd, count_occ_cons_neq by discriminate.
    rewrite Ct. reflexivity.
  - rewrite length_app. cbn [length]. rewrite length_app. cbn [length].
    destruct l; [congruence|]. destruct d; [congruence|]. destruct t; [congruence|].
    cbn [length]. lia.
  - destruct l as [|c l]; [congruence|]. cbn [app head].
    inversion HFl as [|? ? Hc _]; subst. apply email_char_spec in Hc as [_ Hc].
    congruence.
  - replace (l ++ at_sign :: d ++ full_stop :: t)
      with ((l ++ at_sign :: d ++ [full_stop]) ++ t)
      by (rewrite <- !app_assoc; cbn [app]; rewrite <- app_assoc; reflexivity).
    destruct (exists_last Ht) as (t' & c & ->).
    rewrite app_assoc, last_snoc.
    apply Forall_app in HFt as [_ HFc]. inversion HFc as [|? ? Hc _]; subst.
    apply email_char_spec in Hc as [_ Hc]. congruence.
Qed.

Lemma valid_email_is_well_formed_witness :
  count_occ N.eq_dec (utf16 "kevin@test.com") at_sign = 1%nat /\
  (5 <= length (utf16 "kevin@test.com"))%nat.
Proof.
  assert (H : isValidEmail (utf16 "kevin@test.com") = true)
    by (vm_compute; reflexivity).
  destruct (valid_email_is_well_formed _ H) as (_ & Hc & Hl & _).
  split; assumption.
Defined.

(** ** Examples of the supporting facts *)

Lemma created_user_is_confirmed_witness :
  let p := admin_page "{}" "Ana" "ana@test.com" "secreto" in
  let p' := exec (Admin.submit Sample.platform admin_session
                    (net_answers res_created)) p in
  Admin.role_value (dom p') = utf16 "user" /\
  Admin.name_value (dom p') = [] /\
  outcome (Admin.submit Sample.platform admin_session (net_answers res_created_odd)) p
  = Throw (conversion_error Sample.platform).
Proof.
  cbn zeta.
  set (p := admin_page "{}" "Ana" "ana@test.com" "secreto").
  assert (Hc : admin_checked Sample.platform (dom p)
               = Some (Admin.read_payload Sample.platform (dom p)))
    by (vm_compute; reflexivity).
  assert (Hst : status res_created <> 204) by discriminate.
  assert (Hst' : status res_created_odd <> 204) by discriminate.
  assert (He : to_string (prop (VObj [(utf16 "email", VStr (utf16 "ana@test.com"));
                                      (utf16 "role", VStr (utf16 "user"))])
                            (utf16 "email")) = Some (utf16 "ana@test.com"))
    by (vm_compute; reflexivity).
  assert (Hro : to_string (prop (VObj [(utf16 "email", VStr (utf16 "ana@test.com"));
                                       (utf16 "role", VStr (utf16 "user"))])
                             (utf16 "role")) = Some (utf16 "user"))
    by (vm_compute; reflexivity).
  assert (Hun : confirmable (VObj [(utf16 "email", unprintable);
                                   (utf16 "role", VStr (utf16 "user"))]) = false)
    by (vm_compute; reflexivity).
  split; [|split].
  - destruct (created_user_is_confirmed Sample.platform admin_session
                (net_answers res_created) p _ res_created _
                eq_refl eq_refl Hc eq_refl Hst eq_refl eq_refl eq_refl)
      as (Hall & _).
    destruct (Hall _ _ He Hro) as (_ & _ & _ & _ & _ & _ & Hr). exact Hr.
  - destruct (created_user_is_confirmed Sample.platform admin_session
                (net_answers res_created) p _ res_created _
                eq_refl eq_refl Hc eq_refl Hst eq_refl eq_refl eq_refl)
      as (Hall & _).
    destruct (Hall _ _ He Hro) as (_ & _ & _ & Hn & _). exact Hn.
  - destruct (created_user_is_confirmed Sample.platform admin_session
                (net_answers res_created_odd) p _ res_created_odd _
                eq_refl eq_refl Hc eq_refl Hst' eq_refl eq_refl eq_refl)
      as (_ & Hodd).
    exact (proj1 (Hodd Hun)).
Defined.


Lemma admin_button_released_witness :
  let p := admin_page "{}" "Ana" "ana@test.com" "secreto" in
  Admin.btn_disabled
    (dom (exec (Admin.submit Sample.platform admin_session
                  (net_answers res_server_error)) p)) = false.
Proof.
  cbn zeta.
  set (p := admin_page "{}" "Ana" "ana@test.com" "secreto").
  assert (Hc : admin_checked Sample.platform (dom p)
               = Some (Admin.read_payload Sample.platform (dom p)))
    by (vm_compute; reflexivity).
  exact (proj1 (admin_button_released Sample.platform admin_session
                  (net_answers res_server_error) p _ res_server_error
                  eq_refl eq_refl Hc eq_refl)).
Defined.
